(** * PANIC alerting core: the System Alerter and the Data Transformers Manager

    A shallow embedding of [src/alerter/alerters/system.py] and
    [src/data_transformers/manager.py], with the properties of the
    specification stated and proved over it.

    Conventions of the embedding.
    - JSON numbers and instants (unix seconds) are exact rationals [Q];
      Python's [==] on numbers is [Qeq_bool], its order is [Qle_bool].
    - JSON [null] / Python [None] is [None]; ordering a number against
      [None] raises [TypeError], as in Python 3.
    - The per-system dictionaries are [gmap string _]; the inner dictionary
      of limiters, keyed by the five module constants, is a record.
    - Mutation and exceptions are threaded by a small state-and-exception
      monad in which the state reached before a [raise] is kept, as a
      Python object mutated before the exception is. *)

From Stdlib Require Import QArith Qround Lqa Lia ZArith List Bool Ascii.
From stdpp Require Import gmap strings list fin_maps.

Open Scope Q_scope.
Open Scope string_scope.
Open Scope list_scope.

(** ** Numbers *)

Definition Qleb (x y : Q) : bool := Qle_bool x y.
Definition Qltb (x y : Q) : bool := negb (Qle_bool y x).

(** ** Exceptions and the state monad *)

Inductive Exn : Type :=
| TypeError
| KeyError
| ReceivedUnexpectedDataException
| JSONDecodeError
| MessageWasNotDeliveredException
| OtherException.

Inductive Res (A : Type) : Type :=
| Ret (a : A)
| Raise (e : Exn).
Arguments Ret {A} a.
Arguments Raise {A} e.

Module PyM.

Definition M (S A : Type) : Type := S -> S * Res A.

Definition ret {S A} (a : A) : M S A := fun s => (s, Ret a).

Definition raise {S A} (e : Exn) : M S A := fun s => (s, Raise e).

Definition bind {S A B} (m : M S A) (k : A -> M S B) : M S B :=
  fun s => match m s with
           | (s', Ret a) => k a s'
           | (s', Raise e) => (s', Raise e)
           end.

Definition get {S} : M S S := fun s => (s, Ret s).

Definition modify {S} (f : S -> S) : M S unit := fun s => (f s, Ret tt).

(** [a and b] with Python's short circuit: [b] runs only when [a] holds. *)
Definition and_ {S} (a b : M S bool) : M S bool :=
  bind a (fun x => if x then b else ret false).

(** [not a]. *)
Definition not_ {S} (a : M S bool) : M S bool :=
  bind a (fun x => ret (negb x)).

(** [if c: body] without an else branch. *)
Definition when {S} (c : bool) (body : M S unit) : M S unit :=
  if c then body else ret tt.

End PyM.
Import PyM.

Declare Scope py_scope.
Delimit Scope py_scope with py.
Notation "'do' x <- m ; k" := (bind m (fun x => k))
  (at level 10, x name, m at level 100, k at level 200,
   format "'[v' 'do'  x  <-  m ; '/' k ']'") : py_scope.
Notation "'run' m ; k" := (bind m (fun _ => k))
  (at level 10, m at level 100, k at level 200,
   format "'[v' 'run'  m ; '/' k ']'") : py_scope.
Notation "a <&&> b" := (and_ a b)
  (at level 40, left associativity) : py_scope.
Open Scope py_scope.

(** Python's ordering of two values either of which may be [None]. *)
Definition py_le {S} (x y : option Q) : M S bool :=
  match x, y with
  | Some a, Some b => ret (Qleb a b)
  | _, _ => raise TypeError
  end.

Definition py_lt {S} (x y : option Q) : M S bool :=
  match x, y with
  | Some a, Some b => ret (Qltb a b)
  | _, _ => raise TypeError
  end.

Definition py_ge {S} (x y : option Q) : M S bool := py_le y x.

(** ** Rate limiter *)

(** Modelled from the spec: the class [TimedTaskLimiter] of
    [src/utils/timing.py], which is not among the sources.  Section 3 of the
    specification: the limiter holds [last_done_at : instant | none] and a
    fixed [interval]; [can_do(now)] iff [last_done_at] is none or
    [now - last_done_at >= interval]; [record(now)] stores [now];
    [reset()] clears it. *)
Record TimedTaskLimiter : Type := mkLimiter {
  time_interval : Q;
  last_time_that_did_task : option Q
}.

(** Modelled from the spec: [new(interval)], a limiter with no prior
    execution. *)
Definition new_limiter (interval : Q) : TimedTaskLimiter :=
  mkLimiter interval None.

(** Modelled from the spec: [can_do(now)] iff [last_done_at] is none or
    [now - last_done_at >= interval]. *)
Definition can_do_task (l : TimedTaskLimiter) (now : Q) : bool :=
  match last_time_that_did_task l with
  | None => true
  | Some t => Qleb (time_interval l) (now - t)
  end.

(** Modelled from the spec: [record(now)] sets [last_done_at := now],
    unconditionally. *)
Definition set_last_time_that_did_task (l : TimedTaskLimiter) (now : Q)
  : TimedTaskLimiter :=
  mkLimiter (time_interval l) (Some now).

(** Modelled from the spec: [reset()] sets [last_done_at := none]. *)
Definition reset (l : TimedTaskLimiter) : TimedTaskLimiter :=
  mkLimiter (time_interval l) None.

(** ** Configuration *)

(** Modelled from the spec: one threshold spec of the alerts configuration
    ([src/configs/system_alerts.py] is not among the sources), by section 3:
    three booleans, two thresholds that are numbers or absent, and the
    critical repeat in seconds.  The source keeps the entries as strings and
    converts them at each use with [str_to_bool],
    [convert_to_float_if_not_none_and_not_empty_str],
    [convert_to_int_if_not_none_and_not_empty_str] and [int] (of
    [src/utils/types.py], not among the sources either); the record holds
    the converted values, an absent threshold being [None]. *)
Record ThresholdSpec : Type := mkSpec {
  enabled : bool;
  warning_enabled : bool;
  critical_enabled : bool;
  warning_threshold : option Q;
  critical_threshold : option Q;
  critical_repeat : Z
}.

(** Modelled from the spec: the alerts configuration of one monitored
    group, by section 3: a parent id and five threshold specs. *)
Record SystemAlertsConfig : Type := mkConfig {
  parent_id : string;
  open_file_descriptors : ThresholdSpec;
  system_cpu_usage : ThresholdSpec;
  system_storage_usage : ThresholdSpec;
  system_ram_usage : ThresholdSpec;
  system_is_down : ThresholdSpec
}.

(** The five limiter names (module constants of [system.py]). *)
Inductive LimiterName : Type :=
| OPEN_FD_LIMITER_NAME
| CPU_USE_LIMITER_NAME
| STORAGE_USE_LIMITER_NAME
| RAM_USE_LIMITER_NAME
| IS_DOWN_LIMITER_NAME.

Definition limiter_key (n : LimiterName) : string :=
  match n with
  | OPEN_FD_LIMITER_NAME => "open_file_descriptors"
  | CPU_USE_LIMITER_NAME => "system_cpu_usage"
  | STORAGE_USE_LIMITER_NAME => "system_storage_usage"
  | RAM_USE_LIMITER_NAME => "system_ram_usage"
  | IS_DOWN_LIMITER_NAME => "system_is_down"
  end.

(** The threshold spec that belongs to a limiter name. *)
Definition config_of (cfg : SystemAlertsConfig) (n : LimiterName)
  : ThresholdSpec :=
  match n with
  | OPEN_FD_LIMITER_NAME => open_file_descriptors cfg
  | CPU_USE_LIMITER_NAME => system_cpu_usage cfg
  | STORAGE_USE_LIMITER_NAME => system_storage_usage cfg
  | RAM_USE_LIMITER_NAME => system_ram_usage cfg
  | IS_DOWN_LIMITER_NAME => system_is_down cfg
  end.

(** The inner dictionary [critical_limiters], one limiter per name. *)
Record CriticalLimiters : Type := mkLimiters {
  open_fd_limiter : TimedTaskLimiter;
  cpu_use_limiter : TimedTaskLimiter;
  storage_use_limiter : TimedTaskLimiter;
  ram_use_limiter : TimedTaskLimiter;
  is_down_limiter : TimedTaskLimiter
}.

Definition get_limiter (n : LimiterName) (ls : CriticalLimiters)
  : TimedTaskLimiter :=
  match n with
  | OPEN_FD_LIMITER_NAME => open_fd_limiter ls
  | CPU_USE_LIMITER_NAME => cpu_use_limiter ls
  | STORAGE_USE_LIMITER_NAME => storage_use_limiter ls
  | RAM_USE_LIMITER_NAME => ram_use_limiter ls
  | IS_DOWN_LIMITER_NAME => is_down_limiter ls
  end.

Definition update_limiter (n : LimiterName)
  (f : TimedTaskLimiter -> TimedTaskLimiter) (ls : CriticalLimiters)
  : CriticalLimiters :=
  match n with
  | OPEN_FD_LIMITER_NAME =>
      mkLimiters (f (open_fd_limiter ls)) (cpu_use_limiter ls)
        (storage_use_limiter ls) (ram_use_limiter ls) (is_down_limiter ls)
  | CPU_USE_LIMITER_NAME =>
      mkLimiters (open_fd_limiter ls) (f (cpu_use_limiter ls))
        (storage_use_limiter ls) (ram_use_limiter ls) (is_down_limiter ls)
  | STORAGE_USE_LIMITER_NAME =>
      mkLimiters (open_fd_limiter ls) (cpu_use_limiter ls)
        (f (storage_use_limiter ls)) (ram_use_limiter ls) (is_down_limiter ls)
  | RAM_USE_LIMITER_NAME =>
      mkLimiters (open_fd_limiter ls) (cpu_use_limiter ls)
        (storage_use_limiter ls) (f (ram_use_limiter ls)) (is_down_limiter ls)
  | IS_DOWN_LIMITER_NAME =>
      mkLimiters (open_fd_limiter ls) (cpu_use_limiter ls)
        (storage_use_limiter ls) (ram_use_limiter ls) (f (is_down_limiter ls))
  end.

(** ** Alerts *)

Inductive Severity : Type := INFO | WARNING | CRITICAL | ERROR.

Inductive AlertClass : Type :=
| OpenFileDescriptorsIncreasedAboveThresholdAlert
| OpenFileDescriptorsDecreasedBelowThresholdAlert
| SystemCPUUsageIncreasedAboveThresholdAlert
| SystemCPUUsageDecreasedBelowThresholdAlert
| SystemStorageUsageIncreasedAboveThresholdAlert
| SystemStorageUsageDecreasedBelowThresholdAlert
| SystemRAMUsageIncreasedAboveThresholdAlert
| SystemRAMUsageDecreasedBelowThresholdAlert
| SystemWentDownAtAlert
| SystemStillDownAlert
| SystemBackUpAgainAlert
| InvalidUrlAlert
| MetricNotFoundErrorAlert.

(** Modelled from the spec: the alert classes of
    [src/alerter/alerts/system_alerts.py], which are not among the sources.
    An alert is an immutable record (section 3); [alert_data] is modelled as
    the class together with the arguments of the constructor call:
    the origin name or message, the value, the severity, the timestamp, the
    severity of the threshold crossed, the parent id and the system id. *)
Record Alert : Type := mkAlert {
  alert_class : AlertClass;
  alert_origin : string;
  alert_value : option Q;
  alert_severity : Severity;
  alert_timestamp : Q;
  alert_threshold_severity : option Severity;
  alert_parent_id : string;
  alert_origin_id : string
}.

(** ** Incoming messages *)

Record Sample : Type := mkSample {
  current : option Q;
  previous : option Q
}.

(** [result.data], by the incoming result schema. *)
Record Metrics : Type := mkMetrics {
  m_open_file_descriptors : Sample;
  m_system_storage_usage : Sample;
  m_system_cpu_usage : Sample;
  m_system_ram_usage : Sample;
  m_went_down_at : Sample
}.

(** [result.meta_data]. *)
Record MetaData : Type := mkMeta {
  system_id : string;
  system_parent_id : string;
  system_name : string;
  last_monitored : Q
}.

(** [error.meta_data]. *)
Record ErrorMetaData : Type := mkErrMeta {
  time : Q;
  err_system_id : string;
  err_system_parent_id : string;
  err_system_name : string
}.

(** [error]: [err_went_down_at] is [error.data.went_down_at]. *)
Record ErrorData : Type := mkError {
  code : Z;
  message : string;
  err_meta_data : ErrorMetaData;
  err_went_down_at : Sample
}.

(** ** Alerter state *)

Record Store : Type := mkStore {
  _system_initial_downtime_alert_sent : gmap string bool;
  _system_critical_timed_task_limiters : gmap string CriticalLimiters
}.

(** The state a classification runs in: the alerter's dictionaries and the
    list [data_for_alerting] that the caller passes by reference. *)
Record CState : Type := mkCState {
  store : Store;
  data_for_alerting : list Alert
}.

Definition initial_store : Store := mkStore ∅ ∅.

(** [data_for_alerting.append(alert.alert_data)] *)
Definition append (a : Alert) : M CState unit :=
  modify (fun s => mkCState (store s) (data_for_alerting s ++ [a])).

(** [self._system_critical_timed_task_limiters[system_id]] *)
Definition lookup_limiters (sid : string) : M CState CriticalLimiters :=
  do s <- get;
  match _system_critical_timed_task_limiters (store s) !! sid with
  | Some ls => ret ls
  | None => raise KeyError
  end.

(** The limiter object [critical_limiters[name]] lives in the dictionary of
    system [sid]; a method call on it reads or updates it in place. *)
Definition limiter_can_do_task (sid : string) (n : LimiterName) (now : Q)
  : M CState bool :=
  do ls <- lookup_limiters sid;
  ret (can_do_task (get_limiter n ls) now).

Definition limiter_update (sid : string) (n : LimiterName)
  (f : TimedTaskLimiter -> TimedTaskLimiter) : M CState unit :=
  modify (fun s =>
    mkCState
      (mkStore (_system_initial_downtime_alert_sent (store s))
         (alter (update_limiter n f) sid
            (_system_critical_timed_task_limiters (store s))))
      (data_for_alerting s)).

Definition limiter_set_last_time_that_did_task (sid : string)
  (n : LimiterName) (now : Q) : M CState unit :=
  limiter_update sid n (fun l => set_last_time_that_did_task l now).

Definition limiter_reset (sid : string) (n : LimiterName) : M CState unit :=
  limiter_update sid n reset.

(** [self._system_initial_downtime_alert_sent[system_id]] *)
Definition initial_downtime_alert_sent (sid : string) : M CState bool :=
  do s <- get;
  match _system_initial_downtime_alert_sent (store s) !! sid with
  | Some b => ret b
  | None => raise KeyError
  end.

(** [self._system_initial_downtime_alert_sent[system_id] = b] *)
Definition set_initial_downtime_alert_sent (sid : string) (b : bool)
  : M CState unit :=
  modify (fun s =>
    mkCState
      (mkStore (<[sid := b]> (_system_initial_downtime_alert_sent (store s)))
         (_system_critical_timed_task_limiters (store s)))
      (data_for_alerting s)).

(** ** Metric classification *)

(** The call [alert_class(system_name, current, severity, last_monitored,
    threshold_severity, system_parent_id, system_id).alert_data]. *)
Definition threshold_alert (cls : AlertClass) (meta_data : MetaData)
  (current : Q) (severity threshold_severity : Severity) : Alert :=
  mkAlert cls (system_name meta_data) (Some current) severity
    (last_monitored meta_data) (Some threshold_severity)
    (system_parent_id meta_data) (system_id meta_data).

Definition _classify_alert (current : Q) (previous : option Q)
  (config : ThresholdSpec) (meta_data : MetaData)
  (increased_above_threshold_alert decreased_below_threshold_alert : AlertClass)
  (critical_limiter_name : LimiterName) : M CState unit :=
  let warning_threshold := warning_threshold config in
  let critical_threshold := critical_threshold config in
  let warning_enabled := warning_enabled config in
  let critical_enabled := critical_enabled config in
  let sid := system_id meta_data in
  do critical_limiters <- lookup_limiters sid;
  run when warning_enabled (
    do increased <-
      py_le warning_threshold (Some current)
      <&&> py_lt (Some current) critical_threshold
      <&&> not_ (py_le warning_threshold previous);
    if increased then
      append (threshold_alert increased_above_threshold_alert meta_data
                current WARNING WARNING)
    else
      do decreased <-
        py_lt (Some current) warning_threshold
        <&&> py_le warning_threshold previous;
      when decreased
        (append (threshold_alert decreased_below_threshold_alert meta_data
                   current INFO WARNING)));
  when critical_enabled (
    let monitoring_datetime := last_monitored meta_data in
    do increased <-
      py_ge (Some current) critical_threshold
      <&&> limiter_can_do_task sid critical_limiter_name monitoring_datetime;
    if increased then
      run append (threshold_alert increased_above_threshold_alert meta_data
                    current CRITICAL CRITICAL);
      limiter_set_last_time_that_did_task sid critical_limiter_name
        monitoring_datetime
    else
      do decreased <-
        py_lt warning_threshold (Some current)
        <&&> py_lt (Some current) critical_threshold
        <&&> py_le critical_threshold previous;
      when decreased (
        run append (threshold_alert decreased_below_threshold_alert meta_data
                      current INFO CRITICAL);
        limiter_reset sid critical_limiter_name)).

(** ** State creation *)

Definition new_critical_limiters (cfg : SystemAlertsConfig)
  : CriticalLimiters :=
  let open_fd := open_file_descriptors cfg in
  let cpu_use := system_cpu_usage cfg in
  let storage := system_storage_usage cfg in
  let ram_use := system_ram_usage cfg in
  let is_down := system_is_down cfg in
  mkLimiters
    (new_limiter (inject_Z (critical_repeat open_fd)))
    (new_limiter (inject_Z (critical_repeat cpu_use)))
    (new_limiter (inject_Z (critical_repeat storage)))
    (new_limiter (inject_Z (critical_repeat ram_use)))
    (new_limiter (inject_Z (critical_repeat is_down))).

Definition _create_state_for_system (cfg : SystemAlertsConfig)
  (system_id : string) : M CState unit :=
  modify (fun s =>
    let sent := _system_initial_downtime_alert_sent (store s) in
    let limiters := _system_critical_timed_task_limiters (store s) in
    mkCState
      (mkStore
         (match sent !! system_id with
          | None => <[system_id := false]> sent
          | Some _ => sent
          end)
         (match limiters !! system_id with
          | None => <[system_id := new_critical_limiters cfg]> limiters
          | Some _ => limiters
          end))
      (data_for_alerting s)).

(** ** The error path *)

(** [alert_class(message, 'ERROR', time, system_parent_id, system_id)] *)
Definition error_alert (cls : AlertClass) (error_message : string)
  (meta_data : ErrorMetaData) : Alert :=
  mkAlert cls error_message None ERROR (time meta_data) None
    (err_system_parent_id meta_data) (err_system_id meta_data).

(** [SystemWentDownAtAlert(system_name, severity, time, system_parent_id,
    system_id)] *)
Definition went_down_alert (meta_data : ErrorMetaData) (severity : Severity)
  : Alert :=
  mkAlert SystemWentDownAtAlert (err_system_name meta_data) None severity
    (time meta_data) None
    (err_system_parent_id meta_data) (err_system_id meta_data).

(** [SystemStillDownAlert(system_name, downtime, 'CRITICAL', time,
    system_parent_id, system_id)] *)
Definition still_down_alert (meta_data : ErrorMetaData) (downtime : Q)
  : Alert :=
  mkAlert SystemStillDownAlert (err_system_name meta_data) (Some downtime)
    CRITICAL (time meta_data) None
    (err_system_parent_id meta_data) (err_system_id meta_data).

(** [float(x)]: [float(None)] raises [TypeError]. *)
Definition py_float {S} (x : option Q) : M S Q :=
  match x with
  | Some v => ret v
  | None => raise TypeError
  end.

Definition _process_errors (cfg : SystemAlertsConfig) (error_data : ErrorData)
  : M CState unit :=
  let is_down := system_is_down cfg in
  let meta_data := err_meta_data error_data in
  let data := err_went_down_at error_data in
  let sid := err_system_id meta_data in
  if (code error_data =? 5003)%Z then
    append (error_alert MetricNotFoundErrorAlert (message error_data)
              meta_data)
  else if (code error_data =? 5009)%Z then
    append (error_alert InvalidUrlAlert (message error_data) meta_data)
  else if (code error_data =? 5004)%Z then
    when (enabled is_down) (
      do current <- py_float (current data);
      let monitoring_timestamp := time meta_data in
      let monitoring_datetime := monitoring_timestamp in
      do critical_limiters <- lookup_limiters sid;
      let downtime := monitoring_timestamp - current in
      let critical_threshold := critical_threshold is_down in
      let critical_enabled := critical_enabled is_down in
      let warning_threshold := warning_threshold is_down in
      let warning_enabled := warning_enabled is_down in
      do sent <- initial_downtime_alert_sent sid;
      if negb sent then
        do critical <-
          ret critical_enabled
          <&&> py_le critical_threshold (Some downtime);
        if critical then
          run append (went_down_alert meta_data CRITICAL);
          run limiter_set_last_time_that_did_task sid IS_DOWN_LIMITER_NAME
                monitoring_datetime;
          set_initial_downtime_alert_sent sid true
        else
          do warning <-
            ret warning_enabled
            <&&> py_le warning_threshold (Some downtime);
          when warning (
            run append (went_down_alert meta_data WARNING);
            run limiter_set_last_time_that_did_task sid IS_DOWN_LIMITER_NAME
                  monitoring_datetime;
            set_initial_downtime_alert_sent sid true)
      else
        do still <-
          ret critical_enabled
          <&&> limiter_can_do_task sid IS_DOWN_LIMITER_NAME
                 monitoring_datetime;
        when still (
          run append (still_down_alert meta_data downtime);
          limiter_set_last_time_that_did_task sid IS_DOWN_LIMITER_NAME
            monitoring_datetime))
  else ret tt.

(** ** The result path *)

(** [SystemBackUpAgainAlert(system_name, 'INFO', last_monitored,
    system_parent_id, system_id)] *)
Definition back_up_alert (meta_data : MetaData) : Alert :=
  mkAlert SystemBackUpAgainAlert (system_name meta_data) None INFO
    (last_monitored meta_data) None
    (system_parent_id meta_data) (system_id meta_data).

(** Python's [x == y] on two JSON values, each a number or [None]. *)
Definition py_eq (x y : option Q) : bool :=
  match x, y with
  | Some a, Some b => Qeq_bool a b
  | None, None => true
  | _, _ => false
  end.

(** [current not in [previous, None]] *)
Definition not_in_previous_or_None (current previous : option Q) : bool :=
  negb (py_eq current previous || py_eq current None).

(** The guarded call
    [if current not in [previous, None]: self._classify_alert(current,
    floaty(previous), config, ...)] of one metric.  [floaty], of
    [src/utils/alert.py], is not among the sources and is a parameter. *)
Definition classify_metric (floaty : option Q -> option Q) (sample : Sample)
  (config : ThresholdSpec) (meta_data : MetaData)
  (increased_above_threshold_alert decreased_below_threshold_alert : AlertClass)
  (critical_limiter_name : LimiterName) : M CState unit :=
  let current := current sample in
  let previous := previous sample in
  if not_in_previous_or_None current previous then
    match current with
    | Some current =>
        _classify_alert current (floaty previous) config meta_data
          increased_above_threshold_alert decreased_below_threshold_alert
          critical_limiter_name
    | None => ret tt
    end
  else ret tt.

Definition _process_results (cfg : SystemAlertsConfig)
  (floaty : option Q -> option Q) (metrics : Metrics) (meta_data : MetaData)
  : M CState unit :=
  let open_fd := open_file_descriptors cfg in
  let cpu_use := system_cpu_usage cfg in
  let storage := system_storage_usage cfg in
  let ram_use := system_ram_usage cfg in
  let is_down := system_is_down cfg in
  let sid := system_id meta_data in
  run when (enabled is_down) (
    let previous := previous (m_went_down_at metrics) in
    do critical_limiters <- lookup_limiters sid;
    match previous with
    | Some _ =>
        run append (back_up_alert meta_data);
        run set_initial_downtime_alert_sent sid false;
        limiter_reset sid IS_DOWN_LIMITER_NAME
    | None => ret tt
    end);
  run when (enabled open_fd) (
    classify_metric floaty (m_open_file_descriptors metrics) open_fd meta_data
      OpenFileDescriptorsIncreasedAboveThresholdAlert
      OpenFileDescriptorsDecreasedBelowThresholdAlert
      OPEN_FD_LIMITER_NAME);
  run when (enabled storage) (
    classify_metric floaty (m_system_storage_usage metrics) storage meta_data
      SystemStorageUsageIncreasedAboveThresholdAlert
      SystemStorageUsageDecreasedBelowThresholdAlert
      STORAGE_USE_LIMITER_NAME);
  run when (enabled cpu_use) (
    classify_metric floaty (m_system_cpu_usage metrics) cpu_use meta_data
      SystemCPUUsageIncreasedAboveThresholdAlert
      SystemCPUUsageDecreasedBelowThresholdAlert
      CPU_USE_LIMITER_NAME);
  when (enabled ram_use) (
    classify_metric floaty (m_system_ram_usage metrics) cpu_use meta_data
      SystemRAMUsageIncreasedAboveThresholdAlert
      SystemRAMUsageDecreasedBelowThresholdAlert
      RAM_USE_LIMITER_NAME).

(** ** Broker, publishing queue and deliveries *)

Inductive Exchange : Type := ALERT_EXCHANGE | HEALTH_CHECK_EXCHANGE.

(** What the broker answers to one [basic_publish_confirm]: the message is
    confirmed, it is reported as not delivered
    ([MessageWasNotDeliveredException]), or the call fails otherwise. *)
Inductive PublishOutcome : Type := Confirmed | NotDelivered | Failed.

Inductive Body : Type :=
| AlertBody (alert : Alert)
| HeartbeatBody (component_name : string) (timestamp : Q).

Record QueueItem : Type := mkItem {
  exchange : Exchange;
  routing_key : string;
  data : Body
}.

(** Modelled from the spec: the bounded FIFO [publishing_queue] of the base
    class [Alerter] ([src/alerter/alerters/alerter.py] is not among the
    sources), a [queue.Queue(maxsize)]: section 4.6, capacity set at
    construction; [full] holds when the capacity is positive and reached. *)
Record PublishingQueue : Type := mkQueue {
  maxsize : Z;
  queue : list QueueItem
}.

(** Modelled from the spec: the buffer is full. *)
Definition full (q : PublishingQueue) : bool :=
  (0 <? maxsize q)%Z && (maxsize q <=? Z.of_nat (length (queue q)))%Z.

(** Modelled from the spec: the oldest record is removed. *)
Definition queue_get (q : PublishingQueue) : PublishingQueue :=
  mkQueue (maxsize q) (tail (queue q)).

(** Modelled from the spec: a record is inserted, as the newest. *)
Definition queue_put (q : PublishingQueue) (x : QueueItem) : PublishingQueue :=
  mkQueue (maxsize q) (queue q ++ [x]).

Inductive Event : Type :=
| EvAck (delivery_tag : Z)
| EvPublish (item : QueueItem) (outcome : PublishOutcome)
| EvLogException (e : Exn).

(** The alerter object: its name and configuration-independent state.
    [rabbitmq] lists the answers of the broker to the coming publishes (an
    exhausted list answers [Confirmed]); [events] records, in order, the
    acknowledgements, publishes and logged exceptions. *)
Record SystemAlerter : Type := mkAlerter {
  alerter_name : string;
  alerter_store : Store;
  publishing_queue : PublishingQueue;
  rabbitmq : list PublishOutcome;
  events : list Event
}.

Definition emit (ev : Event) : M SystemAlerter unit :=
  modify (fun a =>
    mkAlerter (alerter_name a) (alerter_store a) (publishing_queue a)
      (rabbitmq a) (events a ++ [ev])).

Definition update_queue (f : PublishingQueue -> PublishingQueue)
  : M SystemAlerter unit :=
  modify (fun a =>
    mkAlerter (alerter_name a) (alerter_store a) (f (publishing_queue a))
      (rabbitmq a) (events a)).

(** [self.rabbitmq.basic_ack(delivery_tag, False)] *)
Definition basic_ack (delivery_tag : Z) : M SystemAlerter unit :=
  emit (EvAck delivery_tag).

(** [self.logger.exception(e)] *)
Definition log_exception (e : Exn) : M SystemAlerter unit :=
  emit (EvLogException e).

(** [self.rabbitmq.basic_publish_confirm(...)] *)
Definition basic_publish_confirm (item : QueueItem) : M SystemAlerter unit :=
  do a <- get;
  let outcome := match rabbitmq a with [] => Confirmed | o :: _ => o end in
  run modify (fun a =>
    mkAlerter (alerter_name a) (alerter_store a) (publishing_queue a)
      (tail (rabbitmq a)) (events a ++ [EvPublish item outcome]));
  match outcome with
  | Confirmed => ret tt
  | NotDelivered => raise MessageWasNotDeliveredException
  | Failed => raise OtherException
  end.

(** [try: body except Exception as e: handler(e)] *)
Definition try_except {S A} (body : M S A) (handler : Exn -> M S A) : M S A :=
  fun s => match body s with
           | (s', Ret a) => (s', Ret a)
           | (s', Raise e) => handler e s'
           end.

Definition _place_latest_data_on_queue (data_list : list Alert)
  : M SystemAlerter unit :=
  fold_right
    (fun alert rest =>
       run update_queue (fun q => if full q then queue_get q else q);
       run update_queue (fun q =>
             queue_put q (mkItem ALERT_EXCHANGE "alert_router.system"
                            (AlertBody alert)));
       rest)
    (ret tt) data_list.

(** Modelled from the spec: [_send_data] of the base class [Alerter], the
    drain of section 4.6: publish with confirm each record in order; on
    confirmed delivery remove it; on non-delivery the record stays at the
    head.  [pending] is the content of the queue when the loop is entered. *)
Fixpoint send_all (pending : list QueueItem) : M SystemAlerter unit :=
  match pending with
  | [] => ret tt
  | item :: rest =>
      run basic_publish_confirm item;
      run update_queue queue_get;
      send_all rest
  end.

(** Modelled from the spec: [_send_data] of the base class [Alerter]
    drains the publishing queue as it stands when called. *)
Definition _send_data : M SystemAlerter unit :=
  do a <- get;
  send_all (queue (publishing_queue a)).

(** Modelled from the spec: [_send_heartbeat] of the base class [Alerter]:
    the heartbeat [{component_name, timestamp}] is published with confirm to
    [HEALTH_CHECK_EXCHANGE] with routing key [heartbeat.worker]
    (sections 4.2 and 6). *)
Definition _send_heartbeat (component_name : string) (timestamp : Q)
  : M SystemAlerter unit :=
  basic_publish_confirm
    (mkItem HEALTH_CHECK_EXCHANGE "heartbeat.worker"
       (HeartbeatBody component_name timestamp)).

(** The decoded body of a delivery, by the incoming schemas. *)
Inductive DataReceived : Type :=
| ResultMessage (data : Metrics) (meta_data : MetaData)
| ErrorMessage (error : ErrorData)
| OtherMessage.

(** A delivery: [method.routing_key], [method.delivery_tag] and the body,
    [None] when [json.loads(body.decode())] raises. *)
Record Delivery : Type := mkDelivery {
  method_routing_key : string;
  method_delivery_tag : Z;
  body : option DataReceived
}.

(** [s.split('.')] *)
Fixpoint split_dot (s : string) : list string :=
  match s with
  | EmptyString => [EmptyString]
  | String c s' =>
      if Ascii.eqb c "."%char then EmptyString :: split_dot s'
      else match split_dot s' with
           | h :: t => String c h :: t
           | [] => [String c EmptyString]
           end
  end.

(** The body of the [try] block of [_process_data]. *)
Definition classify (cfg : SystemAlertsConfig) (floaty : option Q -> option Q)
  (parsed_routing_key : list string) (data_received : DataReceived)
  : M CState unit :=
  if existsb (String.eqb (parent_id cfg)) parsed_routing_key then
    match data_received with
    | ResultMessage data meta_data =>
        let system_id := system_id meta_data in
        run _create_state_for_system cfg system_id;
        _process_results cfg floaty data meta_data
    | ErrorMessage error =>
        let meta_data := err_meta_data error in
        let system_id := err_system_id meta_data in
        run _create_state_for_system cfg system_id;
        _process_errors cfg error
    | OtherMessage => raise ReceivedUnexpectedDataException
    end
  else raise ReceivedUnexpectedDataException.

(** [try: ... except Exception as e: log; processing_error = True] with the
    local list [data_for_alerting = []]; yields the list and
    [processing_error]. *)
Definition try_classify (classification : M CState unit)
  : M SystemAlerter (list Alert * bool) :=
  fun a =>
    let '(cs, r) := classification (mkCState (alerter_store a) []) in
    let a' := mkAlerter (alerter_name a) (store cs) (publishing_queue a)
                (rabbitmq a) (events a) in
    match r with
    | Ret _ => (a', Ret (data_for_alerting cs, false))
    | Raise e =>
        (fst (log_exception e a'), Ret (data_for_alerting cs, true))
    end.

(** [json.loads(body.decode())], outside every [try] block. *)
Definition json_loads (body : option DataReceived)
  : M SystemAlerter DataReceived :=
  match body with
  | Some data_received => ret data_received
  | None => raise JSONDecodeError
  end.

(** [_process_data(ch, method, properties, body)]; [now] is what
    [datetime.now().timestamp()] returns for the heartbeat. *)
Definition _process_data (cfg : SystemAlertsConfig)
  (floaty : option Q -> option Q) (delivery : Delivery) (now : Q)
  : M SystemAlerter unit :=
  do data_received <- json_loads (body delivery);
  let parsed_routing_key := split_dot (method_routing_key delivery) in
  do classified <-
    try_classify (classify cfg floaty parsed_routing_key data_received);
  let data_for_alerting := fst classified in
  let processing_error := snd classified in
  run basic_ack (method_delivery_tag delivery);
  run when (negb processing_error)
        (_place_latest_data_on_queue data_for_alerting);
  try_except
    (run _send_data;
     when (negb processing_error)
       (do a <- get; _send_heartbeat (alerter_name a) now))
    (fun e =>
       match e with
       | MessageWasNotDeliveredException => log_exception e
       | _ => raise e
       end).

(** ** Prefetch count *)

(** Python's [round(x)] to an integer: to the nearest, ties to even. *)
Definition py_round (x : Q) : Z :=
  let f := Qfloor x in
  match Qcompare (x - inject_Z f) (1 # 2) with
  | Lt => f
  | Gt => (f + 1)%Z
  | Eq => if Z.even f then f else (f + 1)%Z
  end.

(** [round(self.publishing_queue.maxsize / 5)], the argument of
    [basic_qos] in [_initialize_rabbitmq]; the quotient is taken exactly. *)
Definition prefetch_count (maxsize : Z) : Z :=
  py_round (inject_Z maxsize / 5).

(** [ceil(x / 5)] on integers. *)
Definition ceil_div5 (maxsize : Z) : Z := Qceiling (inject_Z maxsize / 5).

(** ** The Data Transformers Manager *)

Module Manager.

(** Modelled from the spec: the names of the supervised workers,
    constants of [src/utils/constants.py], which is not among the sources
    (section 4.7 names them). *)
Definition SYSTEM_DATA_TRANSFORMER_NAME : string := "system_data_transformer".
(** Modelled from the spec: the name of the second supervised worker. *)
Definition GITHUB_DATA_TRANSFORMER_NAME : string := "github_data_transformer".

(** A child handle ([multiprocessing.Process]): whether it is alive, and
    its [pid], which tells a restarted child from the one it replaces. *)
Record Process : Type := mkProcess {
  is_alive : bool;
  pid : nat
}.

Record Heartbeat : Type := mkHeartbeat {
  component_name : string;
  running_processes : list string;
  dead_processes : list string;
  timestamp : Q
}.

Inductive Event : Type :=
| EvJoin (transformer_name : string)
| EvStart (transformer_name : string)
| EvPublish (exchange : Exchange) (routing_key : string)
    (heartbeat : Heartbeat) (outcome : PublishOutcome)
| EvLogException (e : Exn).

(** The manager object.  [transformer_process_dict] is a Python [dict]:
    an association list without duplicate keys, in insertion order.
    [next_pid] numbers the processes the manager creates. *)
Record DataTransformersManager : Type := mkManager {
  name : string;
  transformer_process_dict : list (string * Process);
  rabbitmq : list PublishOutcome;
  next_pid : nat;
  events : list Event
}.

(** [d[k]] when [k in d]. *)
Fixpoint dict_get (k : string) (d : list (string * Process))
  : option Process :=
  match d with
  | [] => None
  | (k', v) :: d' => if String.eqb k k' then Some v else dict_get k d'
  end.

(** [d[k] = v]: an existing key keeps its place, a new key goes last. *)
Fixpoint dict_set (k : string) (v : Process) (d : list (string * Process))
  : list (string * Process) :=
  match d with
  | [] => [(k, v)]
  | (k', v') :: d' =>
      if String.eqb k k' then (k, v) :: d' else (k', v') :: dict_set k v d'
  end.

Definition emit (ev : Event) : M DataTransformersManager unit :=
  modify (fun m =>
    mkManager (name m) (transformer_process_dict m) (rabbitmq m)
      (next_pid m) (events m ++ [ev])).

(** One step of [_start_transformers_processes]: start the worker
    [transformer_name] when it is absent from the dictionary or not
    alive, and store the new process under its name. *)
Definition start_if_missing (transformer_name : string)
  : M DataTransformersManager unit :=
  do m <- get;
  let missing :=
    match dict_get transformer_name (transformer_process_dict m) with
    | None => true
    | Some process => negb (is_alive process)
    end in
  when missing (
    run emit (EvStart transformer_name);
    modify (fun m =>
      mkManager (name m)
        (dict_set transformer_name (mkProcess true (next_pid m))
           (transformer_process_dict m))
        (rabbitmq m) (S (next_pid m)) (events m))).

Definition _start_transformers_processes : M DataTransformersManager unit :=
  run start_if_missing SYSTEM_DATA_TRANSFORMER_NAME;
  start_if_missing GITHUB_DATA_TRANSFORMER_NAME.

(** The loop of [_process_ping] over [transformer_process_dict.items()]:
    the two lists of the heartbeat, dead children being joined. *)
Fixpoint poll (items : list (string * Process))
  (running dead : list string)
  : M DataTransformersManager (list string * list string) :=
  match items with
  | [] => ret (running, dead)
  | (transformer_name, process) :: rest =>
      if is_alive process then
        poll rest (running ++ [transformer_name]) dead
      else
        run emit (EvJoin transformer_name);
        poll rest running (dead ++ [transformer_name])
  end.

(** [self.rabbitmq.basic_publish_confirm(exchange=HEALTH_CHECK_EXCHANGE,
    routing_key='heartbeat.manager', body=data_to_send, ...)] *)
Definition _send_heartbeat (data_to_send : Heartbeat)
  : M DataTransformersManager unit :=
  do m <- get;
  let outcome := match rabbitmq m with [] => Confirmed | o :: _ => o end in
  run modify (fun m =>
    mkManager (name m) (transformer_process_dict m) (tail (rabbitmq m))
      (next_pid m)
      (events m ++ [EvPublish HEALTH_CHECK_EXCHANGE "heartbeat.manager"
                      data_to_send outcome]));
  match outcome with
  | Confirmed => ret tt
  | NotDelivered => raise MessageWasNotDeliveredException
  | Failed => raise OtherException
  end.

(** The first [try] block of [_process_ping]: the heartbeat composed, and
    the restart when a child is dead. *)
Definition compose_heartbeat (now : Q)
  : M DataTransformersManager Heartbeat :=
  do m <- get;
  do lists <- poll (transformer_process_dict m) [] [];
  let heartbeat := mkHeartbeat (name m) (fst lists) (snd lists) now in
  run when (negb (length (dead_processes heartbeat) =? 0)%nat)
        _start_transformers_processes;
  ret heartbeat.

(** [_process_ping(ch, method, properties, body)]; [now] is what
    [datetime.now().timestamp()] returns. *)
Definition _process_ping (now : Q) : M DataTransformersManager unit :=
  do composed <-
    try_except
      (do heartbeat <- compose_heartbeat now; ret (Some heartbeat))
      (fun e => run emit (EvLogException e); ret None);
  match composed with
  | None => ret tt
  | Some heartbeat =>
      try_except (_send_heartbeat heartbeat)
        (fun e =>
           match e with
           | MessageWasNotDeliveredException => emit (EvLogException e)
           | _ => raise e
           end)
  end.

(** [process.terminate()] called on the child [transformer_name] from
    outside the manager. *)
Definition terminate (transformer_name : string)
  (m : DataTransformersManager) : DataTransformersManager :=
  mkManager (name m)
    (map (fun kv => if String.eqb (fst kv) transformer_name
                    then (fst kv, mkProcess false (pid (snd kv)))
                    else kv)
         (transformer_process_dict m))
    (rabbitmq m) (next_pid m) (events m).

(** The manager when [start] has run [_start_transformers_processes] on
    the empty dictionary. *)
Definition started (component : string) (answers : list PublishOutcome)
  : DataTransformersManager :=
  fst (_start_transformers_processes
         (mkManager component [] answers 0 [])).

(** The names a heartbeat lists as running and as dead for a dictionary,
    in the order of the dictionary. *)
Definition running_of (d : list (string * Process)) : list string :=
  map fst (List.filter (fun kv => is_alive (snd kv)) d).

Definition dead_of (d : list (string * Process)) : list string :=
  map fst (List.filter (fun kv => negb (is_alive (snd kv))) d).

(** The worker is absent from the dictionary, or not alive. *)
Definition missing (k : string) (d : list (string * Process)) : bool :=
  match dict_get k d with
  | None => true
  | Some process => negb (is_alive process)
  end.

Definition is_start (e : Event) : Prop :=
  exists transformer_name, e = EvStart transformer_name.

End Manager.

(** ** Notions used in the statements *)

(** The store in which the limiter [n] of system [sid] went through [f]. *)
Definition limiters_after (sid : string) (n : LimiterName)
  (f : TimedTaskLimiter -> TimedTaskLimiter) (st : Store) : Store :=
  mkStore (_system_initial_downtime_alert_sent st)
    (alter (update_limiter n f) sid (_system_critical_timed_task_limiters st)).

(** The store in which the downtime flag of system [sid] was set to [b]. *)
Definition sent_after (sid : string) (b : bool) (st : Store) : Store :=
  mkStore (<[sid := b]> (_system_initial_downtime_alert_sent st))
    (_system_critical_timed_task_limiters st).

(** The limiter [n] of system [sid], when the system has a state. *)
Definition limiter_of (st : Store) (sid : string) (n : LimiterName)
  : option TimedTaskLimiter :=
  get_limiter n <$> (_system_critical_timed_task_limiters st !! sid).

#[global] Instance LimiterName_eq_dec : EqDecision LimiterName.
Proof. solve_decision. Defined.

#[global] Instance Severity_eq_dec : EqDecision Severity.
Proof. solve_decision. Defined.

#[global] Instance AlertClass_eq_dec : EqDecision AlertClass.
Proof. solve_decision. Defined.

(** The metric an alert class reports on, named by its limiter; the two
    classes of the error codes 5003 and 5009 report on no metric. *)
Definition metric_of_class (cls : AlertClass) : option LimiterName :=
  match cls with
  | OpenFileDescriptorsIncreasedAboveThresholdAlert
  | OpenFileDescriptorsDecreasedBelowThresholdAlert => Some OPEN_FD_LIMITER_NAME
  | SystemCPUUsageIncreasedAboveThresholdAlert
  | SystemCPUUsageDecreasedBelowThresholdAlert => Some CPU_USE_LIMITER_NAME
  | SystemStorageUsageIncreasedAboveThresholdAlert
  | SystemStorageUsageDecreasedBelowThresholdAlert =>
      Some STORAGE_USE_LIMITER_NAME
  | SystemRAMUsageIncreasedAboveThresholdAlert
  | SystemRAMUsageDecreasedBelowThresholdAlert => Some RAM_USE_LIMITER_NAME
  | SystemWentDownAtAlert | SystemStillDownAlert | SystemBackUpAgainAlert =>
      Some IS_DOWN_LIMITER_NAME
  | InvalidUrlAlert | MetricNotFoundErrorAlert => None
  end.

Definition decreased_below (cls : AlertClass) : bool :=
  match cls with
  | OpenFileDescriptorsDecreasedBelowThresholdAlert
  | SystemCPUUsageDecreasedBelowThresholdAlert
  | SystemStorageUsageDecreasedBelowThresholdAlert
  | SystemRAMUsageDecreasedBelowThresholdAlert => true
  | _ => false
  end.

(** The alert is about metric [n] of system [sid]. *)
Definition is_about (sid : string) (n : LimiterName) (a : Alert) : bool :=
  String.eqb (alert_origin_id a) sid
  && bool_decide (metric_of_class (alert_class a) = Some n).

(** A CRITICAL alert for [(sid, n)]. *)
Definition is_critical_for (sid : string) (n : LimiterName) (a : Alert)
  : bool :=
  is_about sid n a && bool_decide (alert_severity a = CRITICAL).

(** An alert that goes with a reset of the limiter of [(sid, n)]: a
    DecreasedBelow from critical, or a BackUp. *)
Definition is_reset_for (sid : string) (n : LimiterName) (a : Alert) : bool :=
  is_about sid n a
  && ((decreased_below (alert_class a)
       && bool_decide (alert_threshold_severity a = Some CRITICAL))
      || bool_decide (alert_class a = SystemBackUpAgainAlert)).

(** The first block of [_process_results]. *)
Definition back_up_block (cfg : SystemAlertsConfig) (metrics : Metrics)
  (meta_data : MetaData) : M CState unit :=
  let is_down := system_is_down cfg in
  let sid := system_id meta_data in
  when (enabled is_down) (
    let previous := previous (m_went_down_at metrics) in
    do critical_limiters <- lookup_limiters sid;
    match previous with
    | Some _ =>
        run append (back_up_alert meta_data);
        run set_initial_downtime_alert_sent sid false;
        limiter_reset sid IS_DOWN_LIMITER_NAME
    | None => ret tt
    end).

(** What the [try] block of [_process_data] does to the store on one
    delivery, and the list [data_for_alerting] it leaves (the list placed on
    the publishing queue when the block does not raise).  A body that does
    not decode never reaches the block. *)
Definition deliver (cfg : SystemAlertsConfig) (floaty : option Q -> option Q)
  (d : Delivery) (st : Store) : Store * list Alert :=
  match body d with
  | Some data_received =>
      let cs := fst (classify cfg floaty (split_dot (method_routing_key d))
                       data_received (mkCState st [])) in
      (store cs, data_for_alerting cs)
  | None => (st, [])
  end.

(** The deliveries [ds] processed in order from the store [st]: the final
    store and all the alerts in the order they were appended. *)
Fixpoint deliver_all (cfg : SystemAlertsConfig)
  (floaty : option Q -> option Q) (ds : list Delivery) (st : Store)
  : Store * list Alert :=
  match ds with
  | [] => (st, [])
  | d :: ds' =>
      let '(st1, A) := deliver cfg floaty d st in
      let '(st2, B) := deliver_all cfg floaty ds' st1 in
      (st2, A ++ B)
  end.

(** *** Ghost state along the appended alerts *)

(** A ghost state [g] follows the alerts as they are appended; [None] is a
    violation. *)
Fixpoint run_ghost {G : Type} (step : G -> Alert -> option G) (g : G)
  (alerts : list Alert) : option G :=
  match alerts with
  | [] => Some g
  | a :: rest =>
      match step g a with
      | Some g' => run_ghost step g' rest
      | None => None
      end
  end.

(** The computation [c] keeps the invariant [Inv] between ghost state and
    store, whether it returns or raises: it only appends alerts, the ghost
    state accepts them, and the invariant holds of the store it leaves. *)
Definition sound {G A : Type} (step : G -> Alert -> option G)
  (Inv : G -> Store -> Prop) (c : M CState A) : Prop :=
  forall s g, Inv g (store s) ->
    exists new g',
      data_for_alerting (fst (c s)) = data_for_alerting s ++ new /\
      run_ghost step g new = Some g' /\
      Inv g' (store (fst (c s))).

(** The monitor of the critical repeat of [(sid, n)]: the ghost state is the
    time of the latest CRITICAL alert since the last reset; a CRITICAL alert
    earlier than [rep] after it is a violation, and so is an alert that is
    both CRITICAL and a reset. *)
Definition repeat_monitor (sid : string) (n : LimiterName) (rep : Q)
  (g : option Q) (a : Alert) : option (option Q) :=
  if is_reset_for sid n a then
    if is_critical_for sid n a then None else Some None
  else if is_critical_for sid n a then
    match g with
    | Some t =>
        if Qleb rep (alert_timestamp a - t) then Some (Some (alert_timestamp a))
        else None
    | None => Some (Some (alert_timestamp a))
    end
  else Some g.

(** Every limiter of the store has the interval of its metric. *)
Definition intervals_ok (cfg : SystemAlertsConfig) (st : Store) : Prop :=
  forall sid ls, _system_critical_timed_task_limiters st !! sid = Some ls ->
    forall n, time_interval (get_limiter n ls)
              = inject_Z (critical_repeat (config_of cfg n)).

(** The store agrees with the monitor: after a CRITICAL alert at [t] the
    limiter of [(sid, n)] holds [t], and for the downtime limiter the
    initial alert is marked as sent. *)
Definition repeat_inv (cfg : SystemAlertsConfig) (sid : string)
  (n : LimiterName) (g : option Q) (st : Store) : Prop :=
  intervals_ok cfg st /\
  match g with
  | Some t =>
      (exists l, limiter_of st sid n = Some l
                 /\ last_time_that_did_task l = Some t) /\
      (n = IS_DOWN_LIMITER_NAME ->
       _system_initial_downtime_alert_sent st !! sid = Some true)
  | None => True
  end.

(** The ghost state that only forbids the alerts satisfying [P]. *)
Definition forbid (P : Alert -> bool) (g : unit) (a : Alert) : option unit :=
  if P a then None else Some tt.

Definition is_back_up (a : Alert) : bool :=
  bool_decide (alert_class a = SystemBackUpAgainAlert).

(** The alert reports on metric [n], for whatever system. *)
Definition of_metric (n : LimiterName) (a : Alert) : bool :=
  bool_decide (metric_of_class (alert_class a) = Some n).

(** The sample of a result message that belongs to a limiter name. *)
Definition sample_of (n : LimiterName) (metrics : Metrics) : Sample :=
  match n with
  | OPEN_FD_LIMITER_NAME => m_open_file_descriptors metrics
  | CPU_USE_LIMITER_NAME => m_system_cpu_usage metrics
  | STORAGE_USE_LIMITER_NAME => m_system_storage_usage metrics
  | RAM_USE_LIMITER_NAME => m_system_ram_usage metrics
  | IS_DOWN_LIMITER_NAME => m_went_down_at metrics
  end.

(** [previous == current], or [current] is null. *)
Definition unchanged_or_null (sample : Sample) : bool :=
  py_eq (current sample) (previous sample) || py_eq (current sample) None.

(** The limiters [n] that the store [st0] holds are as they were in [st]. *)
Definition kept_limiters (n : LimiterName) (st0 st : Store) : Prop :=
  forall sid l, limiter_of st0 sid n = Some l -> limiter_of st sid n = Some l.

(** The four blocks of [_process_results] that follow the first. *)
Definition usage_blocks (cfg : SystemAlertsConfig)
  (floaty : option Q -> option Q) (metrics : Metrics) (meta_data : MetaData)
  : M CState unit :=
  run when (enabled (open_file_descriptors cfg)) (
    classify_metric floaty (m_open_file_descriptors metrics)
      (open_file_descriptors cfg) meta_data
      OpenFileDescriptorsIncreasedAboveThresholdAlert
      OpenFileDescriptorsDecreasedBelowThresholdAlert
      OPEN_FD_LIMITER_NAME);
  run when (enabled (system_storage_usage cfg)) (
    classify_metric floaty (m_system_storage_usage metrics)
      (system_storage_usage cfg) meta_data
      SystemStorageUsageIncreasedAboveThresholdAlert
      SystemStorageUsageDecreasedBelowThresholdAlert
      STORAGE_USE_LIMITER_NAME);
  run when (enabled (system_cpu_usage cfg)) (
    classify_metric floaty (m_system_cpu_usage metrics)
      (system_cpu_usage cfg) meta_data
      SystemCPUUsageIncreasedAboveThresholdAlert
      SystemCPUUsageDecreasedBelowThresholdAlert
      CPU_USE_LIMITER_NAME);
  when (enabled (system_ram_usage cfg)) (
    classify_metric floaty (m_system_ram_usage metrics)
      (system_cpu_usage cfg) meta_data
      SystemRAMUsageIncreasedAboveThresholdAlert
      SystemRAMUsageDecreasedBelowThresholdAlert
      RAM_USE_LIMITER_NAME).

(** The downtime flag of [sid] is false and its downtime limiter is reset. *)
Definition back_up_state (sid : string) (st : Store) : Prop :=
  _system_initial_downtime_alert_sent st !! sid = Some false /\
  exists l, limiter_of st sid IS_DOWN_LIMITER_NAME = Some (reset l).

(** *** Concrete data of the scenarios of section 8 *)

Definition scenario_config : SystemAlertsConfig :=
  mkConfig "chain1"
    (mkSpec true true true (Some 800) (Some 950) 300)
    (mkSpec true true true (Some 70) (Some 90) 600)
    (mkSpec true true true (Some 80) (Some 95) 300)
    (mkSpec true true true (Some 50) (Some 60) 300)
    (mkSpec true true true (Some 10) (Some 20) 300).

Definition scenario_limiters : CriticalLimiters :=
  new_critical_limiters scenario_config.

Definition scenario_store : Store :=
  mkStore {[ "sys1" := false ]} {[ "sys1" := scenario_limiters ]}.

Definition scenario_meta (t : Q) : MetaData :=
  mkMeta "sys1" "chain1" "node1" t.

Definition scenario_error_meta (t : Q) : ErrorMetaData :=
  mkErrMeta t "sys1" "chain1" "node1".

Definition quiet : Sample := mkSample None None.

(** A result message in which only the cpu sample is present. *)
Definition cpu_result (previous current t : Q) : DataReceived :=
  ResultMessage
    (mkMetrics quiet quiet (mkSample (Some current) (Some previous)) quiet
       quiet)
    (scenario_meta t).

(** A result message in which only the ram sample is present. *)
Definition ram_result (previous current t : Q) : DataReceived :=
  ResultMessage
    (mkMetrics quiet quiet quiet (mkSample (Some current) (Some previous))
       quiet)
    (scenario_meta t).

(** A result message of a system that is back: only
    [went_down_at.previous] is set. *)
Definition back_up_result (went_down t : Q) : DataReceived :=
  ResultMessage
    (mkMetrics quiet quiet quiet quiet (mkSample None (Some went_down)))
    (scenario_meta t).

(** An error 5004 of a system down since [went_down]. *)
Definition down_error (went_down t : Q) : DataReceived :=
  ErrorMessage
    (mkError 5004 "unreachable" (scenario_error_meta t)
       (mkSample (Some went_down) None)).

Definition scenario_delivery (tag : Z) (data_received : DataReceived)
  : Delivery :=
  mkDelivery "alerter.system.chain1" tag (Some data_received).

(** A [floaty] that returns a number as it is and [None] as [None]. *)
Definition floaty_id (x : option Q) : option Q := x.

(** *** The phases of [_process_data] *)

(** Whether the [try] block of [_process_data] raises on this delivery
    ([processing_error]). *)
Definition processing_error (cfg : SystemAlertsConfig)
  (floaty : option Q -> option Q) (d : Delivery) (a : SystemAlerter) : bool :=
  match body d with
  | Some data_received =>
      match snd (classify cfg floaty (split_dot (method_routing_key d))
                   data_received (mkCState (alerter_store a) [])) with
      | Ret _ => false
      | Raise _ => true
      end
  | None => false
  end.

(** The log entry of the [except] branch of the [try] block. *)
Definition classification_log (cfg : SystemAlertsConfig)
  (floaty : option Q -> option Q) (d : Delivery) (a : SystemAlerter)
  : list Event :=
  match body d with
  | Some data_received =>
      match snd (classify cfg floaty (split_dot (method_routing_key d))
                   data_received (mkCState (alerter_store a) [])) with
      | Ret _ => []
      | Raise e => [EvLogException e]
      end
  | None => []
  end.

(** One step of the push of section 4.6: if full, drop the oldest, then
    insert. *)
Definition push_latest (q : PublishingQueue) (alert : Alert)
  : PublishingQueue :=
  queue_put (if full q then queue_get q else q)
    (mkItem ALERT_EXCHANGE "alert_router.system" (AlertBody alert)).

Definition pushed (q : PublishingQueue) (alerts : list Alert)
  : PublishingQueue :=
  fold_left push_latest alerts q.

(** The drain of section 4.6 as a function of the answers of the broker:
    each record is published in order; a confirmed record is removed; at the
    first record that is not confirmed the drain stops, that record staying
    at the head.  Yields the publishes made, the records left, the answers
    not used, and how the drain ended. *)
Fixpoint drain (pending : list QueueItem) (answers : list PublishOutcome)
  : list Event * list QueueItem * list PublishOutcome * Res unit :=
  match pending with
  | [] => ([], [], answers, Ret tt)
  | item :: rest =>
      match hd Confirmed answers with
      | Confirmed =>
          let '(published, remaining, unused, r) := drain rest (tail answers) in
          (EvPublish item Confirmed :: published, remaining, unused, r)
      | NotDelivered =>
          ([EvPublish item NotDelivered], item :: rest, tail answers,
           Raise MessageWasNotDeliveredException)
      | Failed =>
          ([EvPublish item Failed], item :: rest, tail answers,
           Raise OtherException)
      end
  end.

(** The heartbeat of the alerter. *)
Definition worker_heartbeat (a : SystemAlerter) (now : Q) : QueueItem :=
  mkItem HEALTH_CHECK_EXCHANGE "heartbeat.worker"
    (HeartbeatBody (alerter_name a) now).

(** An alerter with one alert left on its publishing queue. *)
Definition scenario_alerter (answers : list PublishOutcome) : SystemAlerter :=
  mkAlerter "system_alerter" scenario_store
    (mkQueue 10
       [mkItem ALERT_EXCHANGE "alert_router.system"
          (AlertBody (back_up_alert (scenario_meta 1700000000)))])
    answers [].

(** ** Initialisation of the alerter's broker connection *)

(** The calls [_initialize_rabbitmq] makes on [self.rabbitmq]. *)
Inductive BrokerCall : Type :=
| CallConnectTillSuccessful
| CallExchangeDeclare (exch : Exchange) (exchange_type : string)
    (passive durable auto_delete internal : bool)
| CallQueueDeclare (queue_name : string)
    (passive durable exclusive auto_delete : bool)
| CallQueueBind (queue_name : string) (exch : Exchange) (key : string)
| CallBasicQos (prefetch : Z)
| CallBasicConsume (queue_name : string) (auto_ack exclusive : bool)
| CallConfirmDelivery.

(** [_initialize_rabbitmq]: the name it stores in [self._queue_used] and
    the calls it makes, in order; [maxsize] is
    [self.publishing_queue.maxsize]. *)
Definition _initialize_rabbitmq (cfg : SystemAlertsConfig) (maxsize : Z)
  : string * list BrokerCall :=
  let _queue_used := "system_alerter_queue_" +:+ parent_id cfg in
  let routing_key := "alerter.system." +:+ parent_id cfg in
  (_queue_used,
   [CallConnectTillSuccessful;
    CallExchangeDeclare ALERT_EXCHANGE "topic" false true false false;
    CallQueueDeclare _queue_used false true false false;
    CallQueueBind _queue_used ALERT_EXCHANGE routing_key;
    CallBasicQos (prefetch_count maxsize);
    CallBasicConsume _queue_used false false;
    CallConfirmDelivery;
    CallExchangeDeclare ALERT_EXCHANGE "topic" false true false false;
    CallExchangeDeclare HEALTH_CHECK_EXCHANGE "topic" false true false false]).

(** The routing keys under which the calls bind a queue. *)
Definition bound_routing_keys (calls : list BrokerCall) : list string :=
  flat_map (fun c => match c with
                     | CallQueueBind _ _ key => [key]
                     | _ => []
                     end) calls.

(** The string contains the character [.]. *)
Fixpoint has_dot (s : string) : bool :=
  match s with
  | EmptyString => false
  | String c s' => Ascii.eqb c "."%char || has_dot s'
  end.

(** [parent_id in method.routing_key.split('.')], the test of
    [_process_data]. *)
Definition accepted (cfg : SystemAlertsConfig) (routing_key : string) : bool :=
  existsb (String.eqb (parent_id cfg)) (split_dot routing_key).

(** ** Further notions used in the statements *)

(** [meta_data['system_id']] of a decoded body. *)
Definition message_system_id (data_received : DataReceived) : option string :=
  match data_received with
  | ResultMessage _ meta_data => Some (system_id meta_data)
  | ErrorMessage error => Some (err_system_id (err_meta_data error))
  | OtherMessage => None
  end.

(** The computation keeps [Inv] of the store, and raises only exceptions
    that satisfy [E]. *)
Definition raises_only {A : Type} (E : Exn -> Prop) (Inv : Store -> Prop)
  (c : M CState A) : Prop :=
  forall s, Inv (store s) ->
    Inv (store (fst (c s))) /\
    match snd (c s) with
    | Ret _ => True
    | Raise e => E e
    end.

(** The system has an entry in both dictionaries. *)
Definition has_state (sid : string) (st : Store) : Prop :=
  is_Some (_system_initial_downtime_alert_sent st !! sid) /\
  is_Some (_system_critical_timed_task_limiters st !! sid).

(** Both thresholds of the spec are numbers. *)
Definition numeric_spec (spec : ThresholdSpec) : Prop :=
  is_Some (warning_threshold spec) /\ is_Some (critical_threshold spec).

(** A [floaty] that returns a number as it is and [0] for [None]. *)
Definition floaty_zero (x : option Q) : option Q :=
  match x with
  | Some v => Some v
  | None => Some 0
  end.

(** The last [n] elements of a list. *)
Definition last_n {A : Type} (n : nat) (l : list A) : list A :=
  skipn (length l - n) l.

(** The record an alert becomes on the publishing queue. *)
Definition alert_item (alert : Alert) : QueueItem :=
  mkItem ALERT_EXCHANGE "alert_router.system" (AlertBody alert).

(** The two dictionaries have the same keys. *)
Definition same_systems (st : Store) : Prop :=
  forall sid,
    is_Some (_system_initial_downtime_alert_sent st !! sid)
    <-> is_Some (_system_critical_timed_task_limiters st !! sid).

(** [Inv] is kept by each step the classification of a message about
    system [sid0] takes on the store: the creation of the state of [sid0],
    a method call on one of its limiters, and the assignment of its
    downtime flag, the last two on a system that has limiters. *)
Definition store_closed (cfg : SystemAlertsConfig) (sid0 : string)
  (Inv : Store -> Prop) : Prop :=
  (forall s, Inv (store s) ->
     Inv (store (fst (_create_state_for_system cfg sid0 s)))) /\
  (forall st n f,
     (forall l, time_interval (f l) = time_interval l) ->
     is_Some (_system_critical_timed_task_limiters st !! sid0) ->
     Inv st -> Inv (limiters_after sid0 n f st)) /\
  (forall st b,
     is_Some (_system_critical_timed_task_limiters st !! sid0) ->
     Inv st -> Inv (sent_after sid0 b st)).

(** A SystemWentDownAt, SystemStillDown, SystemBackUpAgain alert of system
    [sid]. *)
Definition is_went_down (sid : string) (a : Alert) : bool :=
  String.eqb (alert_origin_id a) sid
  && bool_decide (alert_class a = SystemWentDownAtAlert).

Definition is_still_down (sid : string) (a : Alert) : bool :=
  String.eqb (alert_origin_id a) sid
  && bool_decide (alert_class a = SystemStillDownAlert).

Definition is_back_up_for (sid : string) (a : Alert) : bool :=
  String.eqb (alert_origin_id a) sid && is_back_up a.

(** The monitor of the downtime alerts of system [sid]: the ghost state
    tells whether the system was reported down and not yet back up.  A
    SystemWentDownAt alert for a system already reported down is a
    violation, and so is a SystemStillDown alert for a system not reported
    down; a SystemBackUpAgain alert clears the state. *)
Definition downtime_monitor (sid : string) (g : bool) (a : Alert)
  : option bool :=
  if is_went_down sid a then (if g then None else Some true)
  else if is_still_down sid a then (if g then Some true else None)
  else if is_back_up_for sid a then Some false
  else Some g.

(** Among the alerts there is a SystemWentDownAt alert of [sid] with no
    SystemBackUpAgain alert of [sid] after it. *)
Definition reported_down (sid : string) (alerts : list Alert) : Prop :=
  exists B1 w B2,
    alerts = B1 ++ w :: B2 /\ is_went_down sid w = true /\
    forall x, In x B2 -> is_back_up_for sid x = false.

(** The downtime flag of [sid] is the ghost state; a system without state
    was not reported down. *)
Definition downtime_inv (sid : string) (g : bool) (st : Store) : Prop :=
  match _system_initial_downtime_alert_sent st !! sid with
  | Some b => b = g
  | None => g = false
  end.

(** ** Runs of the manager *)

(** What happens to the manager between two heartbeats: a ping is
    delivered, or a child is terminated from outside. *)
Inductive ManagerAction : Type :=
| Ping (now : Q)
| Terminate (transformer_name : string).

Definition manager_step (m : Manager.DataTransformersManager)
  (action : ManagerAction) : Manager.DataTransformersManager :=
  match action with
  | Ping now => fst (Manager._process_ping now m)
  | Terminate transformer_name => Manager.terminate transformer_name m
  end.

Definition manager_run (actions : list ManagerAction)
  (m : Manager.DataTransformersManager) : Manager.DataTransformersManager :=
  fold_left manager_step actions m.

(** ** The order of the alerts of one delivery *)

(** The list is made of consecutive groups, one for each predicate in
    order (a group may be empty), the alerts of a group satisfying its
    predicate. *)
Fixpoint grouped (groups : list (Alert -> bool)) (alerts : list Alert)
  : Prop :=
  match groups with
  | [] => alerts = []
  | P :: groups' =>
      exists first rest,
        alerts = first ++ rest /\
        (forall a, In a first -> P a = true) /\
        grouped groups' rest
  end.

(** The blocks of [_process_results], in the order of the source. *)
Definition result_blocks : list (Alert -> bool) :=
  [of_metric IS_DOWN_LIMITER_NAME; of_metric OPEN_FD_LIMITER_NAME;
   of_metric STORAGE_USE_LIMITER_NAME; of_metric CPU_USE_LIMITER_NAME;
   of_metric RAM_USE_LIMITER_NAME].

(** * Properties *)

(** ** Order on numbers, by reflection *)

Lemma Qleb_true x y : Qleb x y = true <-> x <= y.
Proof. apply Qle_bool_iff. Qed.

Lemma Qleb_false x y : Qleb x y = false <-> y < x.
Proof.
  unfold Qleb. split; intros H.
  - apply Qnot_le_lt. intros Hle. apply Qle_bool_iff in Hle. congruence.
  - destruct (Qle_bool x y) eqn:E; [|reflexivity].
    apply Qle_bool_iff in E. apply Qle_not_lt in E. contradiction.
Qed.

Lemma Qltb_true x y : Qltb x y = true <-> x < y.
Proof. unfold Qltb. rewrite negb_true_iff. apply Qleb_false. Qed.

Lemma Qltb_false x y : Qltb x y = false <-> y <= x.
Proof. unfold Qltb. rewrite negb_false_iff. apply Qleb_true. Qed.

(** Turns every recorded comparison into the order fact it stands for. *)
Ltac reflect_order :=
  repeat match goal with
  | H : Qleb _ _ = true |- _ => apply Qleb_true in H
  | H : Qleb _ _ = false |- _ => apply Qleb_false in H
  | H : Qltb _ _ = true |- _ => apply Qltb_true in H
  | H : Qltb _ _ = false |- _ => apply Qltb_false in H
  end.

(** Unfolds the operations of the monad and of the alerter state. *)
Ltac unfold_py :=
  unfold when, limiter_can_do_task, limiter_set_last_time_that_did_task,
    limiter_reset, limiter_update, lookup_limiters,
    initial_downtime_alert_sent, set_initial_downtime_alert_sent, append,
    py_float, py_ge, py_le, py_lt, and_, not_, bind, get, modify, ret, raise
    in *.

(** ** The limiter *)

Lemma can_do_task_spec l now :
  can_do_task l now = true <->
  last_time_that_did_task l = None \/
  exists t, last_time_that_did_task l = Some t /\ time_interval l <= now - t.
Proof.
  unfold can_do_task. destruct (last_time_that_did_task l) as [t|].
  - rewrite Qleb_true. split.
    + intros H. right. exists t. split; [reflexivity | exact H].
    + intros [H | (t' & E & H)]; [discriminate | congruence].
  - split; [intros _; left; reflexivity | reflexivity].
Qed.

Lemma get_update_limiter_same n f ls :
  get_limiter n (update_limiter n f ls) = f (get_limiter n ls).
Proof. destruct n; reflexivity. Qed.

Lemma get_update_limiter_other n n' f ls :
  n <> n' -> get_limiter n' (update_limiter n f ls) = get_limiter n' ls.
Proof. destruct n, n'; intros H; try reflexivity; congruence. Qed.

Lemma limiter_of_after_same st sid n f :
  limiter_of (limiters_after sid n f st) sid n = f <$> limiter_of st sid n.
Proof.
  unfold limiter_of, limiters_after. cbn. rewrite lookup_alter_eq.
  destruct (_system_critical_timed_task_limiters st !! sid); cbn;
    [rewrite get_update_limiter_same|]; reflexivity.
Qed.

(** ** Metric classification on numeric input *)

(** What [_classify_alert] does when both thresholds and [previous] are
    numbers and the system has a state: it never raises, the warning block
    appends [wa], and the critical block appends at most one alert and
    records or resets the limiter with it. *)
Lemma _classify_alert_numeric current p config meta_data inc dec n s ls W C :
  warning_threshold config = Some W ->
  critical_threshold config = Some C ->
  _system_critical_timed_task_limiters (store s) !! system_id meta_data
    = Some ls ->
  let t := last_monitored meta_data in
  let L := get_limiter n ls in
  let wa :=
    if warning_enabled config then
      if Qleb W current && Qltb current C && negb (Qleb W p)
      then [threshold_alert inc meta_data current WARNING WARNING]
      else if Qltb current W && Qleb W p
           then [threshold_alert dec meta_data current INFO WARNING]
           else []
    else [] in
  _classify_alert current (Some p) config meta_data inc dec n s =
    if critical_enabled config then
      if Qleb C current && can_do_task L t then
        (mkCState
           (limiters_after (system_id meta_data) n
              (fun l => set_last_time_that_did_task l t) (store s))
           ((data_for_alerting s ++ wa)
              ++ [threshold_alert inc meta_data current CRITICAL CRITICAL]),
         Ret tt)
      else if Qltb W current && Qltb current C && Qleb C p then
        (mkCState (limiters_after (system_id meta_data) n reset (store s))
           ((data_for_alerting s ++ wa)
              ++ [threshold_alert dec meta_data current INFO CRITICAL]),
         Ret tt)
      else (mkCState (store s) (data_for_alerting s ++ wa), Ret tt)
    else (mkCState (store s) (data_for_alerting s ++ wa), Ret tt).
Proof.
  intros HW HC Hls t L wa. subst wa.
  unfold _classify_alert. unfold_py. rewrite HW, HC, Hls. cbn.
  destruct s as [st dfa]; cbn in *.
  destruct (warning_enabled config), (critical_enabled config); cbn;
  destruct (Qleb W current), (Qltb current C), (Qleb W p), (Qltb current W);
  cbn; rewrite ?Hls, ?app_nil_r; cbn;
  destruct (Qleb C current); cbn; rewrite ?Hls; cbn; fold t; fold L;
  try destruct (can_do_task L t); cbn;
  try destruct (Qltb W current); cbn;
  try destruct (Qleb C p); cbn; reflexivity.
Qed.

Lemma not_in_previous_or_None_Some cur prev :
  not_in_previous_or_None (Some cur) prev = negb (py_eq (Some cur) prev).
Proof. unfold not_in_previous_or_None. cbn. apply f_equal, orb_false_r. Qed.

Lemma threshold_alert_inj cls cls' meta_data cur sev thr sev' thr' :
  threshold_alert cls meta_data cur sev thr
  = threshold_alert cls' meta_data cur sev' thr' ->
  cls = cls' /\ sev = sev' /\ thr = thr'.
Proof. unfold threshold_alert. intros H. injection H. auto. Qed.


(** ** Invariants along the appended alerts *)

Section Sound.
Context {G : Type} (step : G -> Alert -> option G) (Inv : G -> Store -> Prop).

Lemma run_ghost_app (g : G) (A B : list Alert) :
  run_ghost step g (A ++ B)
  = match run_ghost step g A with
    | Some g1 => run_ghost step g1 B
    | None => None
    end.
Proof.
  revert g. induction A as [|a A IH]; intros g; cbn; [reflexivity|].
  destruct (step g a); [apply IH | reflexivity].
Qed.

Lemma sound_ret {A} (a : A) : sound step Inv (ret a).
Proof.
  intros s g HI. exists [], g. cbn. rewrite app_nil_r. auto.
Qed.

Lemma sound_raise {A} (e : Exn) : sound step Inv (@raise CState A e).
Proof.
  intros s g HI. exists [], g. cbn. rewrite app_nil_r. auto.
Qed.

Lemma sound_bind {A B} (m : M CState A) (k : A -> M CState B) :
  sound step Inv m -> (forall a, sound step Inv (k a)) ->
  sound step Inv (bind m k).
Proof.
  intros Hm Hk s g HI.
  destruct (Hm s g HI) as (new1 & g1 & E1 & R1 & I1).
  unfold bind. destruct (m s) as [s1 [a|e]]; cbn in *.
  - destruct (Hk a s1 g1 I1) as (new2 & g2 & E2 & R2 & I2).
    exists (new1 ++ new2), g2. repeat split.
    + rewrite E2, E1, app_assoc. reflexivity.
    + rewrite run_ghost_app, R1. exact R2.
    + exact I2.
  - exists new1, g1. auto.
Qed.

Lemma sound_when (c : bool) (m : M CState unit) :
  sound step Inv m -> sound step Inv (when c m).
Proof. destruct c; [auto | intros _; apply sound_ret]. Qed.

End Sound.

(** ** Case analysis of the blocks *)

(** Whatever its input, and whether it returns or raises, the guarded
    classification of one metric appends at most one warning-side alert and
    then at most one critical-side alert, leaves the store alone unless it
    appends a critical-side alert, and with that alert records or resets the
    one limiter it was given. *)
Lemma classify_metric_cases floaty sample config meta_data inc dec n s :
  let s' := fst (classify_metric floaty sample config meta_data inc dec n s) in
  let sid := system_id meta_data in
  let t := last_monitored meta_data in
  exists wa ca,
    data_for_alerting s' = data_for_alerting s ++ wa ++ ca /\
    (wa = [] \/
     exists cur,
       wa = [threshold_alert inc meta_data cur WARNING WARNING] \/
       wa = [threshold_alert dec meta_data cur INFO WARNING]) /\
    ((ca = [] /\ store s' = store s) \/
     (exists cur ls,
        _system_critical_timed_task_limiters (store s) !! sid = Some ls /\
        can_do_task (get_limiter n ls) t = true /\
        ca = [threshold_alert inc meta_data cur CRITICAL CRITICAL] /\
        store s' = limiters_after sid n
                     (fun l => set_last_time_that_did_task l t) (store s)) \/
     (exists cur ls,
        _system_critical_timed_task_limiters (store s) !! sid = Some ls /\
        ca = [threshold_alert dec meta_data cur INFO CRITICAL] /\
        store s' = limiters_after sid n reset (store s))).
Proof.
  intros s' sid t. subst s'.
  assert (Hnone : forall x : CState * Res unit, x = (s, snd x) ->
    exists wa ca,
      data_for_alerting (fst x) = data_for_alerting s ++ wa ++ ca /\
      (wa = [] \/
       exists cur,
         wa = [threshold_alert inc meta_data cur WARNING WARNING] \/
         wa = [threshold_alert dec meta_data cur INFO WARNING]) /\
      ((ca = [] /\ store (fst x) = store s) \/
       (exists cur ls,
          _system_critical_timed_task_limiters (store s) !! sid = Some ls /\
          can_do_task (get_limiter n ls) t = true /\
          ca = [threshold_alert inc meta_data cur CRITICAL CRITICAL] /\
          store (fst x) = limiters_after sid n
                       (fun l => set_last_time_that_did_task l t) (store s)) \/
       (exists cur ls,
          _system_critical_timed_task_limiters (store s) !! sid = Some ls /\
          ca = [threshold_alert dec meta_data cur INFO CRITICAL] /\
          store (fst x) = limiters_after sid n reset (store s)))).
  { intros x ->. exists [], []. cbn. rewrite app_nil_r. auto. }
  unfold classify_metric.
  destruct (not_in_previous_or_None (current sample) (previous sample));
    [|apply Hnone; reflexivity].
  destruct (current sample) as [cur|]; [|apply Hnone; reflexivity].
  unfold _classify_alert. unfold_py. fold sid t.
  destruct (_system_critical_timed_task_limiters (store s) !! sid)
    as [ls|] eqn:Hls; [|apply Hnone; reflexivity].
  destruct s as [st dfa]; cbn in *.
  destruct (warning_threshold config) as [W|], (critical_threshold config) as [C|],
           (floaty (previous sample)) as [p|];
  destruct (warning_enabled config), (critical_enabled config); cbn;
  repeat match goal with
  | |- context [Qleb ?a ?b] => destruct (Qleb a b); cbn
  | |- context [Qltb ?a ?b] => destruct (Qltb a b); cbn
  end;
  rewrite ?Hls; cbn;
  try (destruct (can_do_task (get_limiter n ls) t) eqn:Hcan; cbn);
  repeat match goal with
  | |- context [Qleb ?a ?b] => destruct (Qleb a b); cbn
  | |- context [Qltb ?a ?b] => destruct (Qltb a b); cbn
  end.
  all:
    let finish :=
      (split; [rewrite <- ?app_assoc, ?app_nil_r; reflexivity|]);
      (split;
       [ first [ left; reflexivity
               | right; eexists; left; reflexivity
               | right; eexists; right; reflexivity ]
       | first [ left; split; reflexivity
               | right; left; do 2 eexists;
                 split; [reflexivity|]; split; [eassumption|];
                 split; reflexivity
               | right; right; do 2 eexists;
                 split; [reflexivity|]; split; reflexivity ] ]) in
    first
    [ exists [], []; finish
    | match goal with
      | |- context [(_ ++ [?a]) ++ [?b]] => exists [a], [b]; finish
      end
    | match goal with |- context [_ ++ [?a]] => exists [a], []; finish end
    | match goal with |- context [_ ++ [?a]] => exists [], [a]; finish end ].
Qed.

Lemma back_up_block_cases cfg metrics meta_data s :
  let s' := fst (back_up_block cfg metrics meta_data s) in
  let sid := system_id meta_data in
  (data_for_alerting s' = data_for_alerting s /\ store s' = store s) \/
  (enabled (system_is_down cfg) = true /\
   is_Some (previous (m_went_down_at metrics)) /\
   is_Some (_system_critical_timed_task_limiters (store s) !! sid) /\
   data_for_alerting s' = data_for_alerting s ++ [back_up_alert meta_data] /\
   store s' = limiters_after sid IS_DOWN_LIMITER_NAME reset
                (sent_after sid false (store s))).
Proof.
  intros s' sid. subst s'. unfold back_up_block. unfold_py. fold sid.
  destruct (enabled (system_is_down cfg)); [|left; split; reflexivity].
  destruct (_system_critical_timed_task_limiters (store s) !! sid) as [ls|]
    eqn:Hls; [|left; split; reflexivity].
  destruct (previous (m_went_down_at metrics)) as [p|];
    [|left; split; reflexivity].
  right. cbn. repeat split; eauto.
Qed.

Lemma _process_errors_cases cfg error_data s :
  let s' := fst (_process_errors cfg error_data s) in
  let meta_data := err_meta_data error_data in
  let sid := err_system_id meta_data in
  let t := time meta_data in
  let sent := _system_initial_downtime_alert_sent (store s) in
  let limiters := _system_critical_timed_task_limiters (store s) in
  (data_for_alerting s' = data_for_alerting s /\ store s' = store s) \/
  (exists cls,
     (cls = MetricNotFoundErrorAlert \/ cls = InvalidUrlAlert) /\
     data_for_alerting s'
       = data_for_alerting s ++ [error_alert cls (message error_data) meta_data]
     /\ store s' = store s) \/
  (exists severity,
     (severity = CRITICAL \/ severity = WARNING) /\
     sent !! sid = Some false /\ is_Some (limiters !! sid) /\
     data_for_alerting s'
       = data_for_alerting s ++ [went_down_alert meta_data severity] /\
     store s' = sent_after sid true
                  (limiters_after sid IS_DOWN_LIMITER_NAME
                     (fun l => set_last_time_that_did_task l t) (store s))) \/
  (exists ls downtime,
     sent !! sid = Some true /\ limiters !! sid = Some ls /\
     can_do_task (get_limiter IS_DOWN_LIMITER_NAME ls) t = true /\
     data_for_alerting s'
       = data_for_alerting s ++ [still_down_alert meta_data downtime] /\
     store s' = limiters_after sid IS_DOWN_LIMITER_NAME
                  (fun l => set_last_time_that_did_task l t) (store s)).
Proof.
  intros s' meta_data sid t sent limiters. subst s' sent limiters.
  unfold _process_errors. fold meta_data sid t.
  destruct (code error_data =? 5003)%Z.
  { right; left. eexists. split; [left; reflexivity|]. cbn. auto. }
  destruct (code error_data =? 5009)%Z.
  { right; left. eexists. split; [right; reflexivity|]. cbn. auto. }
  destruct (code error_data =? 5004)%Z; [|left; split; reflexivity].
  unfold_py.
  destruct (enabled (system_is_down cfg)); [|left; split; reflexivity].
  destruct (current (err_went_down_at error_data)) as [c|];
    [|left; split; reflexivity].
  destruct s as [st dfa]; cbn.
  destruct (_system_critical_timed_task_limiters st !! sid) as [ls|] eqn:Hls;
    [|left; split; reflexivity]; cbn.
  destruct (_system_initial_downtime_alert_sent st !! sid) as [[|]|] eqn:Hsent;
    [| |left; split; reflexivity]; cbn.
  - destruct (critical_enabled (system_is_down cfg)); cbn;
      [|left; split; reflexivity].
    rewrite Hls; cbn.
    destruct (can_do_task (is_down_limiter ls) t) eqn:Hcan; cbn;
      [|left; split; reflexivity].
    right; right; right. exists ls, (t - c). repeat split; auto.
  - destruct (critical_enabled (system_is_down cfg)),
             (critical_threshold (system_is_down cfg)) as [C|]; cbn;
    try destruct (Qleb C (t - c)); cbn;
    try (left; split; reflexivity);
    try (right; right; left; exists CRITICAL;
         split; [left; reflexivity|]; repeat split; eauto; fail);
    destruct (warning_enabled (system_is_down cfg)),
             (warning_threshold (system_is_down cfg)) as [W|]; cbn;
    try destruct (Qleb W (t - c)); cbn;
    try (left; split; reflexivity);
    right; right; left; exists WARNING;
    (split; [right; reflexivity|]); repeat split; eauto.
Qed.

(** ** The critical repeat *)

Lemma limiter_of_after_other st sid sid' n n' f :
  sid' <> sid \/ n' <> n ->
  limiter_of (limiters_after sid' n' f st) sid n = limiter_of st sid n.
Proof.
  intros H. unfold limiter_of, limiters_after. cbn.
  destruct (decide (sid' = sid)) as [->|Hne].
  - destruct H as [H|H]; [congruence|].
    rewrite lookup_alter_eq.
    destruct (_system_critical_timed_task_limiters st !! sid); cbn;
      [rewrite get_update_limiter_other by exact H|]; reflexivity.
  - rewrite lookup_alter_ne by exact Hne. reflexivity.
Qed.

Lemma limiter_of_sent_after st sid sid' b n :
  limiter_of (sent_after sid' b st) sid n = limiter_of st sid n.
Proof. reflexivity. Qed.

Lemma intervals_ok_after cfg st sid n f :
  (forall l, time_interval (f l) = time_interval l) ->
  intervals_ok cfg st -> intervals_ok cfg (limiters_after sid n f st).
Proof.
  intros Hf Hok sid' ls' Hl n'. unfold limiters_after in Hl. cbn in Hl.
  destruct (decide (sid = sid')) as [->|Hne].
  - rewrite lookup_alter_eq in Hl.
    destruct (_system_critical_timed_task_limiters st !! sid') as [ls|] eqn:E;
      [|discriminate].
    cbn in Hl. injection Hl as <-.
    destruct (decide (n = n')) as [->|Hn].
    + rewrite get_update_limiter_same, Hf. eapply Hok; eauto.
    + rewrite get_update_limiter_other by exact Hn. eapply Hok; eauto.
  - rewrite lookup_alter_ne in Hl by exact Hne. eapply Hok; eauto.
Qed.

Lemma intervals_ok_sent_after cfg st sid b :
  intervals_ok cfg st -> intervals_ok cfg (sent_after sid b st).
Proof. intros Hok sid' ls' Hl. eapply Hok. exact Hl. Qed.

Lemma intervals_ok_initial cfg : intervals_ok cfg initial_store.
Proof. intros sid ls H. cbn in H. rewrite lookup_empty in H. discriminate. Qed.

Section Repeat.
Variable cfg : SystemAlertsConfig.
Variable sid : string.
Variable n : LimiterName.

Local Abbreviation rep := (inject_Z (critical_repeat (config_of cfg n))).
Local Abbreviation monitor := (repeat_monitor sid n rep).
Local Abbreviation Inv := (repeat_inv cfg sid n).

(** An alert that is not about [(sid, n)], or is neither CRITICAL nor a
    reset, leaves the monitor where it is. *)
Lemma monitor_skip g a :
  is_reset_for sid n a = false -> is_critical_for sid n a = false ->
  monitor g a = Some g.
Proof. intros Hr Hc. unfold repeat_monitor. rewrite Hr, Hc. reflexivity. Qed.

Lemma is_about_threshold_alert cls meta_data cur sev thr n' :
  metric_of_class cls = Some n' ->
  is_about sid n (threshold_alert cls meta_data cur sev thr)
  = String.eqb (system_id meta_data) sid && bool_decide (n' = n).
Proof.
  intros Hm. unfold is_about. cbn. rewrite Hm. f_equal.
  apply bool_decide_ext. split; congruence.
Qed.

Lemma not_back_up cls n' :
  metric_of_class cls = Some n' -> n' <> IS_DOWN_LIMITER_NAME ->
  bool_decide (cls = SystemBackUpAgainAlert) = false.
Proof.
  intros Hm Hn. apply bool_decide_eq_false. intros ->. cbn in Hm. congruence.
Qed.

Lemma Inv_after_other g st sid' n' f :
  (forall l, time_interval (f l) = time_interval l) ->
  sid' <> sid \/ n' <> n ->
  Inv g st -> Inv g (limiters_after sid' n' f st).
Proof.
  intros Hf Hne [Hok Hg]. split; [apply intervals_ok_after; assumption|].
  destruct g as [t|]; [|exact I].
  rewrite limiter_of_after_other by exact Hne. exact Hg.
Qed.

Lemma about_false_other (sid' : string) (n' : LimiterName) :
  String.eqb sid' sid && bool_decide (n' = n) = false ->
  sid' <> sid \/ n' <> n.
Proof.
  intros H. apply andb_false_iff in H. destruct H as [H|H].
  - left. apply String.eqb_neq. exact H.
  - right. apply bool_decide_eq_false in H. exact H.
Qed.

Lemma sound_classify_metric floaty sample config meta_data inc dec n' :
  metric_of_class inc = Some n' -> metric_of_class dec = Some n' ->
  decreased_below inc = false -> decreased_below dec = true ->
  n' <> IS_DOWN_LIMITER_NAME ->
  sound monitor Inv
    (classify_metric floaty sample config meta_data inc dec n').
Proof.
  intros Hinc Hdec Hdi Hdd Hn' s g HI.
  destruct (classify_metric_cases floaty sample config meta_data inc dec n' s)
    as (wa & ca & E & Hwa & Hca).
  set (s' := fst (classify_metric floaty sample config meta_data inc dec n' s))
    in *.
  assert (Hw : run_ghost monitor g wa = Some g).
  { destruct Hwa as [->|(cur & [->| ->])]; cbn; [reflexivity| |];
      rewrite monitor_skip; try reflexivity;
      unfold is_reset_for, is_critical_for;
      rewrite ?(is_about_threshold_alert _ _ _ _ _ n') by assumption;
      unfold threshold_alert;
      cbn [alert_class alert_severity alert_threshold_severity];
      rewrite ?Hdi, ?Hdd, ?(not_back_up _ n') by assumption; cbn;
      rewrite ?andb_false_r; reflexivity. }
  assert (Hc : exists g', run_ghost monitor g ca = Some g' /\ Inv g' (store s')).
  { destruct Hca as [[-> ->]|[(cur & ls & Hls & Hcan & -> & ->)
                             |(cur & ls & Hls & -> & ->)]].
    - exists g. split; [reflexivity | exact HI].
    - cbn. unfold repeat_monitor at 1, is_reset_for, is_critical_for.
      rewrite (is_about_threshold_alert _ _ _ _ _ n') by assumption.
      unfold threshold_alert at 1 2 3 4.
      cbn [alert_class alert_severity alert_threshold_severity
           alert_timestamp].
      rewrite Hdi, (not_back_up _ n') by assumption. cbn.
      rewrite andb_false_r, andb_true_r.
      destruct (String.eqb (system_id meta_data) sid && bool_decide (n' = n))
        eqn:Ab.
      + apply andb_true_iff in Ab. destruct Ab as [Es En].
        apply String.eqb_eq in Es. apply bool_decide_eq_true in En.
        subst n'.
        assert (HI' : Inv (Some (last_monitored meta_data))
                        (limiters_after (system_id meta_data) n
                           (fun l => set_last_time_that_did_task l
                                       (last_monitored meta_data)) (store s))).
        { destruct HI as [Hok Hg]. split;
            [apply intervals_ok_after; [reflexivity | exact Hok]|].
          split.
          - rewrite <- Es, limiter_of_after_same. unfold limiter_of.
            rewrite Hls. cbn. eexists. split; reflexivity.
          - intros ->. contradiction. }
        destruct g as [t0|].
        * destruct HI as [Hok [(l & Hl & Hlast) _]].
          unfold limiter_of in Hl. rewrite <- Es, Hls in Hl. cbn in Hl.
          injection Hl as <-.
          unfold can_do_task in Hcan. rewrite Hlast in Hcan.
          rewrite (Hok _ _ Hls n) in Hcan. rewrite Hcan.
          eexists. split; [reflexivity | exact HI'].
        * eexists. split; [reflexivity | exact HI'].
      + eexists. split; [reflexivity|].
        apply Inv_after_other; [reflexivity | | exact HI].
        apply about_false_other. exact Ab.
    - cbn. unfold repeat_monitor at 1, is_reset_for, is_critical_for.
      rewrite (is_about_threshold_alert _ _ _ _ _ n') by assumption.
      unfold threshold_alert at 1 2 3 4.
      cbn [alert_class alert_severity alert_threshold_severity
           alert_timestamp].
      rewrite Hdd. cbn. rewrite andb_false_r, andb_true_r.
      destruct (String.eqb (system_id meta_data) sid && bool_decide (n' = n))
        eqn:Ab.
      + eexists. split; [reflexivity|].
        split; [|exact I].
        apply intervals_ok_after; [reflexivity | apply HI].
      + eexists. split; [reflexivity|].
        apply Inv_after_other; [reflexivity | | exact HI].
        apply about_false_other. exact Ab. }
  destruct Hc as (g' & Hg' & HI').
  exists (wa ++ ca), g'. split; [exact E|]. split; [|exact HI'].
  rewrite run_ghost_app, Hw. exact Hg'.
Qed.

Lemma Inv_sent_after_other g st sid' b :
  sid' <> sid \/ n <> IS_DOWN_LIMITER_NAME ->
  Inv g st -> Inv g (sent_after sid' b st).
Proof.
  intros Hne [Hok Hg]. split; [apply intervals_ok_sent_after; exact Hok|].
  destruct g as [t|]; [|exact I].
  destruct Hg as [Hl Hs]. split; [exact Hl|].
  intros Hn. destruct Hne as [Hne|Hne]; [|contradiction].
  cbn. rewrite lookup_insert_ne by exact Hne. auto.
Qed.

Lemma about_is_down_false (sid' : string) :
  String.eqb sid' sid && bool_decide (Some IS_DOWN_LIMITER_NAME = Some n)
  = false ->
  sid' <> sid \/ IS_DOWN_LIMITER_NAME <> n.
Proof.
  intros H. apply andb_false_iff in H. destruct H as [H|H].
  - left. apply String.eqb_neq. exact H.
  - right. apply bool_decide_eq_false in H. congruence.
Qed.

Lemma about_is_down_true (sid' : string) :
  String.eqb sid' sid && bool_decide (Some IS_DOWN_LIMITER_NAME = Some n)
  = true ->
  sid' = sid /\ n = IS_DOWN_LIMITER_NAME.
Proof.
  intros H. apply andb_true_iff in H. destruct H as [H1 H2].
  apply String.eqb_eq in H1. apply bool_decide_eq_true in H2.
  split; congruence.
Qed.

Lemma sound_back_up_block metrics meta_data :
  sound monitor Inv (back_up_block cfg metrics meta_data).
Proof.
  intros s g HI.
  destruct (back_up_block_cases cfg metrics meta_data s)
    as [[E ->]|(_ & _ & Hls & E & ->)].
  - exists [], g. rewrite app_nil_r. auto.
  - exists [back_up_alert meta_data]. cbn.
    unfold repeat_monitor at 1, is_reset_for, is_critical_for,
      is_about. cbn.
    rewrite andb_false_r.
    destruct (String.eqb (system_id meta_data) sid
              && bool_decide (Some IS_DOWN_LIMITER_NAME = Some n)) eqn:Ab; cbn.
    + exists None. split; [exact E|]. split; [reflexivity|].
      split; [|exact I].
      apply intervals_ok_after; [reflexivity|].
      apply intervals_ok_sent_after, HI.
    + exists g. split; [exact E|]. split; [reflexivity|].
      apply about_is_down_false in Ab.
      apply Inv_after_other; [reflexivity | exact Ab |].
      apply Inv_sent_after_other; [|exact HI].
      destruct Ab; [left|right]; congruence.
Qed.

Lemma sound_process_errors error_data :
  sound monitor Inv (_process_errors cfg error_data).
Proof.
  intros s g HI.
  destruct (_process_errors_cases cfg error_data s)
    as [[E ->]|[(cls & Hcls & E & ->)
              |[(sev & Hsev & Hsent & Hls & E & ->)
               |(ls & downtime & Hsent & Hls & Hcan & E & ->)]]].
  - exists [], g. rewrite app_nil_r. auto.
  - exists [error_alert cls (message error_data) (err_meta_data error_data)], g.
    split; [exact E|]. split; [|exact HI].
    cbn. rewrite monitor_skip; [reflexivity| |];
      unfold is_reset_for, is_critical_for, is_about; cbn;
      destruct Hcls as [-> | ->]; cbn; rewrite ?andb_false_r; reflexivity.
  - exists [went_down_alert (err_meta_data error_data) sev]. cbn.
    unfold repeat_monitor at 1, is_reset_for, is_critical_for,
      is_about. cbn. rewrite andb_false_r.
    set (sid' := err_system_id (err_meta_data error_data)) in *.
    set (t := time (err_meta_data error_data)) in *.
    destruct (String.eqb sid' sid
              && bool_decide (Some IS_DOWN_LIMITER_NAME = Some n)) eqn:Ab; cbn.
    + apply about_is_down_true in Ab. destruct Ab as [Es En].
      destruct g as [t0|].
      { destruct HI as [_ [_ Hs]]. rewrite <- Es, Hsent in Hs.
        specialize (Hs En). discriminate. }
      assert (HI' : Inv (Some t)
                (sent_after sid' true
                   (limiters_after sid' IS_DOWN_LIMITER_NAME
                      (fun l => set_last_time_that_did_task l t) (store s)))).
      { split.
        - apply intervals_ok_sent_after, intervals_ok_after;
            [reflexivity | apply HI].
        - split.
          + rewrite limiter_of_sent_after, En, <- Es, limiter_of_after_same.
            unfold limiter_of. destruct Hls as [ls ->]. cbn.
            eexists. split; reflexivity.
          + intros _. cbn. rewrite <- Es. apply lookup_insert_eq. }
      destruct Hsev as [-> | ->]; cbn.
      * exists (Some t). split; [exact E|]. split; [reflexivity | exact HI'].
      * exists None. split; [exact E|]. split; [reflexivity|].
        split; [apply HI' | exact I].
    + exists g. split; [exact E|]. split; [reflexivity|].
      apply about_is_down_false in Ab.
      apply Inv_sent_after_other; [destruct Ab; [left|right]; congruence|].
      apply Inv_after_other; [reflexivity | exact Ab | exact HI].
  - exists [still_down_alert (err_meta_data error_data) downtime]. cbn.
    unfold repeat_monitor at 1, is_reset_for, is_critical_for,
      is_about. cbn. rewrite andb_false_r, andb_true_r.
    set (sid' := err_system_id (err_meta_data error_data)) in *.
    set (t := time (err_meta_data error_data)) in *.
    destruct (String.eqb sid' sid
              && bool_decide (Some IS_DOWN_LIMITER_NAME = Some n)) eqn:Ab; cbn.
    + apply about_is_down_true in Ab. destruct Ab as [Es En].
      assert (HI' : Inv (Some t)
                (limiters_after sid' IS_DOWN_LIMITER_NAME
                   (fun l => set_last_time_that_did_task l t) (store s))).
      { split.
        - apply intervals_ok_after; [reflexivity | apply HI].
        - split.
          + rewrite En, <- Es, limiter_of_after_same.
            unfold limiter_of. rewrite Hls. cbn.
            eexists. split; reflexivity.
          + intros _. cbn. rewrite <- Es. exact Hsent. }
      destruct g as [t0|].
      * destruct HI as [Hok [(l & Hl & Hlast) _]].
        unfold limiter_of in Hl. rewrite <- Es, Hls, En in Hl. cbn in Hl.
        injection Hl as <-.
        unfold can_do_task in Hcan. cbn in Hcan. rewrite Hlast in Hcan.
        pose proof (Hok _ _ Hls IS_DOWN_LIMITER_NAME) as Hint. cbn in Hint.
        rewrite Hint in Hcan.
        assert (Hrep : Qleb rep (t - t0) = true)
          by (rewrite En; exact Hcan).
        rewrite Hrep.
        exists (Some t). split; [exact E|]. split; [reflexivity | exact HI'].
      * exists (Some t). split; [exact E|]. split; [reflexivity | exact HI'].
    + exists g. split; [exact E|]. split; [reflexivity|].
      apply about_is_down_false in Ab.
      apply Inv_after_other; [reflexivity | exact Ab | exact HI].
Qed.

Lemma intervals_ok_new_limiters ls' :
  ls' = new_critical_limiters cfg ->
  forall n', time_interval (get_limiter n' ls')
             = inject_Z (critical_repeat (config_of cfg n')).
Proof. intros -> n'. destruct n'; reflexivity. Qed.

Lemma sound_create_state system_id :
  sound monitor Inv (_create_state_for_system cfg system_id).
Proof.
  intros s g [Hok Hg]. exists [], g. cbn. rewrite app_nil_r.
  split; [reflexivity|]. split; [reflexivity|].
  split.
  - intros sid' ls' Hl. cbn in Hl.
    destruct (_system_critical_timed_task_limiters (store s) !! system_id)
      eqn:E.
    + eapply Hok; eauto.
    + destruct (decide (system_id = sid')) as [->|Hne].
      * rewrite lookup_insert_eq in Hl. injection Hl as <-.
        apply intervals_ok_new_limiters. reflexivity.
      * rewrite lookup_insert_ne in Hl by exact Hne. eapply Hok; eauto.
  - destruct g as [t|]; [|exact I].
    destruct Hg as [(l & Hl & Hlast) Hs]. split.
    + exists l. split; [|exact Hlast].
      unfold limiter_of in *. cbn.
      destruct (_system_critical_timed_task_limiters (store s) !! system_id)
        eqn:E; [exact Hl|].
      destruct (decide (system_id = sid)) as [->|Hne].
      * rewrite E in Hl. discriminate.
      * rewrite lookup_insert_ne by exact Hne. exact Hl.
    + intros Hn. specialize (Hs Hn). cbn.
      destruct (_system_initial_downtime_alert_sent (store s) !! system_id)
        eqn:E; [exact Hs|].
      destruct (decide (system_id = sid)) as [->|Hne].
      * rewrite E in Hs. discriminate.
      * rewrite lookup_insert_ne by exact Hne. exact Hs.
Qed.

Lemma _process_results_blocks floaty metrics meta_data :
  _process_results cfg floaty metrics meta_data
  = (run back_up_block cfg metrics meta_data;
     run when (enabled (open_file_descriptors cfg))
           (classify_metric floaty (m_open_file_descriptors metrics)
              (open_file_descriptors cfg) meta_data
              OpenFileDescriptorsIncreasedAboveThresholdAlert
              OpenFileDescriptorsDecreasedBelowThresholdAlert
              OPEN_FD_LIMITER_NAME);
     run when (enabled (system_storage_usage cfg))
           (classify_metric floaty (m_system_storage_usage metrics)
              (system_storage_usage cfg) meta_data
              SystemStorageUsageIncreasedAboveThresholdAlert
              SystemStorageUsageDecreasedBelowThresholdAlert
              STORAGE_USE_LIMITER_NAME);
     run when (enabled (system_cpu_usage cfg))
           (classify_metric floaty (m_system_cpu_usage metrics)
              (system_cpu_usage cfg) meta_data
              SystemCPUUsageIncreasedAboveThresholdAlert
              SystemCPUUsageDecreasedBelowThresholdAlert
              CPU_USE_LIMITER_NAME);
     when (enabled (system_ram_usage cfg))
       (classify_metric floaty (m_system_ram_usage metrics)
          (system_cpu_usage cfg) meta_data
          SystemRAMUsageIncreasedAboveThresholdAlert
          SystemRAMUsageDecreasedBelowThresholdAlert
          RAM_USE_LIMITER_NAME)).
Proof. reflexivity. Qed.

Lemma sound_process_results floaty metrics meta_data :
  sound monitor Inv (_process_results cfg floaty metrics meta_data).
Proof.
  rewrite _process_results_blocks.
  repeat (apply sound_bind; [|intros _]);
    [apply sound_back_up_block|..];
    apply sound_when; apply sound_classify_metric;
    solve [reflexivity | discriminate].
Qed.

Lemma sound_classify floaty parsed_routing_key data_received :
  sound monitor Inv (classify cfg floaty parsed_routing_key data_received).
Proof.
  unfold classify.
  destruct (existsb (String.eqb (parent_id cfg)) parsed_routing_key);
    [|apply sound_raise].
  destruct data_received as [data meta_data|error|].
  - apply sound_bind; [apply sound_create_state|intros _].
    apply sound_process_results.
  - apply sound_bind; [apply sound_create_state|intros _].
    apply sound_process_errors.
  - apply sound_raise.
Qed.

Lemma deliver_accepted floaty d st g :
  Inv g st ->
  exists g', run_ghost monitor g (snd (deliver cfg floaty d st)) = Some g'
             /\ Inv g' (fst (deliver cfg floaty d st)).
Proof.
  intros HI. unfold deliver. destruct (body d) as [data_received|].
  - destruct (sound_classify floaty (split_dot (method_routing_key d))
                data_received (mkCState st []) g HI)
      as (new & g' & E & R & HI').
    cbn in E. exists g'. cbn. rewrite E. auto.
  - exists g. auto.
Qed.

Lemma deliver_all_accepted floaty ds st g :
  Inv g st ->
  exists g', run_ghost monitor g (snd (deliver_all cfg floaty ds st)) = Some g'
             /\ Inv g' (fst (deliver_all cfg floaty ds st)).
Proof.
  revert st g. induction ds as [|d ds IH]; intros st g HI; cbn.
  - exists g. auto.
  - destruct (deliver_accepted floaty d st g HI) as (g1 & R1 & HI1).
    destruct (deliver cfg floaty d st) as [st1 A]. cbn in *.
    destruct (IH st1 g1 HI1) as (g2 & R2 & HI2).
    destruct (deliver_all cfg floaty ds st1) as [st2 B]. cbn in *.
    exists g2. rewrite run_ghost_app, R1. auto.
Qed.

(** What the monitor accepting a sequence says about two of its CRITICAL
    alerts with no reset in between. *)
Lemma monitor_gap A2 b A3 t t0 g' :
  0 <= rep -> t0 <= t ->
  run_ghost monitor (Some t) (A2 ++ b :: A3) = Some g' ->
  (forall x, In x A2 -> is_reset_for sid n x = false) ->
  is_critical_for sid n b = true ->
  rep <= alert_timestamp b - t0.
Proof.
  intros Hrep. revert t. induction A2 as [|x A2 IH]; intros t Ht R Hno Hb.
  - cbn in R. unfold repeat_monitor at 1 in R. rewrite Hb in R.
    destruct (is_reset_for sid n b); [discriminate|].
    destruct (Qleb rep (alert_timestamp b - t)) eqn:E; [|discriminate].
    apply Qleb_true in E. lra.
  - cbn in R. unfold repeat_monitor at 1 in R.
    rewrite (Hno x) in R by (left; reflexivity).
    assert (Hno' : forall y, In y A2 -> is_reset_for sid n y = false)
      by (intros y Hy; apply Hno; right; exact Hy).
    destruct (is_critical_for sid n x).
    + destruct (Qleb rep (alert_timestamp x - t)) eqn:E; [|discriminate].
      apply Qleb_true in E.
      apply (IH (alert_timestamp x)); auto. lra.
    + apply (IH t); auto.
Qed.

Lemma monitor_pair A1 a A2 b A3 g g' :
  0 <= rep ->
  run_ghost monitor g (A1 ++ a :: A2 ++ b :: A3) = Some g' ->
  is_critical_for sid n a = true ->
  (forall x, In x A2 -> is_reset_for sid n x = false) ->
  is_critical_for sid n b = true ->
  rep <= alert_timestamp b - alert_timestamp a.
Proof.
  intros Hrep R Ha Hno Hb.
  rewrite run_ghost_app in R.
  destruct (run_ghost monitor g A1) as [g1|]; [|discriminate].
  cbn in R. unfold repeat_monitor at 1 in R. rewrite Ha in R.
  destruct (is_reset_for sid n a); [discriminate|].
  destruct g1 as [t1|].
  - destruct (Qleb rep (alert_timestamp a - t1)); [|discriminate].
    eapply monitor_gap; eauto. lra.
  - eapply monitor_gap; eauto. lra.
Qed.

End Repeat.

(** C3.  Along any sequence of deliveries processed from the initial
    (empty) state, for every system [sid] and every limiter name [n] (the
    four usage metrics and [system_is_down]) whose [critical_repeat] is not
    negative: if a CRITICAL alert [a] for [(sid, n)] is appended at
    monitoring time [t] and a later CRITICAL alert [b] for [(sid, n)] at
    monitoring time [t'], with no alert that resets the limiter (a
    DecreasedBelow from critical, or a BackUp for the downtime limiter)
    appended in between, then [t' - t < critical_repeat] does not hold. *)
Theorem critical_repeat_respected cfg floaty ds sid n A1 a A2 b A3 :
  (0 <= critical_repeat (config_of cfg n))%Z ->
  snd (deliver_all cfg floaty ds initial_store) = A1 ++ a :: A2 ++ b :: A3 ->
  is_critical_for sid n a = true ->
  is_critical_for sid n b = true ->
  (forall x, In x A2 -> is_reset_for sid n x = false) ->
  ~ alert_timestamp b - alert_timestamp a
    < inject_Z (critical_repeat (config_of cfg n)).
Proof.
  intros Hrep E Ha Hb Hno.
  assert (HI : repeat_inv cfg sid n None initial_store)
    by (split; [apply intervals_ok_initial | exact I]).
  destruct (deliver_all_accepted cfg sid n floaty ds initial_store None HI)
    as (g' & R & _).
  rewrite E in R.
  apply Qle_not_lt.
  eapply monitor_pair; eauto.
  replace 0 with (inject_Z 0) by reflexivity.
  rewrite <- Zle_Qle. exact Hrep.
Qed.



(** ** Alerts that a block never appends *)

Lemma run_ghost_forbid P new g g' :
  run_ghost (forbid P) g new = Some g' ->
  forall a, In a new -> P a = false.
Proof.
  revert g. induction new as [|x new IH]; intros g R a Ha; [destruct Ha|].
  cbn in R. unfold forbid at 1 in R.
  destruct (P x) eqn:Px; [discriminate|].
  destruct Ha as [<-|Ha]; [exact Px | eapply IH; eauto].
Qed.

Lemma sound_forbid_classify_metric P (Inv : Store -> Prop)
  floaty sample config meta_data inc dec n' :
  (forall cur sev thr, P (threshold_alert inc meta_data cur sev thr) = false) ->
  (forall cur sev thr, P (threshold_alert dec meta_data cur sev thr) = false) ->
  (forall st f, Inv st -> Inv (limiters_after (system_id meta_data) n' f st)) ->
  sound (forbid P) (fun _ => Inv)
    (classify_metric floaty sample config meta_data inc dec n').
Proof.
  intros Hinc Hdec Hlim s [] HI.
  destruct (classify_metric_cases floaty sample config meta_data inc dec n' s)
    as (wa & ca & E & Hwa & Hca).
  exists (wa ++ ca), tt. split; [exact E|].
  assert (Hw : run_ghost (forbid P) tt wa = Some tt).
  { destruct Hwa as [->|(cur & [->| ->])]; cbn; unfold forbid;
      rewrite ?Hinc, ?Hdec; reflexivity. }
  rewrite run_ghost_app, Hw.
  destruct Hca as [[-> ->]|[(cur & ls & _ & _ & -> & ->)
                           |(cur & ls & _ & -> & ->)]]; cbn; unfold forbid;
    rewrite ?Hinc, ?Hdec; auto.
Qed.

Lemma sound_forbid_back_up_block P (Inv : Store -> Prop) cfg metrics meta_data :
  P (back_up_alert meta_data) = false ->
  (forall st, Inv st ->
     Inv (limiters_after (system_id meta_data) IS_DOWN_LIMITER_NAME reset
            (sent_after (system_id meta_data) false st))) ->
  sound (forbid P) (fun _ => Inv) (back_up_block cfg metrics meta_data).
Proof.
  intros HP Hst s [] HI.
  destruct (back_up_block_cases cfg metrics meta_data s)
    as [[E ->]|(_ & _ & _ & E & ->)].
  - exists [], tt. rewrite app_nil_r. auto.
  - exists [back_up_alert meta_data], tt. cbn. unfold forbid. rewrite HP. auto.
Qed.

Lemma classify_metric_skip floaty sample config meta_data inc dec n :
  unchanged_or_null sample = true ->
  classify_metric floaty sample config meta_data inc dec n = ret tt.
Proof.
  intros H. unfold classify_metric, not_in_previous_or_None.
  unfold unchanged_or_null in H. rewrite H. reflexivity.
Qed.

(** ** The usage metrics are skipped when unchanged or null *)

Lemma kept_after_other n st0 st sid n' f :
  n' <> n -> kept_limiters n st0 st ->
  kept_limiters n st0 (limiters_after sid n' f st).
Proof.
  intros Hn HK sid' l Hl. rewrite limiter_of_after_other; auto.
Qed.

Lemma sound_skip_process_results cfg n st0 floaty metrics meta_data :
  n <> IS_DOWN_LIMITER_NAME ->
  unchanged_or_null (sample_of n metrics) = true ->
  sound (forbid (of_metric n)) (fun _ => kept_limiters n st0)
    (_process_results cfg floaty metrics meta_data).
Proof.
  intros usage Hskip. rewrite _process_results_blocks.
  apply sound_bind; [|intros _].
  { apply sound_forbid_back_up_block.
    - unfold of_metric. cbn. apply bool_decide_eq_false. congruence.
    - intros st HK. apply kept_after_other; [congruence|].
      intros sid l Hl. rewrite limiter_of_sent_after. auto. }
  destruct n; try contradiction; cbn in Hskip;
  repeat (apply sound_bind; [|intros _]); apply sound_when;
  first
    [ rewrite classify_metric_skip by exact Hskip; apply sound_ret
    | apply sound_forbid_classify_metric;
      [ intros; apply bool_decide_eq_false; cbn; congruence
      | intros; apply bool_decide_eq_false; cbn; congruence
      | intros; apply kept_after_other; [congruence | assumption] ] ].
Qed.

Lemma sound_skip_create_state cfg n st0 system_id :
  sound (forbid (of_metric n)) (fun _ => kept_limiters n st0)
    (_create_state_for_system cfg system_id).
Proof.
  intros s [] HK. exists [], tt. cbn. rewrite app_nil_r.
  split; [reflexivity|]. split; [reflexivity|].
  intros sid l Hl. specialize (HK sid l Hl). unfold limiter_of in *. cbn.
  destruct (_system_critical_timed_task_limiters (store s) !! system_id)
    eqn:E; [exact HK|].
  destruct (decide (system_id = sid)) as [->|Hne].
  - rewrite E in HK. discriminate.
  - rewrite lookup_insert_ne by exact Hne. exact HK.
Qed.

(** C7, as amended.  For each of the four usage metrics (open file
    descriptors, storage, cpu, ram): when a result message carries for that
    metric a [current] that equals [previous] or is null, processing the
    message appends no alert of that metric to [data_for_alerting] and
    leaves the metric's critical limiters as they were. *)
Theorem no_alert_when_unchanged cfg floaty d st metrics meta_data n :
  n <> IS_DOWN_LIMITER_NAME ->
  body d = Some (ResultMessage metrics meta_data) ->
  unchanged_or_null (sample_of n metrics) = true ->
  (forall a, In a (snd (deliver cfg floaty d st)) -> of_metric n a = false) /\
  (forall sid l, limiter_of st sid n = Some l ->
                 limiter_of (fst (deliver cfg floaty d st)) sid n = Some l).
Proof.
  intros Hn Hbody Hskip. unfold deliver. rewrite Hbody. cbn [fst snd].
  assert (Hs : sound (forbid (of_metric n)) (fun _ => kept_limiters n st)
                 (classify cfg floaty (split_dot (method_routing_key d))
                    (ResultMessage metrics meta_data))).
  { unfold classify.
    destruct (existsb _ _); [|apply sound_raise].
    apply sound_bind; [apply sound_skip_create_state|intros _].
    apply sound_skip_process_results; assumption. }
  destruct (Hs (mkCState st []) tt) as (new & g' & E & R & HK);
    [intros sid l Hl; exact Hl|].
  cbn in E. rewrite E. split; [|exact HK].
  eapply run_ghost_forbid; eauto.
Qed.

(** ** The BackUp transition *)

Lemma _process_results_usage cfg floaty metrics meta_data :
  _process_results cfg floaty metrics meta_data
  = (run back_up_block cfg metrics meta_data;
     usage_blocks cfg floaty metrics meta_data).
Proof. reflexivity. Qed.

Lemma sound_forbid_usage_blocks P (Inv : Store -> Prop)
  cfg floaty metrics meta_data :
  (forall cls cur sev thr,
     metric_of_class cls <> Some IS_DOWN_LIMITER_NAME ->
     metric_of_class cls <> None ->
     P (threshold_alert cls meta_data cur sev thr) = false) ->
  (forall st n' f, n' <> IS_DOWN_LIMITER_NAME -> Inv st ->
     Inv (limiters_after (system_id meta_data) n' f st)) ->
  sound (forbid P) (fun _ => Inv) (usage_blocks cfg floaty metrics meta_data).
Proof.
  intros HP HInv. unfold usage_blocks.
  repeat (apply sound_bind; [|intros _]); apply sound_when;
    apply sound_forbid_classify_metric;
    solve [ intros; apply HP; cbn; congruence
          | intros; apply HInv; [congruence | assumption] ].
Qed.

Lemma back_up_block_fires cfg metrics meta_data s ls p :
  enabled (system_is_down cfg) = true ->
  previous (m_went_down_at metrics) = Some p ->
  _system_critical_timed_task_limiters (store s) !! system_id meta_data
    = Some ls ->
  back_up_block cfg metrics meta_data s
  = (mkCState
       (limiters_after (system_id meta_data) IS_DOWN_LIMITER_NAME reset
          (sent_after (system_id meta_data) false (store s)))
       (data_for_alerting s ++ [back_up_alert meta_data]),
     Ret tt).
Proof.
  intros Hen Hp Hls. unfold back_up_block. rewrite Hen, Hp. unfold_py.
  rewrite Hls. reflexivity.
Qed.

Lemma create_state_lookup cfg sid s :
  is_Some (_system_critical_timed_task_limiters
             (store (fst (_create_state_for_system cfg sid s))) !! sid).
Proof.
  cbn. destruct (_system_critical_timed_task_limiters (store s) !! sid) eqn:E.
  - rewrite E. eauto.
  - rewrite lookup_insert_eq. eauto.
Qed.

Lemma create_state_sent cfg sid' s sid b :
  _system_initial_downtime_alert_sent (store s) !! sid = Some b ->
  _system_initial_downtime_alert_sent
    (store (fst (_create_state_for_system cfg sid' s))) !! sid = Some b.
Proof.
  intros H. cbn.
  destruct (_system_initial_downtime_alert_sent (store s) !! sid') eqn:E;
    [exact H|].
  destruct (decide (sid' = sid)) as [->|Hne]; [congruence|].
  rewrite lookup_insert_ne by exact Hne. exact H.
Qed.

Lemma create_state_appends_nothing cfg sid s :
  data_for_alerting (fst (_create_state_for_system cfg sid s))
  = data_for_alerting s.
Proof. reflexivity. Qed.

(** The four usage blocks keep the downtime flag of every system. *)
Lemma usage_blocks_keep_sent cfg floaty metrics meta_data s sid b :
  _system_initial_downtime_alert_sent (store s) !! sid = Some b ->
  _system_initial_downtime_alert_sent
    (store (fst (usage_blocks cfg floaty metrics meta_data s))) !! sid
  = Some b.
Proof.
  intros H.
  destruct (sound_forbid_usage_blocks (fun _ => false)
              (fun st => _system_initial_downtime_alert_sent st !! sid = Some b)
              cfg floaty metrics meta_data) with (s := s) (g := tt)
    as (new & g' & _ & _ & HI); auto.
Qed.

Lemma classify_result_eq cfg floaty keys metrics meta_data s :
  existsb (String.eqb (parent_id cfg)) keys = true ->
  classify cfg floaty keys (ResultMessage metrics meta_data) s
  = match back_up_block cfg metrics meta_data
            (fst (_create_state_for_system cfg (system_id meta_data) s)) with
    | (s2, Ret _) => usage_blocks cfg floaty metrics meta_data s2
    | (s2, Raise e) => (s2, Raise e)
    end.
Proof. intros H. unfold classify. rewrite H. reflexivity. Qed.

Lemma classify_error_eq cfg floaty keys error s :
  existsb (String.eqb (parent_id cfg)) keys = true ->
  classify cfg floaty keys (ErrorMessage error) s
  = _process_errors cfg error
      (fst (_create_state_for_system cfg
              (err_system_id (err_meta_data error)) s)).
Proof. intros H. unfold classify. rewrite H. reflexivity. Qed.


(** ** The RAM block *)

(** C2 (the code departs from the claim).  With cpu thresholds 70/90 and
    ram thresholds 50/60, a ram sample going from 40 to 55 crosses the ram
    warning threshold; [_process_results] nevertheless appends nothing,
    because it classifies the ram sample against the cpu thresholds, whereas
    the classification against the ram thresholds appends the
    IncreasedAbove(WARNING) alert of ram. *)
Theorem ram_classified_against_cpu_config :
  snd (deliver scenario_config floaty_id
         (scenario_delivery 1 (ram_result 40 55 1700000000)) scenario_store)
  = [] /\
  data_for_alerting
    (fst (classify_metric floaty_id (mkSample (Some 55) (Some 40))
            (system_ram_usage scenario_config) (scenario_meta 1700000000)
            SystemRAMUsageIncreasedAboveThresholdAlert
            SystemRAMUsageDecreasedBelowThresholdAlert
            RAM_USE_LIMITER_NAME (mkCState scenario_store [])))
  = [threshold_alert SystemRAMUsageIncreasedAboveThresholdAlert
       (scenario_meta 1700000000) 55 WARNING WARNING].
Proof. split; vm_compute; reflexivity. Qed.

(** The ram block of [_process_results] is the classification of the ram
    sample against [system_cpu_usage], with the ram alert classes and the
    ram limiter. *)
Lemma ram_block_uses_cpu_config cfg floaty metrics meta_data :
  _process_results cfg floaty metrics meta_data
  = (run back_up_block cfg metrics meta_data;
     run when (enabled (open_file_descriptors cfg))
           (classify_metric floaty (sample_of OPEN_FD_LIMITER_NAME metrics)
              (config_of cfg OPEN_FD_LIMITER_NAME) meta_data
              OpenFileDescriptorsIncreasedAboveThresholdAlert
              OpenFileDescriptorsDecreasedBelowThresholdAlert
              OPEN_FD_LIMITER_NAME);
     run when (enabled (system_storage_usage cfg))
           (classify_metric floaty (sample_of STORAGE_USE_LIMITER_NAME metrics)
              (config_of cfg STORAGE_USE_LIMITER_NAME) meta_data
              SystemStorageUsageIncreasedAboveThresholdAlert
              SystemStorageUsageDecreasedBelowThresholdAlert
              STORAGE_USE_LIMITER_NAME);
     run when (enabled (system_cpu_usage cfg))
           (classify_metric floaty (sample_of CPU_USE_LIMITER_NAME metrics)
              (config_of cfg CPU_USE_LIMITER_NAME) meta_data
              SystemCPUUsageIncreasedAboveThresholdAlert
              SystemCPUUsageDecreasedBelowThresholdAlert
              CPU_USE_LIMITER_NAME);
     when (enabled (system_ram_usage cfg))
       (classify_metric floaty (sample_of RAM_USE_LIMITER_NAME metrics)
          (config_of cfg CPU_USE_LIMITER_NAME) meta_data
          SystemRAMUsageIncreasedAboveThresholdAlert
          SystemRAMUsageDecreasedBelowThresholdAlert
          RAM_USE_LIMITER_NAME)).
Proof. reflexivity. Qed.

(** ** The downtime sample is not skipped *)

(** C7 as stated fails for the downtime metric: a result message whose
    [went_down_at.current] is null (and [previous] is not) appends the
    BackUp alert, an alert of that metric. *)
Lemma no_alert_when_unchanged_counterexample :
  ~ (forall cfg floaty d st metrics meta_data n,
       body d = Some (ResultMessage metrics meta_data) ->
       unchanged_or_null (sample_of n metrics) = true ->
       forall a, In a (snd (deliver cfg floaty d st)) -> of_metric n a = false).
Proof.
  intros H.
  specialize (H scenario_config floaty_id
                (scenario_delivery 7 (back_up_result 1700000000 1700000760))
                scenario_store _ _ IS_DOWN_LIMITER_NAME eq_refl eq_refl
                (back_up_alert (scenario_meta 1700000760))).
  assert (Hin : In (back_up_alert (scenario_meta 1700000760))
                  (snd (deliver scenario_config floaty_id
                          (scenario_delivery 7
                             (back_up_result 1700000000 1700000760))
                          scenario_store)))
    by (vm_compute; left; reflexivity).
  specialize (H Hin). vm_compute in H. discriminate.
Qed.

(** ** The prefetch count *)

Lemma Qfloor_fifth k : Qfloor (inject_Z k / 5) = (k / 5)%Z.
Proof. unfold Qfloor. cbn. rewrite Z.mul_1_r. reflexivity. Qed.

Lemma fifth_decomposition k :
  inject_Z k / 5 - inject_Z (k / 5) == inject_Z (k mod 5) / 5.
Proof.
  rewrite (Z.div_mod k 5) at 1 by lia.
  rewrite inject_Z_plus, inject_Z_mult. field.
Qed.

Lemma prefetch_count_eq k :
  prefetch_count k = (k / 5 + (if 3 <=? k mod 5 then 1 else 0))%Z.
Proof.
  unfold prefetch_count, py_round. rewrite Qfloor_fifth.
  pose proof (fifth_decomposition k) as Hr.
  pose proof (Z.mod_pos_bound k 5 ltac:(lia)) as Hm.
  assert (Hcases : (k mod 5 = 0 \/ k mod 5 = 1 \/ k mod 5 = 2
                    \/ k mod 5 = 3 \/ k mod 5 = 4)%Z) by lia.
  destruct (Qcompare_spec (inject_Z k / 5 - inject_Z (k / 5)) (1 # 2))
    as [He|Hl|Hg]; rewrite Hr in *;
  destruct Hcases as [E|[E|[E|[E|E]]]]; rewrite E in *; cbn;
  try (exfalso; revert He; vm_compute; discriminate);
  try (exfalso; revert Hl; vm_compute; congruence);
  try (exfalso; revert Hg; vm_compute; congruence);
  lia.
Qed.

Lemma ceil_div5_eq k :
  ceil_div5 k = (k / 5 + (if 1 <=? k mod 5 then 1 else 0))%Z.
Proof.
  unfold ceil_div5, Qceiling, Qfloor. cbn. rewrite Z.mul_1_r.
  change (Z.pos (1 * 5)) with 5%Z.
  pose proof (Z.div_mod k 5 ltac:(lia)) as H1.
  pose proof (Z.mod_pos_bound k 5 ltac:(lia)) as H2.
  pose proof (Z.div_mod (- k) 5 ltac:(lia)) as H3.
  pose proof (Z.mod_pos_bound (- k) 5 ltac:(lia)) as H4.
  destruct (1 <=? k mod 5)%Z eqn:E; [apply Z.leb_le in E|apply Z.leb_gt in E];
    lia.
Qed.



(** ** Acknowledgement, push, drain and heartbeat *)

Lemma place_latest_pushed alerts a :
  _place_latest_data_on_queue alerts a
  = (mkAlerter (alerter_name a) (alerter_store a)
       (pushed (publishing_queue a) alerts) (rabbitmq a) (events a),
     Ret tt).
Proof.
  revert a. induction alerts as [|x alerts IH]; intros a.
  - destruct a. reflexivity.
  - cbn [_place_latest_data_on_queue fold_right].
    unfold bind, update_queue, modify. cbn.
    fold (_place_latest_data_on_queue alerts). rewrite IH. reflexivity.
Qed.

Lemma send_all_drain pending a :
  queue (publishing_queue a) = pending ->
  send_all pending a
  = (let '(published, remaining, unused, r) := drain pending (rabbitmq a) in
     (mkAlerter (alerter_name a) (alerter_store a)
        (mkQueue (maxsize (publishing_queue a)) remaining) unused
        (events a ++ published), r)).
Proof.
  revert a. induction pending as [|item rest IH]; intros a Hq.
  - cbn. destruct a as [nm st [mx q] ans evs]. cbn in *. subst q.
    rewrite app_nil_r. reflexivity.
  - cbn [send_all drain].
    unfold bind, basic_publish_confirm, bind, get, modify, update_queue,
      modify, ret, raise.
    destruct a as [nm st [mx q] ans evs]. cbn in *. subst q.
    destruct ans as [|[| |] ans]; cbn; try reflexivity.
    + rewrite IH by reflexivity. cbn.
      destruct (drain rest []) as [[[published remaining] unused] r].
      rewrite <- app_assoc. reflexivity.
    + rewrite IH by reflexivity. cbn.
      destruct (drain rest ans) as [[[published remaining] unused] r].
      rewrite <- app_assoc. reflexivity.
Qed.

(** The publishes of a drain are of the records of the queue, in order,
    and what it leaves is the rest of the queue. *)
Lemma drain_prefix pending answers :
  let '(published, remaining, unused, r) := drain pending answers in
  exists done,
    pending = done ++ remaining /\
    (forall e, In e published -> exists item o, e = EvPublish item o
                                                /\ In item pending) /\
    (r = Ret tt -> remaining = []).
Proof.
  revert answers. induction pending as [|item rest IH]; intros answers; cbn.
  - exists []. split; [reflexivity|]. split; [intros e []|reflexivity].
  - destruct (hd Confirmed answers).
    + specialize (IH (tail answers)).
      destruct (drain rest (tail answers)) as [[[published remaining] unused] r].
      destruct IH as (done & E & Hp & Hr).
      exists (item :: done). split; [cbn; congruence|]. split; [|exact Hr].
      intros e [<-|He]; [eauto|].
      destruct (Hp e He) as (i & o & -> & Hi). eauto.
    + exists []. split; [reflexivity|]. split; [|discriminate].
      intros e [<-|[]]. eauto.
    + exists []. split; [reflexivity|]. split; [|discriminate].
      intros e [<-|[]]. eauto.
Qed.

(** C6 as stated fails: the buffer is drained also when classification
    raised.  A delivery with a foreign routing key makes the [try] block
    raise; the alert left on the publishing queue is published all the
    same. *)
Lemma drain_only_if_classified_counterexample :
  ~ (forall cfg floaty d now a,
       events a = [] ->
       processing_error cfg floaty d a = true ->
       forall item o,
         ~ In (EvPublish item o) (events (fst (_process_data cfg floaty d now a)))).
Proof.
  intros H.
  apply (H scenario_config floaty_id
           (mkDelivery "alerter.system.chain2" 1
              (Some (cpu_result 60 85 1700000000)))
           1700000001 (scenario_alerter []) eq_refl eq_refl
           (mkItem ALERT_EXCHANGE "alert_router.system"
              (AlertBody (back_up_alert (scenario_meta 1700000000))))
           Confirmed).
  vm_compute. right. right. left. reflexivity.
Qed.

(** C6, as amended.  For every delivery whose body decodes: the state left
    by classification is kept; the delivery is acknowledged exactly once,
    after classification (and the logging of a caught exception) and before
    any publish; the classified alerts are pushed onto the publishing
    buffer only if classification succeeded; the buffer is then drained in
    both cases; a heartbeat is published after the drain only if
    classification succeeded and the drain went through; a
    publish-not-delivered failure, of the drain or of the heartbeat, is
    logged and suppressed, the record staying in the buffer, while any
    other failure propagates, after the acknowledgement. *)
Theorem process_data_phases cfg floaty d now a data_received :
  body d = Some data_received ->
  let a' := fst (_process_data cfg floaty d now a) in
  let result := snd (_process_data cfg floaty d now a) in
  let error := processing_error cfg floaty d a in
  let to_drain :=
    if error then publishing_queue a
    else pushed (publishing_queue a)
           (snd (deliver cfg floaty d (alerter_store a))) in
  let '(published, remaining, unused, drained) :=
    drain (queue to_drain) (rabbitmq a) in
  alerter_store a' = fst (deliver cfg floaty d (alerter_store a)) /\
  queue (publishing_queue a') = remaining /\
  exists after,
    events a'
      = events a ++ classification_log cfg floaty d a
          ++ EvAck (method_delivery_tag d) :: published ++ after /\
    match drained with
    | Raise MessageWasNotDeliveredException =>
        after = [EvLogException MessageWasNotDeliveredException] /\
        result = Ret tt
    | Raise e => after = [] /\ result = Raise e
    | Ret _ =>
        if error then after = [] /\ result = Ret tt
        else
          let answer := hd Confirmed unused in
          after = EvPublish (worker_heartbeat a now) answer
                    :: match answer with
                       | NotDelivered =>
                           [EvLogException MessageWasNotDeliveredException]
                       | _ => []
                       end /\
          result = match answer with
                   | Failed => Raise OtherException
                   | _ => Ret tt
                   end
    end.
Proof.
  intros Hbody. cbv zeta.
  remember (_process_data cfg floaty d now a) as R eqn:ER.
  unfold processing_error, classification_log, deliver.
  unfold _process_data in ER.
  rewrite Hbody in *. cbn [json_loads] in ER.
  unfold bind at 1 in ER. cbn [ret] in ER.
  unfold bind at 1 in ER. unfold try_classify at 1 in ER.
  destruct (classify cfg floaty (split_dot (method_routing_key d))
              data_received (mkCState (alerter_store a) []))
    as [cs outcome] eqn:Ecl.
  cbn [fst snd].
  destruct a as [nm st q answers evs]. cbn [alerter_store alerter_name
    publishing_queue rabbitmq events] in *.
  destruct outcome as [[]|e].
  - cbn [fst snd negb when] in ER. unfold bind at 1 in ER.
    unfold basic_ack, emit, modify in ER.
    cbn [alerter_store alerter_name publishing_queue rabbitmq events] in ER.
    unfold bind at 1 in ER. rewrite place_latest_pushed in ER.
    cbn [alerter_store alerter_name publishing_queue rabbitmq events] in ER.
    unfold try_except, _send_data in ER. unfold bind at 1 in ER.
    unfold bind at 1 in ER. unfold get at 1 in ER.
    cbn [alerter_store alerter_name publishing_queue rabbitmq events] in ER.
    rewrite send_all_drain in ER by reflexivity.
    cbn [alerter_store alerter_name publishing_queue rabbitmq events] in ER.
    destruct (drain (queue (pushed q (data_for_alerting cs))) answers)
      as [[[published remaining] unused] drained].
    destruct drained as [[]|e].
    + unfold bind, get, _send_heartbeat, basic_publish_confirm, bind, get,
        modify, ret, raise, log_exception, emit, modify in ER.
      cbn [alerter_store alerter_name publishing_queue rabbitmq events] in ER.
      unfold worker_heartbeat. cbn [alerter_name].
      destruct unused as [|[| |] unused]; cbn in ER; subst R; cbn;
        (split; [reflexivity|]; split; [reflexivity|]);
        eexists; (split; [|split; reflexivity]);
        rewrite <- ?app_assoc; cbn; rewrite <- ?app_assoc; reflexivity.
    + destruct e; cbn in ER; subst R; cbn;
        (split; [reflexivity|]; split; [reflexivity|]);
        eexists; (split; [|split; reflexivity]);
        rewrite <- ?app_assoc; cbn; rewrite ?app_nil_r; reflexivity.
  - cbn [fst snd negb when] in ER. unfold log_exception, emit, modify in ER.
    cbn [fst alerter_store alerter_name publishing_queue rabbitmq events]
      in ER.
    unfold bind at 1 in ER. unfold basic_ack, emit, modify in ER.
    cbn [alerter_store alerter_name publishing_queue rabbitmq events] in ER.
    unfold bind at 1 in ER. cbn [ret] in ER.
    unfold try_except, _send_data in ER. unfold bind at 1 in ER.
    unfold bind at 1 in ER. unfold get at 1 in ER.
    cbn [alerter_store alerter_name publishing_queue rabbitmq events] in ER.
    rewrite send_all_drain in ER by reflexivity.
    cbn [alerter_store alerter_name publishing_queue rabbitmq events] in ER.
    destruct (drain (queue q) answers)
      as [[[published remaining] unused] drained].
    destruct drained as [[]|e'].
    + cbn in ER. subst R. cbn. split; [reflexivity|]. split; [reflexivity|].
      exists []. split; [|split; reflexivity].
      rewrite <- ?app_assoc; cbn; rewrite ?app_nil_r; reflexivity.
    + destruct e'; cbn in ER; subst R; cbn;
        (split; [reflexivity|]; split; [reflexivity|]);
        eexists; (split; [|split; reflexivity]);
        rewrite <- ?app_assoc; cbn; rewrite ?app_nil_r; reflexivity.
Qed.

(** ** The manager's heartbeat *)

Module ManagerFacts.
Import Manager.

Lemma dict_get_set_same k v d : dict_get k (dict_set k v d) = Some v.
Proof.
  induction d as [|[k' v'] d IH]; cbn.
  - rewrite String.eqb_refl. reflexivity.
  - destruct (String.eqb k k') eqn:E; cbn.
    + rewrite String.eqb_refl. reflexivity.
    + rewrite E. exact IH.
Qed.

Lemma dict_get_set_other k k' v d :
  k <> k' -> dict_get k' (dict_set k v d) = dict_get k' d.
Proof.
  intros Hne. induction d as [|[k0 v0] d IH]; cbn.
  - destruct (String.eqb k' k) eqn:E; [|reflexivity].
    apply String.eqb_eq in E. congruence.
  - destruct (String.eqb k k0) eqn:E; cbn.
    + apply String.eqb_eq in E. subst k0.
      destruct (String.eqb k' k) eqn:E'; [|reflexivity].
      apply String.eqb_eq in E'. congruence.
    + rewrite IH. reflexivity.
Qed.

Lemma dict_get_In k p d : dict_get k d = Some p -> In (k, p) d.
Proof.
  induction d as [|[k' v'] d IH]; cbn; [discriminate|].
  destruct (String.eqb k k') eqn:E.
  - apply String.eqb_eq in E. intros [= ->]. left. congruence.
  - intros H. right. auto.
Qed.

Lemma In_dict_get k p d :
  NoDup (map fst d) -> In (k, p) d -> dict_get k d = Some p.
Proof.
  induction d as [|[k' v'] d IH]; cbn; intros Hnd Hin; [destruct Hin|].
  inversion Hnd as [|? ? Hnotin Hnd']; subst.
  destruct Hin as [[= -> ->]|Hin].
  - rewrite String.eqb_refl. reflexivity.
  - destruct (String.eqb k k') eqn:E; [|auto].
    apply String.eqb_eq in E. subst k'. exfalso. apply Hnotin.
    apply list_elem_of_In, in_map_iff. exists (k, p). auto.
Qed.

Lemma dict_set_keys k v d :
  map fst (dict_set k v d)
  = if existsb (String.eqb k) (map fst d) then map fst d
    else map fst d ++ [k].
Proof.
  induction d as [|[k' v'] d IH]; cbn; [reflexivity|].
  destruct (String.eqb k k') eqn:E; cbn.
  - apply String.eqb_eq in E. subst k'. reflexivity.
  - rewrite IH. destruct (existsb (String.eqb k) (map fst d)); reflexivity.
Qed.

Lemma dict_set_NoDup k v d :
  NoDup (map fst d) -> NoDup (map fst (dict_set k v d)).
Proof.
  intros Hnd. rewrite dict_set_keys.
  destruct (existsb (String.eqb k) (map fst d)) eqn:E; [exact Hnd|].
  apply NoDup_app. split; [exact Hnd|]. split; [|apply NoDup_singleton].
  intros x Hx Hk. apply list_elem_of_In in Hx. apply list_elem_of_In in Hk.
  destruct Hk as [Hk|[]]. subst x.
  assert (existsb (String.eqb k) (map fst d) = true).
  { apply existsb_exists. exists k. split; [exact Hx|apply String.eqb_refl]. }
  congruence.
Qed.

Lemma In_running_of name d :
  In name (running_of d) <-> exists p, In (name, p) d /\ is_alive p = true.
Proof.
  unfold running_of. rewrite in_map_iff. split.
  - intros ([k p] & <- & Hin). apply filter_In in Hin. cbn in *.
    exists p. tauto.
  - intros (p & Hin & Ha). exists (name, p). split; [reflexivity|].
    apply filter_In. cbn. auto.
Qed.

Lemma In_dead_of name d :
  In name (dead_of d) <-> exists p, In (name, p) d /\ is_alive p = false.
Proof.
  unfold dead_of. rewrite in_map_iff. split.
  - intros ([k p] & <- & Hin). apply filter_In in Hin. cbn in *.
    exists p. destruct Hin as [Hin Ha]. apply negb_true_iff in Ha. auto.
  - intros (p & Hin & Ha). exists (name, p). split; [reflexivity|].
    apply filter_In. cbn. rewrite Ha. auto.
Qed.

Lemma poll_spec items running dead m :
  poll items running dead m
  = (mkManager (name m) (transformer_process_dict m) (rabbitmq m) (next_pid m)
       (events m ++ map EvJoin (dead_of items)),
     Ret (running ++ running_of items, dead ++ dead_of items)).
Proof.
  revert running dead m.
  induction items as [|[k p] items IH]; intros running dead m.
  - destruct m. cbn. rewrite !app_nil_r. reflexivity.
  - cbn [poll]. unfold running_of, dead_of in *. cbn [List.filter snd].
    destruct (is_alive p); cbn [negb map fst].
    + rewrite IH, <- app_assoc. reflexivity.
    + unfold bind, emit, modify. rewrite IH. cbn.
      rewrite <- !app_assoc. reflexivity.
Qed.

Lemma start_if_missing_spec k m :
  start_if_missing k m
  = (if missing k (transformer_process_dict m)
     then mkManager (name m)
            (dict_set k (mkProcess true (next_pid m))
               (transformer_process_dict m))
            (rabbitmq m) (S (next_pid m)) (events m ++ [EvStart k])
     else m,
     Ret tt).
Proof.
  unfold start_if_missing, missing, bind, get, when, emit, modify, ret.
  destruct m as [nm d ans np evs]. cbn.
  destruct (dict_get k d) as [p|]; [destruct (is_alive p)|]; reflexivity.
Qed.

Lemma names_differ : SYSTEM_DATA_TRANSFORMER_NAME <> GITHUB_DATA_TRANSFORMER_NAME.
Proof. discriminate. Qed.

Lemma missing_set_other k k' v d :
  k <> k' -> missing k' (dict_set k v d) = missing k' d.
Proof. intros H. unfold missing. rewrite dict_get_set_other by exact H. reflexivity. Qed.

(** What [_start_transformers_processes] does: it only starts workers, and
    each of the two workers that was missing is started and alive after. *)
Lemma start_transformers_spec m :
  exists d1 np1 restarts,
    _start_transformers_processes m
    = (mkManager (name m) d1 (rabbitmq m) np1 (events m ++ restarts), Ret tt)
    /\ (forall e, In e restarts -> is_start e)
    /\ (NoDup (map fst (transformer_process_dict m)) -> NoDup (map fst d1))
    /\ (forall nm,
          nm = SYSTEM_DATA_TRANSFORMER_NAME
          \/ nm = GITHUB_DATA_TRANSFORMER_NAME ->
          missing nm (transformer_process_dict m) = true ->
          In (EvStart nm) restarts
          /\ exists p, dict_get nm d1 = Some p /\ is_alive p = true).
Proof.
  pose proof names_differ as Hne.
  unfold _start_transformers_processes, bind.
  rewrite start_if_missing_spec.
  destruct m as [nm0 d ans np evs].
  cbn [name transformer_process_dict rabbitmq next_pid events].
  destruct (missing SYSTEM_DATA_TRANSFORMER_NAME d) eqn:Es;
    rewrite start_if_missing_spec;
    cbn [name transformer_process_dict rabbitmq next_pid events];
    rewrite ?missing_set_other by exact Hne;
    destruct (missing GITHUB_DATA_TRANSFORMER_NAME d) eqn:Eg.
  - eexists _, _, [EvStart _; EvStart _].
    split; [rewrite <- app_assoc; reflexivity|].
    split; [intros e [<-|[<-|[]]]; eexists; reflexivity|].
    split; [intros H; apply dict_set_NoDup, dict_set_NoDup, H|].
    intros nm [-> | ->] _.
    + split; [left; reflexivity|]. eexists.
      split; [rewrite dict_get_set_other by congruence;
              apply dict_get_set_same | reflexivity].
    + split; [right; left; reflexivity|]. eexists.
      split; [apply dict_get_set_same | reflexivity].
  - eexists _, _, [EvStart _].
    split; [reflexivity|].
    split; [intros e [<-|[]]; eexists; reflexivity|].
    split; [intros H; apply dict_set_NoDup, H|].
    intros nm [-> | ->] Hm; [|congruence].
    split; [left; reflexivity|]. eexists.
    split; [apply dict_get_set_same | reflexivity].
  - eexists _, _, [EvStart _].
    split; [reflexivity|].
    split; [intros e [<-|[]]; eexists; reflexivity|].
    split; [intros H; apply dict_set_NoDup, H|].
    intros nm [-> | ->] Hm; [congruence|].
    split; [left; reflexivity|]. eexists.
    split; [apply dict_get_set_same | reflexivity].
  - eexists _, _, [].
    split; [rewrite app_nil_r; reflexivity|].
    split; [intros e []|].
    split; [auto|].
    intros nm [-> | ->] Hm; congruence.
Qed.

Lemma dead_is_missing nm d :
  NoDup (map fst d) -> In nm (dead_of d) -> missing nm d = true.
Proof.
  intros Hnd Hin. apply In_dead_of in Hin. destruct Hin as (p & Hin & Ha).
  unfold missing. rewrite (In_dict_get _ _ _ Hnd Hin), Ha. reflexivity.
Qed.

Lemma alive_is_running nm d p :
  NoDup (map fst d) -> dict_get nm d = Some p -> is_alive p = true ->
  In nm (running_of d) /\ ~ In nm (dead_of d).
Proof.
  intros Hnd Hget Ha. split.
  - apply In_running_of. exists p. split; [apply dict_get_In; exact Hget|exact Ha].
  - intros Hd. apply In_dead_of in Hd. destruct Hd as (p' & Hin & Ha').
    rewrite (In_dict_get _ _ _ Hnd Hin) in Hget. congruence.
Qed.

(** The state and the events of one ping. *)
Lemma process_ping_spec now m :
  let d := transformer_process_dict m in
  let hb := mkHeartbeat (name m) (running_of d) (dead_of d) now in
  let answer := hd Confirmed (rabbitmq m) in
  exists d1 np1 restarts,
    fst (_process_ping now m)
    = mkManager (name m) d1 (tail (rabbitmq m)) np1
        (events m ++ map EvJoin (dead_of d) ++ restarts
           ++ EvPublish HEALTH_CHECK_EXCHANGE "heartbeat.manager" hb answer
           :: match answer with
              | NotDelivered =>
                  [EvLogException MessageWasNotDeliveredException]
              | _ => []
              end)
    /\ (forall e, In e restarts -> is_start e)
    /\ (NoDup (map fst d) -> NoDup (map fst d1))
    /\ (forall nm,
          nm = SYSTEM_DATA_TRANSFORMER_NAME
          \/ nm = GITHUB_DATA_TRANSFORMER_NAME ->
          NoDup (map fst d) -> In nm (dead_of d) ->
          In (EvStart nm) restarts
          /\ exists p, dict_get nm d1 = Some p /\ is_alive p = true).
Proof.
  intros d hb answer. subst d hb answer.
  unfold _process_ping, compose_heartbeat.
  unfold try_except at 1. unfold bind at 1. unfold bind at 1.
  unfold bind at 1. unfold get at 1. unfold bind at 1.
  rewrite poll_spec. cbn [fst snd app dead_processes].
  destruct m as [nm0 d ans np evs].
  cbn [name transformer_process_dict rabbitmq next_pid events].
  destruct (dead_of d) as [|dead0 dead] eqn:Ed.
  - cbn [length Nat.eqb negb when]. unfold bind at 1. cbn [ret].
    unfold try_except, _send_heartbeat, bind, get, modify, ret, raise, emit,
      modify.
    cbn [name transformer_process_dict rabbitmq next_pid events].
    exists d, np, [].
    split; [|split; [intros e []|split; [auto|intros nm _ _ []]]].
    destruct ans as [|[| |] ans]; cbn; rewrite <- ?app_assoc; reflexivity.
  - cbn [length Nat.eqb negb when]. unfold bind at 1.
    match goal with |- context [_start_transformers_processes ?m0] =>
      destruct (start_transformers_spec m0) as (d1 & np1 & rs & E & Hs & Hnd & Hr)
    end.
    rewrite E. cbn [ret name transformer_process_dict rabbitmq next_pid events]
      in *.
    unfold try_except, _send_heartbeat, bind, get, modify, ret, raise, emit,
      modify.
    cbn [name transformer_process_dict rabbitmq next_pid events].
    exists d1, np1, rs.
    split; [|split; [exact Hs|split; [exact Hnd|]]].
    + destruct ans as [|[| |] ans]; cbn; rewrite <- ?app_assoc; cbn;
        rewrite <- ?app_assoc; reflexivity.
    + intros nm Hnm Hnodup Hin. apply Hr; [exact Hnm|].
      apply dead_is_missing; [exact Hnodup|]. rewrite Ed. exact Hin.
Qed.

(** C9.  On a ping, for a dictionary of children (a Python [dict]: no
    duplicate key): the heartbeat lists a child as running iff it is alive
    and as dead otherwise; the events of the ping are the joins of the dead
    children, then the starts of the restart, then the publish of the
    heartbeat to [HEALTH_CHECK_EXCHANGE] with routing key
    [heartbeat.manager]; a dead child that is one of the two workers is
    restarted before that publish, the heartbeat published still listing it
    as dead; and the heartbeat of the next ping lists it as running. *)
Theorem ping_heartbeat m now :
  NoDup (map fst (transformer_process_dict m)) ->
  let d := transformer_process_dict m in
  let hb := mkHeartbeat (name m) (running_of d) (dead_of d) now in
  let answer := hd Confirmed (rabbitmq m) in
  let m1 := fst (_process_ping now m) in
  (forall nm, In nm (running_processes hb)
              <-> exists p, In (nm, p) d /\ is_alive p = true) /\
  (forall nm, In nm (dead_processes hb)
              <-> exists p, In (nm, p) d /\ is_alive p = false) /\
  (exists restarts,
     events m1
       = events m ++ map EvJoin (dead_processes hb) ++ restarts
           ++ EvPublish HEALTH_CHECK_EXCHANGE "heartbeat.manager" hb answer
           :: match answer with
              | NotDelivered =>
                  [EvLogException MessageWasNotDeliveredException]
              | _ => []
              end /\
     (forall e, In e restarts -> is_start e) /\
     (forall nm, In nm (dead_processes hb) ->
        nm = SYSTEM_DATA_TRANSFORMER_NAME
        \/ nm = GITHUB_DATA_TRANSFORMER_NAME ->
        In (EvStart nm) restarts)) /\
  (forall nm, In nm (dead_processes hb) ->
     nm = SYSTEM_DATA_TRANSFORMER_NAME
     \/ nm = GITHUB_DATA_TRANSFORMER_NAME ->
     forall now2,
       let d1 := transformer_process_dict m1 in
       let hb2 := mkHeartbeat (name m1) (running_of d1) (dead_of d1) now2 in
       In (EvPublish HEALTH_CHECK_EXCHANGE "heartbeat.manager" hb2
             (hd Confirmed (rabbitmq m1)))
          (events (fst (_process_ping now2 m1))) /\
       In nm (running_processes hb2) /\ ~ In nm (dead_processes hb2)).
Proof.
  intros Hnd d hb answer m1.
  destruct (process_ping_spec now m) as (d1 & np1 & rs & E & Hs & Hnd1 & Hr).
  fold d hb answer m1 in E, Hnd1, Hr.
  split; [intros nm; apply In_running_of|].
  split; [intros nm; apply In_dead_of|].
  split.
  - exists rs. rewrite E. cbn [events dead_processes hb].
    split; [reflexivity|]. split; [exact Hs|].
    intros nm Hin Hnm. apply Hr; assumption.
  - intros nm Hin Hnm now2 d1' hb2.
    destruct (Hr nm Hnm Hnd Hin) as (_ & p & Hget & Ha).
    assert (Ed1 : d1' = d1) by (unfold d1'; rewrite E; reflexivity).
    split.
    + destruct (process_ping_spec now2 m1) as (d2 & np2 & rs2 & E2 & _).
      rewrite E2. cbn [events]. fold d1' hb2.
      rewrite !in_app_iff. right. right. right. left. reflexivity.
    + cbn [running_processes dead_processes hb2]. rewrite Ed1.
      eapply alive_is_running; eauto.
Qed.

End ManagerFacts.

(** ** The scenarios of section 8, as instances of the theorems *)


(** Scenarios 2 and 4: two CRITICAL cpu alerts, 650 seconds apart. *)
Lemma critical_repeat_respected_witness :
  snd (deliver_all scenario_config floaty_id
         [scenario_delivery 2 (cpu_result 85 95 1700000050);
          scenario_delivery 4 (cpu_result 96 97 1700000700)]
         initial_store)
  = [threshold_alert SystemCPUUsageIncreasedAboveThresholdAlert
       (scenario_meta 1700000050) 95 CRITICAL CRITICAL;
     threshold_alert SystemCPUUsageIncreasedAboveThresholdAlert
       (scenario_meta 1700000700) 97 CRITICAL CRITICAL] /\
  ~ 1700000700 - 1700000050 < 600.
Proof.
  split; [vm_compute; reflexivity|].
  apply (critical_repeat_respected scenario_config floaty_id
           [scenario_delivery 2 (cpu_result 85 95 1700000050);
            scenario_delivery 4 (cpu_result 96 97 1700000700)]
           "sys1" CPU_USE_LIMITER_NAME
           []
           (threshold_alert SystemCPUUsageIncreasedAboveThresholdAlert
              (scenario_meta 1700000050) 95 CRITICAL CRITICAL)
           []
           (threshold_alert SystemCPUUsageIncreasedAboveThresholdAlert
              (scenario_meta 1700000700) 97 CRITICAL CRITICAL)
           []).
  - vm_compute. discriminate.
  - vm_compute. reflexivity.
  - reflexivity.
  - reflexivity.
  - intros x [].
Defined.



(** A foreign delivery while one alert waits on the queue and the broker
    does not deliver: the delivery is acknowledged, the drain is attempted,
    the failure is logged and suppressed. *)
Lemma process_data_phases_witness :
  events (fst (_process_data scenario_config floaty_id
                 (mkDelivery "alerter.system.chain2" 1
                    (Some (cpu_result 60 85 1700000000)))
                 1700000001 (scenario_alerter [NotDelivered])))
  = [EvLogException ReceivedUnexpectedDataException; EvAck 1;
     EvPublish
       (mkItem ALERT_EXCHANGE "alert_router.system"
          (AlertBody (back_up_alert (scenario_meta 1700000000))))
       NotDelivered;
     EvLogException MessageWasNotDeliveredException] /\
  snd (_process_data scenario_config floaty_id
         (mkDelivery "alerter.system.chain2" 1
            (Some (cpu_result 60 85 1700000000)))
         1700000001 (scenario_alerter [NotDelivered]))
  = Ret tt.
Proof.
  pose proof (process_data_phases scenario_config floaty_id
                (mkDelivery "alerter.system.chain2" 1
                   (Some (cpu_result 60 85 1700000000)))
                1700000001 (scenario_alerter [NotDelivered]) _ eq_refl) as H.
  cbv zeta in H.
  change (processing_error scenario_config floaty_id
            (mkDelivery "alerter.system.chain2" 1
               (Some (cpu_result 60 85 1700000000)))
            (scenario_alerter [NotDelivered])) with true in H.
  cbn [drain queue publishing_queue scenario_alerter rabbitmq hd] in H.
  destruct H as (_ & _ & after & Hev & -> & Hres).
  split; [rewrite Hev; reflexivity | exact Hres].
Defined.

(** A result in which the cpu sample has not changed. *)
Lemma no_alert_when_unchanged_witness :
  unchanged_or_null (mkSample (Some 95) (Some 95)) = true /\
  (forall a,
     In a (snd (deliver scenario_config floaty_id
                  (scenario_delivery 3 (cpu_result 95 95 1700000100))
                  scenario_store)) ->
     of_metric CPU_USE_LIMITER_NAME a = false) /\
  limiter_of
    (fst (deliver scenario_config floaty_id
            (scenario_delivery 3 (cpu_result 95 95 1700000100))
            scenario_store)) "sys1" CPU_USE_LIMITER_NAME
  = Some (new_limiter 600).
Proof.
  split; [reflexivity|].
  assert (H : (forall a,
     In a (snd (deliver scenario_config floaty_id
                  (scenario_delivery 3 (cpu_result 95 95 1700000100))
                  scenario_store)) ->
     of_metric CPU_USE_LIMITER_NAME a = false) /\
    (forall sid l,
       limiter_of scenario_store sid CPU_USE_LIMITER_NAME = Some l ->
       limiter_of
         (fst (deliver scenario_config floaty_id
                 (scenario_delivery 3 (cpu_result 95 95 1700000100))
                 scenario_store)) sid CPU_USE_LIMITER_NAME = Some l));
    [|split; [apply H | apply H; vm_compute; reflexivity]].
  apply (no_alert_when_unchanged scenario_config floaty_id
           (scenario_delivery 3 (cpu_result 95 95 1700000100)) scenario_store
           (mkMetrics quiet quiet (mkSample (Some 95) (Some 95)) quiet quiet)
           (scenario_meta 1700000100) CPU_USE_LIMITER_NAME).
  - discriminate.
  - reflexivity.
  - reflexivity.
Defined.


(** The system data transformer terminated from outside: the next ping
    lists it as dead and restarts it, the ping after lists it as running. *)
Lemma ping_heartbeat_witness :
  Manager.dead_of
    (Manager.transformer_process_dict
       (Manager.terminate Manager.SYSTEM_DATA_TRANSFORMER_NAME
          (Manager.started "manager" [])))
  = [Manager.SYSTEM_DATA_TRANSFORMER_NAME] /\
  In Manager.SYSTEM_DATA_TRANSFORMER_NAME
    (Manager.running_of
       (Manager.transformer_process_dict
          (fst (Manager._process_ping 1700000000
                  (Manager.terminate Manager.SYSTEM_DATA_TRANSFORMER_NAME
                     (Manager.started "manager" [])))))) /\
  ~ In Manager.SYSTEM_DATA_TRANSFORMER_NAME
      (Manager.dead_of
         (Manager.transformer_process_dict
            (fst (Manager._process_ping 1700000000
                    (Manager.terminate Manager.SYSTEM_DATA_TRANSFORMER_NAME
                       (Manager.started "manager" [])))))).
Proof.
  set (m := Manager.terminate Manager.SYSTEM_DATA_TRANSFORMER_NAME
              (Manager.started "manager" [])).
  split; [reflexivity|].
  assert (Hnd : NoDup (map fst (Manager.transformer_process_dict m))).
  { vm_compute. repeat constructor; intros H; inversion H; subst;
      match goal with H' : _ ∈ _ |- _ => inversion H' end. }
  destruct (ManagerFacts.ping_heartbeat m 1700000000 Hnd) as (_ & _ & _ & Hnext).
  destruct (Hnext Manager.SYSTEM_DATA_TRANSFORMER_NAME
              ltac:(left; reflexivity) ltac:(left; reflexivity) 1700000060)
    as (_ & Hrun & Hdead).
  split; [exact Hrun | exact Hdead].
Defined.

(** * Further properties of the code *)

(** ** Routing keys *)

Lemma split_dot_nonempty s : split_dot s <> [].
Proof.
  destruct s as [|c s]; cbn; [discriminate|].
  destruct (Ascii.eqb c "."); [discriminate|].
  destruct (split_dot s); discriminate.
Qed.

Lemma split_dot_no_dot s : has_dot s = false -> split_dot s = [s].
Proof.
  induction s as [|c s IH]; cbn; [reflexivity|].
  destruct (Ascii.eqb c "."); cbn; [discriminate|].
  intros H. rewrite (IH H). reflexivity.
Qed.

Lemma split_dot_components s x : In x (split_dot s) -> has_dot x = false.
Proof.
  revert x. induction s as [|c s IH]; cbn; intros x Hx.
  - destruct Hx as [<-|[]]. reflexivity.
  - destruct (Ascii.eqb c ".") eqn:E.
    + destruct Hx as [<-|Hx]; [reflexivity | auto].
    + destruct (split_dot s) as [|h t] eqn:Es.
      * destruct Hx as [<-|[]]. cbn. rewrite E. reflexivity.
      * destruct Hx as [<-|Hx].
        -- cbn. rewrite E. apply IH. left. reflexivity.
        -- apply IH. right. exact Hx.
Qed.

(** [(x + "." + y).split('.') = x.split('.') + y.split('.')] *)
Lemma split_dot_app x y :
  split_dot (x +:+ String "." y) = split_dot x ++ split_dot y.
Proof.
  induction x as [|c x IH]; [reflexivity|].
  change (String c x +:+ String "." y)
    with (String c (x +:+ String "." y)).
  cbn [split_dot]. rewrite IH.
  destruct (Ascii.eqb c "."); [reflexivity|].
  destruct (split_dot x) as [|h t] eqn:E; [|reflexivity].
  exfalso. exact (split_dot_nonempty x E).
Qed.

Lemma has_dot_eqb_false pid x :
  has_dot pid = true -> has_dot x = false -> String.eqb pid x = false.
Proof.
  intros Hp Hx. apply String.eqb_neq. intros ->. congruence.
Qed.

Lemma dotted_parent_never_accepted cfg key :
  has_dot (parent_id cfg) = true -> accepted cfg key = false.
Proof.
  intros Hd. unfold accepted.
  destruct (existsb (String.eqb (parent_id cfg)) (split_dot key)) eqn:E;
    [|reflexivity].
  apply existsb_exists in E. destruct E as (x & Hx & Heq).
  rewrite (has_dot_eqb_false _ _ Hd (split_dot_components _ _ Hx)) in Heq.
  discriminate.
Qed.

Lemma bound_key_split cfg :
  split_dot ("alerter.system." +:+ parent_id cfg)
  = "alerter" :: "system" :: split_dot (parent_id cfg).
Proof.
  change ("alerter.system." +:+ parent_id cfg)
    with ("alerter" +:+ String "." ("system" +:+ String "." (parent_id cfg))).
  rewrite !split_dot_app. reflexivity.
Qed.

(** X1.  [_initialize_rabbitmq] binds the queue with the single routing
    key ["alerter.system." + parent_id]; [_process_data] accepts that key
    exactly when the parent id contains no dot.  When the parent id
    contains a dot, no routing key at all passes the test
    [parent_id in routing_key.split('.')]: every delivery is classified as
    unexpected data, and the state is left as it was. *)
Theorem bound_routing_key_accepted cfg maxsize :
  bound_routing_keys (snd (_initialize_rabbitmq cfg maxsize))
    = ["alerter.system." +:+ parent_id cfg] /\
  accepted cfg ("alerter.system." +:+ parent_id cfg)
    = negb (has_dot (parent_id cfg)) /\
  (has_dot (parent_id cfg) = true ->
   forall floaty key data_received s,
     classify cfg floaty (split_dot key) data_received s
     = (s, Raise ReceivedUnexpectedDataException)).
Proof.
  split; [reflexivity|]. split.
  - destruct (has_dot (parent_id cfg)) eqn:Hd; cbn [negb].
    + apply dotted_parent_never_accepted. exact Hd.
    + unfold accepted. rewrite bound_key_split, (split_dot_no_dot _ Hd).
      cbn. rewrite String.eqb_refl, !orb_true_r. reflexivity.
  - intros Hd floaty key data_received s. unfold classify.
    pose proof (dotted_parent_never_accepted cfg key Hd) as Hk.
    unfold accepted in Hk. rewrite Hk. reflexivity.
Qed.

(** ** Edges of the metric classification *)




(** ** Edges of the error path *)

Lemma _process_errors_other_codes cfg error_data s :
  code error_data <> 5004%Z ->
  _process_errors cfg error_data s
  = (mkCState (store s)
       (data_for_alerting s ++
        if (code error_data =? 5003)%Z then
          [error_alert MetricNotFoundErrorAlert (message error_data)
             (err_meta_data error_data)]
        else if (code error_data =? 5009)%Z then
          [error_alert InvalidUrlAlert (message error_data)
             (err_meta_data error_data)]
        else []),
     Ret tt).
Proof.
  intros Hcode. unfold _process_errors.
  destruct (code error_data =? 5003)%Z; [reflexivity|].
  destruct (code error_data =? 5009)%Z; [reflexivity|].
  destruct (code error_data =? 5004)%Z eqn:E.
  - apply Z.eqb_eq in E. contradiction.
  - destruct s. cbn. rewrite app_nil_r. reflexivity.
Qed.

(** X5.  An accepted error message with a code other than 5004 never
    raises: the system is registered, its flag and limiters (and those of
    every other system) are otherwise left alone, and the alerts are one
    MetricNotFound alert for code 5003, one InvalidUrl alert for code 5009,
    both of severity ERROR with the message, the time and the ids of the
    error, and none for any other code. *)
Theorem error_codes_dispatch cfg floaty keys error_data s :
  existsb (String.eqb (parent_id cfg)) keys = true ->
  code error_data <> 5004%Z ->
  classify cfg floaty keys (ErrorMessage error_data) s
  = (mkCState
       (store (fst (_create_state_for_system cfg
                      (err_system_id (err_meta_data error_data)) s)))
       (data_for_alerting s ++
        if (code error_data =? 5003)%Z then
          [mkAlert MetricNotFoundErrorAlert (message error_data) None ERROR
             (time (err_meta_data error_data)) None
             (err_system_parent_id (err_meta_data error_data))
             (err_system_id (err_meta_data error_data))]
        else if (code error_data =? 5009)%Z then
          [mkAlert InvalidUrlAlert (message error_data) None ERROR
             (time (err_meta_data error_data)) None
             (err_system_parent_id (err_meta_data error_data))
             (err_system_id (err_meta_data error_data))]
        else []),
     Ret tt).
Proof.
  intros Hacc Hcode.
  rewrite (classify_error_eq cfg floaty keys error_data s Hacc).
  rewrite _process_errors_other_codes by exact Hcode. reflexivity.
Qed.



(** ** The store along the deliveries *)

Lemma limiters_after_lookup st sid n f sid' :
  is_Some (_system_critical_timed_task_limiters (limiters_after sid n f st)
             !! sid')
  <-> is_Some (_system_critical_timed_task_limiters st !! sid').
Proof.
  unfold limiters_after. cbn.
  destruct (decide (sid = sid')) as [->|Hne].
  - rewrite lookup_alter_eq.
    destruct (_system_critical_timed_task_limiters st !! sid'); cbn;
      split; intros [x H]; try discriminate; eauto.
  - rewrite lookup_alter_ne by exact Hne. reflexivity.
Qed.

Section Closure.
Variable cfg : SystemAlertsConfig.
Variable Inv : Store -> Prop.

Lemma closed_classify_metric floaty sample config meta_data inc dec n s :
  store_closed cfg (system_id meta_data) Inv ->
  Inv (store s) ->
  Inv (store (fst (classify_metric floaty sample config meta_data inc dec n
                     s))).
Proof.
  intros (_ & Hlim & _) HI.
  destruct (classify_metric_cases floaty sample config meta_data inc dec n s)
    as (wa & ca & _ & _ & [[_ ->]|[(cur & ls & Hls & _ & _ & ->)
                                   |(cur & ls & Hls & _ & ->)]]).
  - exact HI.
  - apply Hlim; [reflexivity | rewrite Hls; eauto | exact HI].
  - apply Hlim; [reflexivity | rewrite Hls; eauto | exact HI].
Qed.

Lemma closed_back_up_block metrics meta_data s :
  store_closed cfg (system_id meta_data) Inv ->
  Inv (store s) ->
  Inv (store (fst (back_up_block cfg metrics meta_data s))).
Proof.
  intros (_ & Hlim & Hsent) HI.
  destruct (back_up_block_cases cfg metrics meta_data s)
    as [[_ ->]|(_ & _ & Hls & _ & ->)]; [exact HI|].
  apply Hlim; [reflexivity | exact Hls |].
  apply Hsent; [exact Hls | exact HI].
Qed.

Lemma closed_bind {A B} (m : M CState A) (k : A -> M CState B) :
  (forall s, Inv (store s) -> Inv (store (fst (m s)))) ->
  (forall a s, Inv (store s) -> Inv (store (fst (k a s)))) ->
  forall s, Inv (store s) -> Inv (store (fst (bind m k s))).
Proof.
  intros Hm Hk s HI. unfold bind. specialize (Hm s HI).
  destruct (m s) as [s1 [a|e]]; cbn [fst] in *; auto.
Qed.

Lemma closed_when (c : bool) (m : M CState unit) :
  (forall s, Inv (store s) -> Inv (store (fst (m s)))) ->
  forall s, Inv (store s) -> Inv (store (fst (when c m s))).
Proof. destruct c; cbn; auto. Qed.

Lemma closed_usage_blocks floaty metrics meta_data s :
  store_closed cfg (system_id meta_data) Inv ->
  Inv (store s) ->
  Inv (store (fst (usage_blocks cfg floaty metrics meta_data s))).
Proof.
  intros Hc. revert s. unfold usage_blocks.
  repeat (apply closed_bind; [|intros _]); apply closed_when;
    intros s HI; apply closed_classify_metric; assumption.
Qed.

Lemma closed_process_results floaty metrics meta_data s :
  store_closed cfg (system_id meta_data) Inv ->
  Inv (store s) ->
  Inv (store (fst (_process_results cfg floaty metrics meta_data s))).
Proof.
  intros Hc HI. rewrite _process_results_usage. unfold bind.
  pose proof (closed_back_up_block metrics meta_data s Hc HI) as H.
  destruct (back_up_block cfg metrics meta_data s) as [s1 [[]|e]];
    cbn [fst] in *; [|exact H].
  apply closed_usage_blocks; assumption.
Qed.

Lemma closed_process_errors error_data s :
  store_closed cfg (err_system_id (err_meta_data error_data)) Inv ->
  Inv (store s) ->
  Inv (store (fst (_process_errors cfg error_data s))).
Proof.
  intros (_ & Hlim & Hsent) HI.
  destruct (_process_errors_cases cfg error_data s)
    as [[_ ->]|[(cls & _ & _ & ->)
              |[(sev & _ & _ & Hls & _ & ->)
               |(ls & downtime & _ & Hls & _ & _ & ->)]]];
    try exact HI.
  - apply Hsent; [apply limiters_after_lookup; exact Hls|].
    apply Hlim; [reflexivity | exact Hls | exact HI].
  - apply Hlim; [reflexivity | rewrite Hls; eauto | exact HI].
Qed.

Lemma closed_classify floaty keys data_received s :
  (forall sid0, message_system_id data_received = Some sid0 ->
                store_closed cfg sid0 Inv) ->
  Inv (store s) ->
  Inv (store (fst (classify cfg floaty keys data_received s))).
Proof.
  intros Hc HI. unfold classify.
  destruct (existsb (String.eqb (parent_id cfg)) keys); [|exact HI].
  destruct data_received as [metrics meta_data|error|]; [| |exact HI].
  - specialize (Hc _ eq_refl). unfold bind. cbn [_create_state_for_system modify].
    apply closed_process_results; [exact Hc|].
    destruct Hc as (Hcr & _). apply (Hcr s HI).
  - specialize (Hc _ eq_refl). unfold bind. cbn [_create_state_for_system modify].
    apply closed_process_errors; [exact Hc|].
    destruct Hc as (Hcr & _). apply (Hcr s HI).
Qed.

Lemma closed_deliver floaty d st :
  (forall data_received sid0,
     body d = Some data_received ->
     message_system_id data_received = Some sid0 ->
     store_closed cfg sid0 Inv) ->
  Inv st -> Inv (fst (deliver cfg floaty d st)).
Proof.
  intros Hc HI. unfold deliver.
  destruct (body d) as [data_received|]; [|exact HI].
  cbn [fst]. apply closed_classify; [|exact HI].
  intros sid0 Hsid. eapply Hc; eauto.
Qed.

Lemma closed_deliver_all floaty ds st :
  (forall sid0, store_closed cfg sid0 Inv) ->
  Inv st -> Inv (fst (deliver_all cfg floaty ds st)).
Proof.
  intros Hc. revert st. induction ds as [|d ds IH]; intros st HI; [exact HI|].
  cbn [deliver_all].
  pose proof (closed_deliver floaty d st (fun _ sid0 _ _ => Hc sid0) HI) as H1.
  destruct (deliver cfg floaty d st) as [st1 A]. cbn [fst] in H1.
  specialize (IH st1 H1).
  destruct (deliver_all cfg floaty ds st1) as [st2 B]. exact IH.
Qed.

End Closure.


(** X7.  [_create_state_for_system] registers a system once: afterwards the
    system has an entry in both dictionaries; an entry that was there is
    never overwritten (the two dictionaries are tested independently, so a
    system with a flag and no limiters only gets limiters); an absent flag
    becomes [False] and absent limiters become five fresh limiters; the
    entries of every other system and the alerts are left alone; and a
    second call changes nothing. *)
Theorem create_state_registers_once cfg sid s :
  let sent0 := _system_initial_downtime_alert_sent (store s) in
  let limiters0 := _system_critical_timed_task_limiters (store s) in
  let s1 := fst (_create_state_for_system cfg sid s) in
  let sent1 := _system_initial_downtime_alert_sent (store s1) in
  let limiters1 := _system_critical_timed_task_limiters (store s1) in
  snd (_create_state_for_system cfg sid s) = Ret tt /\
  sent1 !! sid = Some (default false (sent0 !! sid)) /\
  limiters1 !! sid
    = Some (default (new_critical_limiters cfg) (limiters0 !! sid)) /\
  (forall sid', sid' <> sid ->
     sent1 !! sid' = sent0 !! sid' /\ limiters1 !! sid' = limiters0 !! sid') /\
  data_for_alerting s1 = data_for_alerting s /\
  fst (_create_state_for_system cfg sid s1) = s1.
Proof.
  cbn zeta. destruct s as [[sent limiters] dfa]. cbn.
  split; [reflexivity|].
  destruct (sent !! sid) as [b|] eqn:Es, (limiters !! sid) as [ls|] eqn:El;
    cbn; rewrite ?Es, ?El, ?lookup_insert_eq; cbn;
    (split; [reflexivity|]); (split; [reflexivity|]);
    (split; [|split; reflexivity]);
    intros sid' Hne; rewrite ?lookup_insert_ne by congruence;
    split; reflexivity.
Qed.

Lemma has_state_closed cfg sid0 sid : store_closed cfg sid0 (has_state sid).
Proof.
  split; [|split].
  - intros s [[b Hb] [ls Hls]]. split; cbn.
    + destruct (_system_initial_downtime_alert_sent (store s) !! sid0) eqn:E;
        [eauto|].
      destruct (decide (sid0 = sid)) as [->|Hne]; [congruence|].
      rewrite lookup_insert_ne by exact Hne. eauto.
    + destruct (_system_critical_timed_task_limiters (store s) !! sid0) eqn:E;
        [eauto|].
      destruct (decide (sid0 = sid)) as [->|Hne]; [congruence|].
      rewrite lookup_insert_ne by exact Hne. eauto.
  - intros st n f _ _ [Hb Hls]. split; [exact Hb|].
    apply limiters_after_lookup. exact Hls.
  - intros st b _ [Hb Hls]. split; [|exact Hls]. cbn.
    destruct (decide (sid0 = sid)) as [->|Hne].
    + rewrite lookup_insert_eq. eauto.
    + rewrite lookup_insert_ne by exact Hne. exact Hb.
Qed.

Lemma same_systems_closed cfg sid0 : store_closed cfg sid0 same_systems.
Proof.
  split; [|split].
  - intros s Hs sid. specialize (Hs sid). cbn.
    pose proof (Hs0 := fun (x : Store) => I).
    destruct (decide (sid0 = sid)) as [->|Hne].
    + destruct (_system_initial_downtime_alert_sent (store s) !! sid) eqn:Eb,
               (_system_critical_timed_task_limiters (store s) !! sid) eqn:El;
        rewrite ?Eb, ?El, ?lookup_insert_eq; split; eauto.
    + destruct (_system_initial_downtime_alert_sent (store s) !! sid0),
               (_system_critical_timed_task_limiters (store s) !! sid0);
        rewrite ?lookup_insert_ne by exact Hne; exact Hs.
  - intros st n f _ _ Hs sid. rewrite limiters_after_lookup. apply Hs.
  - intros st b Hls Hs sid. cbn.
    destruct (decide (sid0 = sid)) as [->|Hne].
    + rewrite lookup_insert_eq. split; eauto.
    + rewrite lookup_insert_ne by exact Hne. apply Hs.
Qed.

Lemma intervals_ok_closed cfg sid0 : store_closed cfg sid0 (intervals_ok cfg).
Proof.
  split; [|split].
  - intros s Hok sid ls Hl. cbn in Hl.
    destruct (_system_critical_timed_task_limiters (store s) !! sid0) eqn:E.
    + eapply Hok; eauto.
    + destruct (decide (sid0 = sid)) as [->|Hne].
      * rewrite lookup_insert_eq in Hl. injection Hl as <-.
        intros n. destruct n; reflexivity.
      * rewrite lookup_insert_ne in Hl by exact Hne. eapply Hok; eauto.
  - intros st n f Hf _ Hok. apply intervals_ok_after; assumption.
  - intros st b _ Hok. apply intervals_ok_sent_after. exact Hok.
Qed.

Lemma deliver_registers cfg floaty d st data_received sid :
  body d = Some data_received ->
  accepted cfg (method_routing_key d) = true ->
  message_system_id data_received = Some sid ->
  has_state sid (fst (deliver cfg floaty d st)).
Proof.
  intros Hbody Hacc Hsid. unfold deliver. rewrite Hbody. cbn [fst].
  unfold accepted in Hacc. unfold classify. rewrite Hacc.
  assert (Hcr : has_state sid
            (store (fst (_create_state_for_system cfg sid (mkCState st []))))).
  { split; cbn.
    - destruct (_system_initial_downtime_alert_sent st !! sid) eqn:E;
        rewrite ?E, ?lookup_insert_eq; eauto.
    - destruct (_system_critical_timed_task_limiters st !! sid) eqn:E;
        rewrite ?E, ?lookup_insert_eq; eauto. }
  destruct data_received as [metrics meta_data|error|]; [| |discriminate];
    cbn in Hsid; injection Hsid as Hsid; unfold bind;
    cbn [_create_state_for_system modify].
  - apply closed_process_results;
      [apply has_state_closed | rewrite Hsid; exact Hcr].
  - apply closed_process_errors;
      [apply has_state_closed | rewrite Hsid; exact Hcr].
Qed.

(** X8.  Systems are registered on their first accepted message and stay
    registered: along any sequence of deliveries, from a store whose two
    dictionaries have the same keys, the two dictionaries keep the same
    keys, a system that had state still has it, and the system of every
    accepted result or error message has state at the end, whether or not
    the classification of that message, or of any other, raised. *)
Theorem systems_stay_registered cfg floaty ds st :
  same_systems st ->
  let st' := fst (deliver_all cfg floaty ds st) in
  same_systems st' /\
  (forall sid, has_state sid st -> has_state sid st') /\
  (forall d data_received sid,
     In d ds -> body d = Some data_received ->
     accepted cfg (method_routing_key d) = true ->
     message_system_id data_received = Some sid ->
     has_state sid st').
Proof.
  intros Hs st'. subst st'. split; [|split].
  - apply closed_deliver_all; [apply same_systems_closed | exact Hs].
  - intros sid. apply closed_deliver_all. intros sid0. apply has_state_closed.
  - clear Hs. revert st. induction ds as [|d0 ds IH];
      intros st d data_received sid Hin Hbody Hacc Hsid; [destruct Hin|].
    cbn [deliver_all].
    destruct Hin as [->|Hin].
    + pose proof (deliver_registers cfg floaty d st _ _ Hbody Hacc Hsid) as H1.
      destruct (deliver cfg floaty d st) as [st1 A]. cbn [fst] in H1.
      pose proof (closed_deliver_all cfg (has_state sid) floaty ds st1
                    (fun sid0 => has_state_closed cfg sid0 sid) H1) as H2.
      destruct (deliver_all cfg floaty ds st1) as [st2 B]. exact H2.
    + destruct (deliver cfg floaty d0 st) as [st1 A].
      specialize (IH st1 d data_received sid Hin Hbody Hacc Hsid).
      destruct (deliver_all cfg floaty ds st1) as [st2 B]. exact IH.
Qed.

(** X9.  The interval of a limiter never changes: along any sequence of
    deliveries, every limiter of every registered system keeps the
    [critical_repeat] of the configuration entry of its own name (so the
    RAM limiter repeats at the RAM interval), whatever was recorded or
    reset on it. *)
Theorem limiter_intervals_fixed cfg floaty ds st :
  intervals_ok cfg st ->
  forall sid ls n,
    _system_critical_timed_task_limiters (fst (deliver_all cfg floaty ds st))
      !! sid = Some ls ->
    time_interval (get_limiter n ls)
    = inject_Z (critical_repeat (config_of cfg n)).
Proof.
  intros Hok sid ls n Hl.
  pose proof (closed_deliver_all cfg (intervals_ok cfg) floaty ds st
                (intervals_ok_closed cfg) Hok) as H.
  exact (H sid ls Hl n).
Qed.

(** ** One system per delivery *)

Lemma sound_forbid_process_errors P (Inv : Store -> Prop) cfg error_data :
  (forall cls severity value,
     P (mkAlert cls (message error_data) None ERROR
          (time (err_meta_data error_data)) None
          (err_system_parent_id (err_meta_data error_data))
          (err_system_id (err_meta_data error_data))) = false /\
     P (went_down_alert (err_meta_data error_data) severity) = false /\
     P (still_down_alert (err_meta_data error_data) value) = false) ->
  (forall st f, Inv st ->
     Inv (limiters_after (err_system_id (err_meta_data error_data))
            IS_DOWN_LIMITER_NAME f st)) ->
  (forall st b, Inv st ->
     Inv (sent_after (err_system_id (err_meta_data error_data)) b st)) ->
  sound (forbid P) (fun _ => Inv) (_process_errors cfg error_data).
Proof.
  intros HP Hlim Hsent s [] HI.
  destruct (_process_errors_cases cfg error_data s)
    as [[E ->]|[(cls & _ & E & ->)
              |[(sev & _ & _ & _ & E & ->)
               |(ls & downtime & _ & _ & _ & E & ->)]]].
  - exists [], tt. rewrite app_nil_r. auto.
  - eexists _, tt. split; [exact E|]. split; [|exact HI].
    cbn. unfold forbid, error_alert.
    destruct (HP cls ERROR 0) as (-> & _). reflexivity.
  - eexists _, tt. split; [exact E|]. split; [|auto].
    cbn. unfold forbid.
    destruct (HP InvalidUrlAlert sev 0) as (_ & -> & _). reflexivity.
  - eexists _, tt. split; [exact E|]. split; [|auto].
    cbn. unfold forbid.
    destruct (HP InvalidUrlAlert ERROR downtime) as (_ & _ & ->). reflexivity.
Qed.

Lemma sound_forbid_create_state P (Inv : Store -> Prop) cfg sid0 :
  (forall s, Inv (store s) ->
     Inv (store (fst (_create_state_for_system cfg sid0 s)))) ->
  sound (forbid P) (fun _ => Inv) (_create_state_for_system cfg sid0).
Proof.
  intros Hcr s [] HI. exists [], tt. split; [|split].
  - cbn. rewrite app_nil_r. reflexivity.
  - reflexivity.
  - apply Hcr. exact HI.
Qed.

Lemma sound_forbid_classify P (Inv : Store -> Prop) cfg floaty keys
  data_received :
  (forall sid0, message_system_id data_received = Some sid0 ->
     (forall a, alert_origin_id a = sid0 -> P a = false) /\
     (forall s, Inv (store s) ->
        Inv (store (fst (_create_state_for_system cfg sid0 s)))) /\
     (forall st n f, Inv st -> Inv (limiters_after sid0 n f st)) /\
     (forall st b, Inv st -> Inv (sent_after sid0 b st))) ->
  sound (forbid P) (fun _ => Inv) (classify cfg floaty keys data_received).
Proof.
  intros H. unfold classify.
  destruct (existsb (String.eqb (parent_id cfg)) keys); [|apply sound_raise].
  destruct data_received as [metrics meta_data|error|]; [| |apply sound_raise].
  - destruct (H _ eq_refl) as (HP & Hcr & Hlim & Hsent).
    apply sound_bind; [apply sound_forbid_create_state; exact Hcr|intros _].
    rewrite _process_results_usage.
    apply sound_bind; [|intros _].
    + apply sound_forbid_back_up_block; [apply HP; reflexivity|].
      intros st HI. apply Hlim, Hsent, HI.
    + apply sound_forbid_usage_blocks.
      * intros cls cur sev thr _ _. apply HP. reflexivity.
      * intros st n' f _. apply Hlim.
  - destruct (H _ eq_refl) as (HP & Hcr & Hlim & Hsent).
    apply sound_bind; [apply sound_forbid_create_state; exact Hcr|intros _].
    apply sound_forbid_process_errors.
    + intros cls severity value. repeat split; apply HP; reflexivity.
    + intros st f. apply Hlim.
    + exact Hsent.
Qed.

(** X10.  A delivery concerns one system only: every alert it appends
    carries the system id of its message, and the flag and the limiters of
    every other system are exactly as they were - also when the
    classification raises, and for a body that is neither a result nor an
    error, which appends nothing and touches no system at all. *)
Theorem delivery_concerns_one_system cfg floaty d st :
  let st' := fst (deliver cfg floaty d st) in
  (forall a data_received,
     body d = Some data_received ->
     In a (snd (deliver cfg floaty d st)) ->
     message_system_id data_received = Some (alert_origin_id a)) /\
  (forall sid,
     (forall data_received,
        body d = Some data_received ->
        message_system_id data_received <> Some sid) ->
     _system_initial_downtime_alert_sent st' !! sid
       = _system_initial_downtime_alert_sent st !! sid /\
     _system_critical_timed_task_limiters st' !! sid
       = _system_critical_timed_task_limiters st !! sid).
Proof.
  intros st'. subst st'. unfold deliver.
  destruct (body d) as [data_received|]; cbn [fst snd];
    [|split; [intros a dr _ []|intros sid _; split; reflexivity]].
  split.
  - intros a dr Hdr Hin. injection Hdr as <-.
    destruct (message_system_id data_received) as [sid0|] eqn:Hsid.
    + destruct (sound_forbid_classify
                  (fun a => negb (String.eqb (alert_origin_id a) sid0))
                  (fun _ => True) cfg floaty
                  (split_dot (method_routing_key d)) data_received)
        with (s := mkCState st []) (g := tt) as (new & g' & E & R & _).
      * intros sid1 Hsid1. rewrite Hsid in Hsid1. injection Hsid1 as <-.
        repeat split.
        intros a0 ->. rewrite String.eqb_refl. reflexivity.
      * exact I.
      * cbn in E. rewrite E in Hin.
        pose proof (run_ghost_forbid _ _ _ _ R a Hin) as Hp. cbn in Hp.
        apply negb_false_iff, String.eqb_eq in Hp. congruence.
    + destruct data_received; try discriminate.
      unfold classify in Hin.
      destruct (existsb (String.eqb (parent_id cfg))
                  (split_dot (method_routing_key d))); destruct Hin.
  - intros sid Hother. specialize (Hother _ eq_refl).
    apply (closed_classify cfg
             (fun st' =>
                _system_initial_downtime_alert_sent st' !! sid
                  = _system_initial_downtime_alert_sent st !! sid /\
                _system_critical_timed_task_limiters st' !! sid
                  = _system_critical_timed_task_limiters st !! sid)
             floaty (split_dot (method_routing_key d)) data_received
             (mkCState st [])); [|split; reflexivity].
    intros sid0 Hsid0.
    assert (Hne : sid0 <> sid) by congruence.
    split; [|split].
    + intros s [H1 H2]. cbn.
      destruct (_system_initial_downtime_alert_sent (store s) !! sid0),
               (_system_critical_timed_task_limiters (store s) !! sid0);
        rewrite ?lookup_insert_ne by exact Hne; auto.
    + intros st0 n f _ _ [H1 H2]. split; [exact H1|].
      cbn. rewrite lookup_alter_ne by exact Hne. exact H2.
    + intros st0 b _ [H1 H2]. split; [|exact H2].
      cbn. rewrite lookup_insert_ne by exact Hne. exact H1.
Qed.


(** ** The exceptions of the classification *)

Section Raises.
Variable E : Exn -> Prop.
Variable Inv : Store -> Prop.

Lemma raises_only_ret {A} (a : A) : raises_only E Inv (ret a).
Proof. intros s HI. cbn. auto. Qed.

Lemma raises_only_raise {A} (e : Exn) : E e -> raises_only E Inv (@raise CState A e).
Proof. intros He s HI. cbn. auto. Qed.

Lemma raises_only_bind {A B} (m : M CState A) (k : A -> M CState B) :
  raises_only E Inv m -> (forall a, raises_only E Inv (k a)) ->
  raises_only E Inv (bind m k).
Proof.
  intros Hm Hk s HI. unfold bind. destruct (Hm s HI) as [H1 H2].
  destruct (m s) as [s1 [a|e]]; cbn [fst snd] in *; [apply Hk; exact H1|auto].
Qed.

Lemma raises_only_when (c : bool) (m : M CState unit) :
  raises_only E Inv m -> raises_only E Inv (when c m).
Proof. destruct c; [auto | intros _; apply raises_only_ret]. Qed.

Lemma raises_only_and (a b : M CState bool) :
  raises_only E Inv a -> raises_only E Inv b -> raises_only E Inv (a <&&> b).
Proof.
  intros Ha Hb. apply raises_only_bind; [exact Ha|].
  intros [|]; [exact Hb | apply raises_only_ret].
Qed.

Lemma raises_only_not (a : M CState bool) :
  raises_only E Inv a -> raises_only E Inv (not_ a).
Proof.
  intros Ha. apply raises_only_bind; [exact Ha|].
  intros x. apply raises_only_ret.
Qed.

Lemma raises_only_py_le x y :
  (is_Some x /\ is_Some y) \/ E TypeError -> raises_only E Inv (py_le x y).
Proof.
  intros [[[a ->] [b ->]]|He]; [apply raises_only_ret|].
  destruct x, y; first [apply raises_only_ret | apply raises_only_raise; exact He].
Qed.

Lemma raises_only_py_lt x y :
  (is_Some x /\ is_Some y) \/ E TypeError -> raises_only E Inv (py_lt x y).
Proof.
  intros [[[a ->] [b ->]]|He]; [apply raises_only_ret|].
  destruct x, y; first [apply raises_only_ret | apply raises_only_raise; exact He].
Qed.

Lemma raises_only_py_float x :
  is_Some x \/ E TypeError -> raises_only E Inv (@py_float CState x).
Proof.
  intros [[a ->]|He]; [apply raises_only_ret|].
  destruct x; [apply raises_only_ret | apply raises_only_raise; exact He].
Qed.

Lemma raises_only_append a : raises_only E Inv (append a).
Proof. intros s HI. cbn. auto. Qed.

End Raises.

Section RaisesState.
Variable E : Exn -> Prop.
Variable sid : string.

Lemma raises_only_lookup_limiters :
  raises_only E (has_state sid) (lookup_limiters sid).
Proof.
  intros s HI. unfold lookup_limiters, bind, get. cbn.
  destruct HI as [Hb [ls Hls]]. rewrite Hls. cbn. split; [|exact I].
  split; [exact Hb | eauto].
Qed.

Lemma raises_only_initial_downtime_alert_sent :
  raises_only E (has_state sid) (initial_downtime_alert_sent sid).
Proof.
  intros s HI. unfold initial_downtime_alert_sent, bind, get. cbn.
  destruct HI as [[b Hb] Hls]. rewrite Hb. cbn. split; [|exact I].
  split; [eauto | exact Hls].
Qed.

Lemma raises_only_limiter_can_do_task n now :
  raises_only E (has_state sid) (limiter_can_do_task sid n now).
Proof.
  apply raises_only_bind; [apply raises_only_lookup_limiters|].
  intros ls. apply raises_only_ret.
Qed.

Lemma raises_only_limiter_update n f :
  raises_only E (has_state sid) (limiter_update sid n f).
Proof.
  intros s [Hb Hls]. cbn. split; [|exact I]. split; [exact Hb|].
  apply (limiters_after_lookup (store s) sid n f sid). exact Hls.
Qed.

Lemma raises_only_set_initial_downtime_alert_sent b :
  raises_only E (has_state sid) (set_initial_downtime_alert_sent sid b).
Proof.
  intros s [Hb Hls]. cbn. split; [|exact I]. split; [|exact Hls].
  cbn. rewrite lookup_insert_eq. eauto.
Qed.

End RaisesState.

(** Solves [raises_only] goals on computations built from the primitives;
    the comparisons are left to [tac]. *)
Ltac raises_only_steps tac :=
  repeat first
    [ apply raises_only_ret
    | apply raises_only_append
    | apply raises_only_lookup_limiters
    | apply raises_only_initial_downtime_alert_sent
    | apply raises_only_limiter_can_do_task
    | apply raises_only_limiter_update
    | apply raises_only_set_initial_downtime_alert_sent
    | apply raises_only_when
    | apply raises_only_and
    | apply raises_only_not
    | apply raises_only_py_le; tac
    | apply raises_only_py_lt; tac
    | apply raises_only_py_float; tac
    | apply raises_only_bind; [|intros ?]
    | match goal with
      | |- raises_only _ _ (if ?b then _ else _) => destruct b
      end ].

Lemma raises_only_classify_alert (E : Exn -> Prop)
  current previous config meta_data inc dec n :
  (numeric_spec config /\ is_Some previous) \/ E TypeError ->
  raises_only E (has_state (system_id meta_data))
    (_classify_alert current previous config meta_data inc dec n).
Proof.
  intros H. unfold _classify_alert, py_ge, limiter_set_last_time_that_did_task,
    limiter_reset.
  raises_only_steps
    ltac:(destruct H as [[[HW HC] Hp]|He];
          [left; split; solve [eauto] | right; exact He]).
Qed.

Lemma raises_only_classify_metric (E : Exn -> Prop)
  floaty sample config meta_data inc dec n :
  (numeric_spec config /\ (forall x, is_Some (floaty x))) \/ E TypeError ->
  raises_only E (has_state (system_id meta_data))
    (classify_metric floaty sample config meta_data inc dec n).
Proof.
  intros H. unfold classify_metric.
  destruct (not_in_previous_or_None (current sample) (previous sample));
    [|apply raises_only_ret].
  destruct (current sample) as [cur|]; [|apply raises_only_ret].
  apply raises_only_classify_alert.
  destruct H as [[Hn Hf]|He]; [left; split; [exact Hn | apply Hf] | right; exact He].
Qed.

Lemma raises_only_process_results (E : Exn -> Prop)
  cfg floaty metrics meta_data :
  ((forall n, numeric_spec (config_of cfg n)) /\
   (forall x, is_Some (floaty x))) \/ E TypeError ->
  raises_only E (has_state (system_id meta_data))
    (_process_results cfg floaty metrics meta_data).
Proof.
  intros H. unfold _process_results, limiter_reset.
  repeat (apply raises_only_bind; [|intros ?]);
    try (apply raises_only_when);
    try (apply raises_only_classify_metric;
         destruct H as [[Hn Hf]|He];
         [left; split; [first [ exact (Hn OPEN_FD_LIMITER_NAME)
                              | exact (Hn CPU_USE_LIMITER_NAME)
                              | exact (Hn STORAGE_USE_LIMITER_NAME) ]
                       | exact Hf]
         | right; exact He]).
  raises_only_steps idtac.
Qed.

Lemma raises_only_process_errors (E : Exn -> Prop) cfg error_data :
  (numeric_spec (system_is_down cfg) /\
   ((code error_data =? 5004)%Z = true ->
    is_Some (current (err_went_down_at error_data)))) \/ E TypeError ->
  raises_only E (has_state (err_system_id (err_meta_data error_data)))
    (_process_errors cfg error_data).
Proof.
  intros H. unfold _process_errors, limiter_set_last_time_that_did_task.
  destruct (code error_data =? 5003)%Z; [apply raises_only_append|].
  destruct (code error_data =? 5009)%Z; [apply raises_only_append|].
  destruct (code error_data =? 5004)%Z; [|apply raises_only_ret].
  raises_only_steps
    ltac:(destruct H as [[[HW HC] Hc]|He];
          [left; first [ exact (Hc eq_refl) | split; solve [eauto] ]
          | right; exact He]).
Qed.

Lemma has_state_created cfg sid s :
  has_state sid (store (fst (_create_state_for_system cfg sid s))).
Proof.
  split; cbn.
  - destruct (_system_initial_downtime_alert_sent (store s) !! sid) eqn:E;
      rewrite ?E, ?lookup_insert_eq; eauto.
  - destruct (_system_critical_timed_task_limiters (store s) !! sid) eqn:E;
      rewrite ?E, ?lookup_insert_eq; eauto.
Qed.

(** The result of [classify] on an accepted result or error message. *)
Lemma classify_accepted_raises (E : Exn -> Prop) cfg floaty keys
  data_received s :
  existsb (String.eqb (parent_id cfg)) keys = true ->
  data_received <> OtherMessage ->
  ((forall n, numeric_spec (config_of cfg n)) /\
   (forall x, is_Some (floaty x)) /\
   (forall error, data_received = ErrorMessage error ->
      code error = 5004%Z -> is_Some (current (err_went_down_at error))))
  \/ E TypeError ->
  match snd (classify cfg floaty keys data_received s) with
  | Ret _ => True
  | Raise e => E e
  end.
Proof.
  intros Hacc Hother H. unfold classify. rewrite Hacc.
  destruct data_received as [metrics meta_data|error|]; [| |congruence].
  - unfold bind. cbn [_create_state_for_system modify].
    apply raises_only_process_results; [|apply has_state_created].
    destruct H as [(Hn & Hf & _)|He]; [left; split; assumption | right; exact He].
  - unfold bind. cbn [_create_state_for_system modify].
    apply raises_only_process_errors; [|apply has_state_created].
    destruct H as [(Hn & _ & Hc)|He]; [left|right; exact He].
    split; [exact (Hn IS_DOWN_LIMITER_NAME)|].
    intros Hcode. apply (Hc error eq_refl). apply Z.eqb_eq. exact Hcode.
Qed.




(** ** The downtime alerts of a system *)

Section SoundDeliver.
Context {G : Type} (step : G -> Alert -> option G) (Inv : G -> Store -> Prop).
Variable cfg : SystemAlertsConfig.
Variable floaty : option Q -> option Q.
Hypothesis sound_classify_all :
  forall keys data_received,
    sound step Inv (classify cfg floaty keys data_received).

Lemma sound_deliver d st g :
  Inv g st ->
  exists g', run_ghost step g (snd (deliver cfg floaty d st)) = Some g'
             /\ Inv g' (fst (deliver cfg floaty d st)).
Proof.
  intros HI. unfold deliver. destruct (body d) as [data_received|].
  - destruct (sound_classify_all (split_dot (method_routing_key d))
                data_received (mkCState st []) g HI)
      as (new & g' & E & R & HI').
    cbn in E. exists g'. cbn. rewrite E. auto.
  - exists g. auto.
Qed.

Lemma sound_deliver_all ds st g :
  Inv g st ->
  exists g', run_ghost step g (snd (deliver_all cfg floaty ds st)) = Some g'
             /\ Inv g' (fst (deliver_all cfg floaty ds st)).
Proof.
  revert st g. induction ds as [|d ds IH]; intros st g HI; cbn.
  - exists g. auto.
  - destruct (sound_deliver d st g HI) as (g1 & R1 & HI1).
    destruct (deliver cfg floaty d st) as [st1 A]. cbn in *.
    destruct (IH st1 g1 HI1) as (g2 & R2 & HI2).
    destruct (deliver_all cfg floaty ds st1) as [st2 B]. cbn in *.
    exists g2. rewrite run_ghost_app, R1. auto.
Qed.

End SoundDeliver.

Lemma still_down_not_went_down sid a :
  is_still_down sid a = true -> is_went_down sid a = false.
Proof.
  unfold is_still_down, is_went_down. intros H.
  apply andb_true_iff in H. destruct H as [-> Hc].
  apply bool_decide_eq_true in Hc. rewrite Hc. reflexivity.
Qed.

Section Downtime.
Variable cfg : SystemAlertsConfig.
Variable sid : string.

Local Abbreviation dmonitor := (downtime_monitor sid).
Local Abbreviation dinv := (downtime_inv sid).

Lemma downtime_monitor_skip g a :
  is_went_down sid a = false -> is_still_down sid a = false ->
  is_back_up_for sid a = false -> dmonitor g a = Some g.
Proof. intros H1 H2 H3. unfold downtime_monitor. rewrite H1, H2, H3. reflexivity. Qed.

Lemma downtime_monitor_other g a :
  alert_origin_id a <> sid -> dmonitor g a = Some g.
Proof.
  intros Hne. apply String.eqb_neq in Hne.
  apply downtime_monitor_skip;
    unfold is_went_down, is_still_down, is_back_up_for; rewrite Hne;
    reflexivity.
Qed.

Lemma downtime_monitor_usage g cls meta_data cur sev thr n' :
  metric_of_class cls = Some n' -> n' <> IS_DOWN_LIMITER_NAME ->
  dmonitor g (threshold_alert cls meta_data cur sev thr) = Some g.
Proof.
  intros Hm Hn. apply downtime_monitor_skip;
    unfold is_went_down, is_still_down, is_back_up_for, is_back_up; cbn;
    rewrite bool_decide_eq_false_2, ?andb_false_r; try reflexivity;
    intros ->; cbn in Hm; congruence.
Qed.

Lemma dinv_limiters_after g st sid0 n f :
  dinv g st -> dinv g (limiters_after sid0 n f st).
Proof. auto. Qed.

Lemma dinv_sent_after_other g st sid0 b :
  sid0 <> sid -> dinv g st -> dinv g (sent_after sid0 b st).
Proof.
  intros Hne H. unfold downtime_inv. cbn.
  rewrite lookup_insert_ne by exact Hne. exact H.
Qed.

Lemma dinv_sent_after_same st b : dinv b (sent_after sid b st).
Proof. unfold downtime_inv. cbn. rewrite lookup_insert_eq. reflexivity. Qed.

Lemma sound_downtime_classify_metric
  floaty sample config meta_data inc dec n' :
  metric_of_class inc = Some n' -> metric_of_class dec = Some n' ->
  n' <> IS_DOWN_LIMITER_NAME ->
  sound dmonitor dinv
    (classify_metric floaty sample config meta_data inc dec n').
Proof.
  intros Hinc Hdec Hn' s g HI.
  destruct (classify_metric_cases floaty sample config meta_data inc dec n' s)
    as (wa & ca & E & Hwa & Hca).
  exists (wa ++ ca), g. split; [exact E|]. split.
  - rewrite run_ghost_app.
    assert (Hw : run_ghost dmonitor g wa = Some g).
    { destruct Hwa as [->|(cur & [->| ->])]; cbn; [reflexivity| |];
        rewrite (downtime_monitor_usage _ _ _ _ _ _ n') by assumption;
        reflexivity. }
    rewrite Hw.
    destruct Hca as [[-> _]|[(cur & ls & _ & _ & -> & _)
                            |(cur & ls & _ & -> & _)]]; cbn;
      rewrite ?(downtime_monitor_usage _ _ _ _ _ _ n') by assumption;
      reflexivity.
  - destruct Hca as [[_ ->]|[(cur & ls & _ & _ & _ & ->)
                            |(cur & ls & _ & _ & ->)]]; exact HI.
Qed.

Lemma sound_downtime_usage_blocks floaty metrics meta_data :
  sound dmonitor dinv (usage_blocks cfg floaty metrics meta_data).
Proof.
  unfold usage_blocks.
  repeat (apply sound_bind; [|intros _]); apply sound_when;
    eapply sound_downtime_classify_metric;
    solve [reflexivity | discriminate].
Qed.

Lemma sound_downtime_back_up_block metrics meta_data :
  sound dmonitor dinv (back_up_block cfg metrics meta_data).
Proof.
  intros s g HI.
  destruct (back_up_block_cases cfg metrics meta_data s)
    as [[E ->]|(_ & _ & _ & E & ->)].
  - exists [], g. rewrite app_nil_r. auto.
  - destruct (decide (system_id meta_data = sid)) as [Heq|Hne].
    + exists [back_up_alert meta_data], false. split; [exact E|]. split.
      * cbn. unfold downtime_monitor, is_went_down, is_still_down,
          is_back_up_for, is_back_up. cbn.
        apply String.eqb_eq in Heq. rewrite Heq. reflexivity.
      * apply dinv_limiters_after. rewrite Heq. apply dinv_sent_after_same.
    + exists [back_up_alert meta_data], g. split; [exact E|]. split.
      * cbn. rewrite downtime_monitor_other by exact Hne. reflexivity.
      * apply dinv_limiters_after, dinv_sent_after_other; assumption.
Qed.

Lemma sound_downtime_process_errors error_data :
  sound dmonitor dinv (_process_errors cfg error_data).
Proof.
  intros s g HI.
  destruct (_process_errors_cases cfg error_data s)
    as [[E ->]|[(cls & Hcls & E & ->)
              |[(sev & _ & Hsent & _ & E & ->)
               |(ls & downtime & Hsent & _ & _ & E & ->)]]].
  - exists [], g. rewrite app_nil_r. auto.
  - eexists _, g. split; [exact E|]. split; [|exact HI].
    cbn. rewrite downtime_monitor_skip; [reflexivity|..];
      unfold is_went_down, is_still_down, is_back_up_for, is_back_up; cbn;
      destruct Hcls as [-> | ->]; cbn; rewrite ?andb_false_r; reflexivity.
  - set (sid0 := err_system_id (err_meta_data error_data)) in *.
    destruct (decide (sid0 = sid)) as [Heq|Hne].
    + eexists _, true. split; [exact E|]. split.
      * unfold downtime_inv in HI. rewrite <- Heq, Hsent in HI. subst g.
        cbn. unfold downtime_monitor, is_went_down. cbn. fold sid0.
        apply String.eqb_eq in Heq. rewrite Heq. reflexivity.
      * rewrite Heq. apply dinv_sent_after_same.
    + eexists _, g. split; [exact E|]. split.
      * cbn. rewrite downtime_monitor_other by exact Hne. reflexivity.
      * apply dinv_sent_after_other; [exact Hne|].
        apply dinv_limiters_after. exact HI.
  - set (sid0 := err_system_id (err_meta_data error_data)) in *.
    destruct (decide (sid0 = sid)) as [Heq|Hne].
    + eexists _, true. split; [exact E|]. split.
      * unfold downtime_inv in HI. rewrite <- Heq, Hsent in HI. subst g.
        cbn. unfold downtime_monitor, is_went_down, is_still_down. cbn.
        fold sid0. apply String.eqb_eq in Heq. rewrite Heq. reflexivity.
      * apply dinv_limiters_after. unfold downtime_inv.
        rewrite <- Heq, Hsent. reflexivity.
    + eexists _, g. split; [exact E|]. split.
      * cbn. rewrite downtime_monitor_other by exact Hne. reflexivity.
      * apply dinv_limiters_after. exact HI.
Qed.

Lemma sound_downtime_create_state sid0 :
  sound dmonitor dinv (_create_state_for_system cfg sid0).
Proof.
  intros s g HI. exists [], g. cbn. rewrite app_nil_r.
  split; [reflexivity|]. split; [reflexivity|].
  unfold downtime_inv in *. cbn.
  destruct (_system_initial_downtime_alert_sent (store s) !! sid0) eqn:E0;
    [exact HI|].
  destruct (decide (sid0 = sid)) as [->|Hne].
  - rewrite lookup_insert_eq. rewrite E0 in HI. congruence.
  - rewrite lookup_insert_ne by exact Hne. exact HI.
Qed.

Lemma sound_downtime_classify floaty keys data_received :
  sound dmonitor dinv (classify cfg floaty keys data_received).
Proof.
  unfold classify.
  destruct (existsb (String.eqb (parent_id cfg)) keys); [|apply sound_raise].
  destruct data_received as [metrics meta_data|error|]; [| |apply sound_raise].
  - apply sound_bind; [apply sound_downtime_create_state|intros _].
    rewrite _process_results_usage.
    apply sound_bind; [apply sound_downtime_back_up_block|intros _].
    apply sound_downtime_usage_blocks.
  - apply sound_bind; [apply sound_downtime_create_state|intros _].
    apply sound_downtime_process_errors.
Qed.

(** What a run of the monitor that ends in the state "down" went through. *)
Lemma monitor_ends_down A g0 :
  run_ghost dmonitor g0 A = Some true ->
  (g0 = true /\ forall x, In x A -> is_back_up_for sid x = false)
  \/ reported_down sid A.
Proof.
  revert g0. induction A as [|x A IH]; intros g0 R; cbn in R.
  - injection R as ->. left. split; [reflexivity|intros x []].
  - destruct (dmonitor g0 x) as [g1|] eqn:Ex; [|discriminate].
    destruct (IH g1 R) as [[-> Hno]|(B1 & w & B2 & -> & Hw & Hno)].
    + unfold downtime_monitor in Ex.
      destruct (is_went_down sid x) eqn:Hwd.
      * right. exists [], x, A. auto.
      * destruct (is_still_down sid x) eqn:Hsd.
        -- destruct g0; [|discriminate]. left. split; [reflexivity|].
           intros y [<-|Hy]; [|auto].
           unfold is_still_down in Hsd. unfold is_back_up_for, is_back_up.
           apply andb_true_iff in Hsd. destruct Hsd as [-> Hc].
           apply bool_decide_eq_true in Hc. rewrite Hc. reflexivity.
        -- destruct (is_back_up_for sid x) eqn:Hbu; [discriminate|].
           injection Ex as ->. left. split; [reflexivity|].
           intros y [<-|Hy]; auto.
    + right. exists (x :: B1), w, B2. auto.
Qed.

(** A run of the monitor from "down" to "not down" met a BackUp alert. *)
Lemma monitor_leaves_down A :
  run_ghost dmonitor true A = Some false ->
  exists x, In x A /\ is_back_up_for sid x = true.
Proof.
  induction A as [|x A IH]; intros R; cbn in R; [discriminate|].
  destruct (dmonitor true x) as [g1|] eqn:Ex; [|discriminate].
  destruct g1.
  - destruct (IH R) as (y & Hy & Hb). exists y. split; [right|]; assumption.
  - exists x. split; [left; reflexivity|].
    unfold downtime_monitor in Ex.
    destruct (is_went_down sid x); [discriminate|].
    destruct (is_still_down sid x); [discriminate|].
    destruct (is_back_up_for sid x); [reflexivity | discriminate].
Qed.

(** Without a BackUp alert the monitor stays in the state "down". *)
Lemma monitor_stays_down A g :
  run_ghost dmonitor true A = Some g ->
  (forall x, In x A -> is_back_up_for sid x = false) -> g = true.
Proof.
  induction A as [|x A IH]; intros R Hno; cbn in R; [congruence|].
  destruct (dmonitor true x) as [g1|] eqn:Ex; [|discriminate].
  assert (g1 = true) as ->.
  { unfold downtime_monitor in Ex. rewrite (Hno x) in Ex by (left; reflexivity).
    destruct (is_went_down sid x); [discriminate|].
    destruct (is_still_down sid x); congruence. }
  apply IH; [exact R|]. intros y Hy. apply Hno. right. exact Hy.
Qed.

Lemma monitor_after_went_down g0 w g1 :
  is_went_down sid w = true -> dmonitor g0 w = Some g1 ->
  g0 = false /\ g1 = true.
Proof.
  intros Hw Ex. unfold downtime_monitor in Ex. rewrite Hw in Ex.
  destruct g0; [discriminate|]. split; congruence.
Qed.

End Downtime.



(** ** At most one alert for a metric *)


(** ** The publishing queue *)

Lemma pushed_snoc q alerts alert :
  pushed q (alerts ++ [alert]) = push_latest (pushed q alerts) alert.
Proof. unfold pushed. rewrite fold_left_app. reflexivity. Qed.

Lemma pushed_maxsize q alerts : maxsize (pushed q alerts) = maxsize q.
Proof.
  induction alerts as [|alert alerts IH] using rev_ind; [reflexivity|].
  rewrite pushed_snoc. unfold push_latest, queue_put. cbn.
  destruct (full (pushed q alerts)); exact IH.
Qed.

Lemma tail_skipn {A} (l : list A) : tail l = skipn 1 l.
Proof. destruct l; reflexivity. Qed.

Lemma length_last_n {A} n (l : list A) :
  length (last_n n l) = Nat.min n (length l).
Proof. unfold last_n. rewrite length_skipn. lia. Qed.

Lemma pushed_unbounded q alerts :
  (maxsize q <= 0)%Z ->
  queue (pushed q alerts) = queue q ++ map alert_item alerts.
Proof.
  intros Hm. induction alerts as [|alert alerts IH] using rev_ind.
  - cbn. rewrite app_nil_r. reflexivity.
  - rewrite pushed_snoc. unfold push_latest, full.
    rewrite pushed_maxsize.
    assert (E : (0 <? maxsize q)%Z = false) by (apply Z.ltb_ge; exact Hm).
    rewrite E. cbn. rewrite IH, map_app, app_assoc. reflexivity.
Qed.

Lemma pushed_bounded q alerts :
  (0 < maxsize q)%Z ->
  (Z.of_nat (length (queue q)) <= maxsize q)%Z ->
  queue (pushed q alerts)
  = last_n (Z.to_nat (maxsize q)) (queue q ++ map alert_item alerts).
Proof.
  intros Hm Hlen. induction alerts as [|alert alerts IH] using rev_ind.
  - cbn. rewrite app_nil_r. unfold last_n.
    replace (length (queue q) - Z.to_nat (maxsize q))%nat with 0%nat by lia.
    reflexivity.
  - rewrite pushed_snoc. unfold push_latest, full.
    rewrite pushed_maxsize, IH.
    assert (E : (0 <? maxsize q)%Z = true) by (apply Z.ltb_lt; exact Hm).
    rewrite E. cbn [andb].
    set (L := queue q ++ map alert_item alerts).
    replace (queue q ++ map alert_item (alerts ++ [alert]))
      with (L ++ [alert_item alert])
      by (unfold L; rewrite map_app, app_assoc; reflexivity).
    pose proof (length_last_n (Z.to_nat (maxsize q)) L) as HS.
    destruct (maxsize q <=? Z.of_nat (length (last_n (Z.to_nat (maxsize q)) L)))%Z
      eqn:Efull.
    + apply Z.leb_le in Efull. cbn.
      rewrite IH, tail_skipn. fold L. unfold last_n.
      rewrite skipn_skipn, length_app, skipn_app. cbn [length].
      replace (length L + 1 - Z.to_nat (maxsize q))%nat
        with (1 + (length L - Z.to_nat (maxsize q)))%nat by lia.
      replace (1 + (length L - Z.to_nat (maxsize q)) - length L)%nat
        with 0%nat by lia.
      reflexivity.
    + apply Z.leb_gt in Efull. cbn.
      rewrite IH. fold L. unfold last_n.
      rewrite length_app. cbn [length].
      replace (length L - Z.to_nat (maxsize q))%nat with 0%nat by lia.
      replace (length L + 1 - Z.to_nat (maxsize q))%nat with 0%nat by lia.
      reflexivity.
Qed.

(** X15.  [_place_latest_data_on_queue] keeps the newest records: it
    returns, touches only the content of the queue, and leaves on a queue
    of positive capacity (that was within its capacity) the last [maxsize]
    of the old records followed by the new alerts, in order - older records,
    and the first of the new alerts when there are more than [maxsize],
    are dropped unpublished; a queue of capacity zero or less is unbounded
    and keeps everything. *)
Theorem place_latest_keeps_newest alerts a :
  let q := publishing_queue a in
  let a' := fst (_place_latest_data_on_queue alerts a) in
  let offered := queue q ++ map alert_item alerts in
  snd (_place_latest_data_on_queue alerts a) = Ret tt /\
  a' = mkAlerter (alerter_name a) (alerter_store a)
         (mkQueue (maxsize q) (queue (publishing_queue a')))
         (rabbitmq a) (events a) /\
  ((maxsize q <= 0)%Z -> queue (publishing_queue a') = offered) /\
  ((0 < maxsize q)%Z -> (Z.of_nat (length (queue q)) <= maxsize q)%Z ->
   queue (publishing_queue a') = last_n (Z.to_nat (maxsize q)) offered /\
   (Z.of_nat (length (queue (publishing_queue a'))) <= maxsize q)%Z).
Proof.
  cbv zeta. rewrite place_latest_pushed. cbn [fst snd publishing_queue].
  split; [reflexivity|]. split.
  - f_equal. rewrite <- (pushed_maxsize (publishing_queue a) alerts).
    destruct (pushed (publishing_queue a) alerts). reflexivity.
  - split.
    + apply pushed_unbounded.
    + intros Hm Hlen. rewrite pushed_bounded by assumption.
      split; [reflexivity|]. rewrite length_last_n. lia.
Qed.

Lemma _process_data_run cfg floaty d now a data_received :
  body d = Some data_received ->
  let a' := fst (_process_data cfg floaty d now a) in
  let result := snd (_process_data cfg floaty d now a) in
  let error := processing_error cfg floaty d a in
  let to_drain :=
    if error then publishing_queue a
    else pushed (publishing_queue a)
           (snd (deliver cfg floaty d (alerter_store a))) in
  let '(published, remaining, unused, drained) :=
    drain (queue to_drain) (rabbitmq a) in
  maxsize (publishing_queue a') = maxsize (publishing_queue a) /\
  alerter_store a' = fst (deliver cfg floaty d (alerter_store a)) /\
  queue (publishing_queue a') = remaining /\
  exists after,
    events a'
      = events a ++ classification_log cfg floaty d a
          ++ EvAck (method_delivery_tag d) :: published ++ after /\
    match drained with
    | Raise MessageWasNotDeliveredException =>
        after = [EvLogException MessageWasNotDeliveredException] /\
        result = Ret tt
    | Raise e => after = [] /\ result = Raise e
    | Ret _ =>
        if error then after = [] /\ result = Ret tt
        else
          let answer := hd Confirmed unused in
          after = EvPublish (worker_heartbeat a now) answer
                    :: match answer with
                       | NotDelivered =>
                           [EvLogException MessageWasNotDeliveredException]
                       | _ => []
                       end /\
          result = match answer with
                   | Failed => Raise OtherException
                   | _ => Ret tt
                   end
    end.
Proof.
  intros Hbody. cbv zeta.
  remember (_process_data cfg floaty d now a) as R eqn:ER.
  unfold processing_error, classification_log, deliver.
  unfold _process_data in ER.
  rewrite Hbody in *. cbn [json_loads] in ER.
  unfold bind at 1 in ER. cbn [ret] in ER.
  unfold bind at 1 in ER. unfold try_classify at 1 in ER.
  destruct (classify cfg floaty (split_dot (method_routing_key d))
              data_received (mkCState (alerter_store a) []))
    as [cs outcome] eqn:Ecl.
  cbn [fst snd].
  destruct a as [nm st q answers evs]. cbn [alerter_store alerter_name
    publishing_queue rabbitmq events] in *.
  destruct outcome as [[]|e].
  - cbn [fst snd negb when] in ER. unfold bind at 1 in ER.
    unfold basic_ack, emit, modify in ER.
    cbn [alerter_store alerter_name publishing_queue rabbitmq events] in ER.
    unfold bind at 1 in ER. rewrite place_latest_pushed in ER.
    cbn [alerter_store alerter_name publishing_queue rabbitmq events] in ER.
    unfold try_except, _send_data in ER. unfold bind at 1 in ER.
    unfold bind at 1 in ER. unfold get at 1 in ER.
    cbn [alerter_store alerter_name publishing_queue rabbitmq events] in ER.
    rewrite send_all_drain in ER by reflexivity.
    cbn [alerter_store alerter_name publishing_queue rabbitmq events] in ER.
    destruct (drain (queue (pushed q (data_for_alerting cs))) answers)
      as [[[published remaining] unused] drained].
    destruct drained as [[]|e].
    + unfold bind, get, _send_heartbeat, basic_publish_confirm, bind, get,
        modify, ret, raise, log_exception, emit, modify in ER.
      cbn [alerter_store alerter_name publishing_queue rabbitmq events] in ER.
      unfold worker_heartbeat. cbn [alerter_name].
      destruct unused as [|[| |] unused]; cbn in ER; subst R; cbn;
        (split; [first [reflexivity | apply pushed_maxsize]|];
         split; [reflexivity|]; split; [reflexivity|]);
        eexists; (split; [|split; reflexivity]);
        rewrite <- ?app_assoc; cbn; rewrite <- ?app_assoc; reflexivity.
    + destruct e; cbn in ER; subst R; cbn;
        (split; [first [reflexivity | apply pushed_maxsize]|];
         split; [reflexivity|]; split; [reflexivity|]);
        eexists; (split; [|split; reflexivity]);
        rewrite <- ?app_assoc; cbn; rewrite ?app_nil_r; reflexivity.
  - cbn [fst snd negb when] in ER. unfold log_exception, emit, modify in ER.
    cbn [fst alerter_store alerter_name publishing_queue rabbitmq events]
      in ER.
    unfold bind at 1 in ER. unfold basic_ack, emit, modify in ER.
    cbn [alerter_store alerter_name publishing_queue rabbitmq events] in ER.
    unfold bind at 1 in ER. cbn [ret] in ER.
    unfold try_except, _send_data in ER. unfold bind at 1 in ER.
    unfold bind at 1 in ER. unfold get at 1 in ER.
    cbn [alerter_store alerter_name publishing_queue rabbitmq events] in ER.
    rewrite send_all_drain in ER by reflexivity.
    cbn [alerter_store alerter_name publishing_queue rabbitmq events] in ER.
    destruct (drain (queue q) answers)
      as [[[published remaining] unused] drained].
    destruct drained as [[]|e'].
    + cbn in ER. subst R. cbn. split; [first [reflexivity | apply pushed_maxsize]|].
      split; [reflexivity|]. split; [reflexivity|].
      exists []. split; [|split; reflexivity].
      rewrite <- ?app_assoc; cbn; rewrite ?app_nil_r; reflexivity.
    + destruct e'; cbn in ER; subst R; cbn;
        (split; [first [reflexivity | apply pushed_maxsize]|];
         split; [reflexivity|]; split; [reflexivity|]);
        eexists; (split; [|split; reflexivity]);
        rewrite <- ?app_assoc; cbn; rewrite ?app_nil_r; reflexivity.
Qed.

Lemma drain_remaining_length pending answers :
  (length (snd (fst (fst (drain pending answers)))) <= length pending)%nat.
Proof.
  pose proof (drain_prefix pending answers) as H.
  destruct (drain pending answers) as [[[published remaining] unused] r].
  destruct H as (done & E & _). cbn. rewrite E, length_app. lia.
Qed.

(** X16.  [_process_data] keeps the publishing queue within its capacity:
    for a queue of positive capacity holding at most [maxsize] records,
    after any delivery - decodable or not, accepted or not, whatever the
    broker answers and whether or not the call raises - the capacity is
    the same and the queue holds at most [maxsize] records. *)
Theorem publishing_queue_stays_bounded cfg floaty d now a :
  (0 < maxsize (publishing_queue a))%Z ->
  (Z.of_nat (length (queue (publishing_queue a)))
   <= maxsize (publishing_queue a))%Z ->
  let a' := fst (_process_data cfg floaty d now a) in
  maxsize (publishing_queue a') = maxsize (publishing_queue a) /\
  (Z.of_nat (length (queue (publishing_queue a')))
   <= maxsize (publishing_queue a))%Z.
Proof.
  intros Hm Hlen a'. subst a'.
  destruct (body d) as [data_received|] eqn:Hbody.
  - pose proof (_process_data_run cfg floaty d now a data_received Hbody)
      as H. cbv zeta in H.
    match type of H with
    | context [drain (queue ?to_drain) _] =>
        assert (Hq : (Z.of_nat (length (queue to_drain))
                      <= maxsize (publishing_queue a))%Z)
    end.
    { destruct (processing_error cfg floaty d a); [exact Hlen|].
      rewrite pushed_bounded by assumption. rewrite length_last_n. lia. }
    match type of H with
    | context [drain ?pending ?answers] =>
        pose proof (drain_remaining_length pending answers) as Hr;
        destruct (drain pending answers)
          as [[[published remaining] unused] drained]
    end.
    destruct H as (Hmax & _ & Hqueue & _).
    split; [exact Hmax|]. rewrite Hqueue. cbn in Hr. lia.
  - unfold _process_data. rewrite Hbody. cbn. auto.
Qed.

Lemma drain_confirmed pending answers :
  (forall o, In o answers -> o = Confirmed) ->
  drain pending answers
  = (map (fun item => EvPublish item Confirmed) pending, [],
     skipn (length pending) answers, Ret tt).
Proof.
  revert answers. induction pending as [|item rest IH]; intros answers Hc.
  - reflexivity.
  - cbn [drain].
    assert (Hhd : hd Confirmed answers = Confirmed).
    { destruct answers as [|o answers]; [reflexivity|].
      apply Hc. left. reflexivity. }
    rewrite Hhd, IH.
    + destruct answers; cbn [tail length skipn map];
        rewrite ?skipn_nil; reflexivity.
    + intros o Ho. apply Hc. destruct answers; [destruct Ho|right; exact Ho].
Qed.

Lemma In_skipn {A} n (l : list A) x : In x (skipn n l) -> In x l.
Proof.
  revert l. induction n as [|n IH]; intros l H; [exact H|].
  destruct l; [destruct H|]. right. apply IH. exact H.
Qed.

(** X17.  With a broker that confirms every publish, a delivery whose
    classification returns is acknowledged, then the last [maxsize] of the
    records waiting and the new alerts are published in order - so with
    more waiting and new records than the capacity, the oldest are never
    published - then the heartbeat is published, the call returns and the
    queue is left empty. *)
Theorem confirmed_delivery_publishes_newest cfg floaty d now a data_received :
  body d = Some data_received ->
  processing_error cfg floaty d a = false ->
  (forall o, In o (rabbitmq a) -> o = Confirmed) ->
  (0 < maxsize (publishing_queue a))%Z ->
  (Z.of_nat (length (queue (publishing_queue a)))
   <= maxsize (publishing_queue a))%Z ->
  let a' := fst (_process_data cfg floaty d now a) in
  let alerts := snd (deliver cfg floaty d (alerter_store a)) in
  let sent :=
    last_n (Z.to_nat (maxsize (publishing_queue a)))
      (queue (publishing_queue a) ++ map alert_item alerts) in
  snd (_process_data cfg floaty d now a) = Ret tt /\
  queue (publishing_queue a') = [] /\
  events a'
  = events a ++ EvAck (method_delivery_tag d)
      :: map (fun item => EvPublish item Confirmed) sent
      ++ [EvPublish (worker_heartbeat a now) Confirmed].
Proof.
  intros Hbody Herr Hconf Hm Hlen a' alerts sent. subst a' alerts sent.
  pose proof (_process_data_run cfg floaty d now a data_received Hbody) as H.
  cbv zeta in H. rewrite Herr in H.
  unfold classification_log in H. unfold processing_error in Herr.
  rewrite Hbody in *.
  destruct (snd (classify cfg floaty (split_dot (method_routing_key d))
                   data_received (mkCState (alerter_store a) [])))
    as [[]|e]; [|discriminate].
  rewrite (drain_confirmed _ _ Hconf) in H.
  destruct H as (_ & _ & Hq & after & Hev & Hafter).
  assert (Hhd : hd Confirmed
                  (skipn (length (queue (pushed (publishing_queue a)
                     (snd (deliver cfg floaty d (alerter_store a))))))
                     (rabbitmq a)) = Confirmed).
  { match goal with |- hd _ ?l = _ => destruct l as [|o l'] eqn:El end;
      [reflexivity|].
    cbn. apply Hconf. eapply In_skipn. rewrite El. left. reflexivity. }
  rewrite Hhd in Hafter. destruct Hafter as [-> Hres].
  split; [exact Hres|]. split; [exact Hq|].
  rewrite Hev. cbn [app]. rewrite pushed_bounded by assumption.
  unfold deliver. rewrite Hbody. reflexivity.
Qed.


(** ** The supervision of the data transformers *)

Module ManagerRuns.
Import Manager.
Import ManagerFacts.

Lemma missing_set_same k n d : missing k (dict_set k (mkProcess true n) d) = false.
Proof. unfold missing. rewrite dict_get_set_same. reflexivity. Qed.

Lemma start_transformers_eq m :
  _start_transformers_processes m
  = (let m1 := fst (start_if_missing SYSTEM_DATA_TRANSFORMER_NAME m) in
     fst (start_if_missing GITHUB_DATA_TRANSFORMER_NAME m1), Ret tt).
Proof.
  unfold _start_transformers_processes, bind.
  rewrite (start_if_missing_spec SYSTEM_DATA_TRANSFORMER_NAME m).
  cbn [fst].
  match goal with |- context [start_if_missing ?k ?m0] =>
    rewrite (start_if_missing_spec k m0)
  end.
  reflexivity.
Qed.

(** X18.  [_start_transformers_processes] starts exactly the workers that
    are absent from the dictionary or not alive, the system data
    transformer first: it returns, afterwards neither worker is missing, a
    worker that was alive keeps its process and every other entry of the
    dictionary is left alone, and a second call starts nothing. *)
Theorem start_transformers_idempotent m :
  let d := transformer_process_dict m in
  let m1 := fst (_start_transformers_processes m) in
  let d1 := transformer_process_dict m1 in
  snd (_start_transformers_processes m) = Ret tt /\
  events m1
  = events m
      ++ map EvStart
           (List.filter (fun k => missing k d)
              [SYSTEM_DATA_TRANSFORMER_NAME; GITHUB_DATA_TRANSFORMER_NAME]) /\
  missing SYSTEM_DATA_TRANSFORMER_NAME d1 = false /\
  missing GITHUB_DATA_TRANSFORMER_NAME d1 = false /\
  (forall k,
     missing k d = false
     \/ (k <> SYSTEM_DATA_TRANSFORMER_NAME
         /\ k <> GITHUB_DATA_TRANSFORMER_NAME) ->
     dict_get k d1 = dict_get k d) /\
  _start_transformers_processes m1 = (m1, Ret tt).
Proof.
  cbv zeta. rewrite !start_transformers_eq. cbn [fst snd].
  rewrite !start_if_missing_spec. cbn [fst].
  pose proof names_differ as Hnd.
  assert (Hnd' : GITHUB_DATA_TRANSFORMER_NAME <> SYSTEM_DATA_TRANSFORMER_NAME)
    by congruence.
  destruct m as [nm d ans np evs].
  cbn [transformer_process_dict events name rabbitmq next_pid].
  destruct (missing SYSTEM_DATA_TRANSFORMER_NAME d) eqn:E1;
    destruct (missing GITHUB_DATA_TRANSFORMER_NAME d) eqn:E2;
    repeat first
      [ rewrite missing_set_same
      | rewrite (missing_set_other _ _ _ _ Hnd)
      | rewrite (missing_set_other _ _ _ _ Hnd')
      | rewrite E1
      | rewrite E2
      | progress cbn [transformer_process_dict events name rabbitmq next_pid
                      List.filter map] ];
    rewrite <- ?app_assoc, ?app_nil_r;
    (split; [reflexivity|]); (split; [reflexivity|]);
    (split; [reflexivity|]); (split; [reflexivity|]);
    (split; [|reflexivity]);
    intros k Hk;
    repeat match goal with
    | |- context [dict_get k (dict_set ?k0 _ _)] =>
        rewrite (dict_get_set_other k0 k)
          by (intros <-; destruct Hk as [Hk|[Hk1 Hk2]]; congruence)
    end; reflexivity.
Qed.

Lemma no_dead_all_running d : dead_of d = [] -> running_of d = map fst d.
Proof.
  unfold dead_of, running_of. induction d as [|[k p] d IH]; [reflexivity|].
  cbn. destruct (is_alive p); cbn; [|discriminate].
  intros H. rewrite IH by exact H. reflexivity.
Qed.

(** X19.  Restarts are triggered only by a dead child: on a ping that
    finds no dead child in the dictionary, nothing is joined and nothing is
    started - not even a worker that is absent from the dictionary - the
    dictionary is unchanged, and the only event is the publish of a
    heartbeat that lists every key as running (with the log entry when the
    broker reports it as not delivered). *)
Theorem ping_without_dead_child now m :
  dead_of (transformer_process_dict m) = [] ->
  let d := transformer_process_dict m in
  let answer := hd Confirmed (rabbitmq m) in
  let hb := mkHeartbeat (name m) (map fst d) [] now in
  fst (_process_ping now m)
  = mkManager (name m) d (tail (rabbitmq m)) (next_pid m)
      (events m
         ++ EvPublish HEALTH_CHECK_EXCHANGE "heartbeat.manager" hb answer
         :: match answer with
            | NotDelivered => [EvLogException MessageWasNotDeliveredException]
            | _ => []
            end).
Proof.
  intros Hdead. cbv zeta.
  unfold _process_ping, compose_heartbeat.
  unfold try_except at 1. unfold bind at 1. unfold bind at 1.
  unfold bind at 1. unfold get at 1. unfold bind at 1.
  rewrite poll_spec. cbn [fst snd app dead_processes].
  rewrite Hdead, (no_dead_all_running _ Hdead).
  destruct m as [nm d ans np evs].
  cbn [name transformer_process_dict rabbitmq next_pid events map app].
  cbn [length Nat.eqb negb when]. unfold bind at 1. cbn [ret].
  unfold try_except, _send_heartbeat, bind, get, modify, ret, raise, emit,
    modify.
  cbn [name transformer_process_dict rabbitmq next_pid events].
  destruct ans as [|[| |] ans]; cbn; rewrite <- ?app_assoc, ?app_nil_r;
    reflexivity.
Qed.

(** X20.  A ping fails only on a failed publish: [_process_ping] consumes
    one answer of the broker and keeps the name of the manager; it returns
    when the heartbeat is confirmed and also when it is reported as not
    delivered (the exception is logged and swallowed), and raises exactly
    when the publish fails otherwise - after the dead children were joined
    and restarted. *)
Theorem ping_fails_only_on_failed_publish now m :
  let answer := hd Confirmed (rabbitmq m) in
  snd (_process_ping now m)
  = match answer with
    | Failed => Raise OtherException
    | _ => Ret tt
    end /\
  rabbitmq (fst (_process_ping now m)) = tail (rabbitmq m) /\
  name (fst (_process_ping now m)) = name m /\
  (forall k, In k (dead_of (transformer_process_dict m)) ->
     In (EvJoin k) (events (fst (_process_ping now m)))).
Proof.
  cbv zeta.
  destruct (process_ping_spec now m) as (d1 & np1 & rs & E & _).
  cbv zeta in E. rewrite E. cbn [rabbitmq name events].
  split; [|split; [reflexivity|split; [reflexivity|]]].
  - clear E d1 np1 rs.
    unfold _process_ping, compose_heartbeat.
    unfold try_except at 1. unfold bind at 1. unfold bind at 1.
    unfold bind at 1. unfold get at 1. unfold bind at 1.
    rewrite poll_spec. cbn [fst snd app dead_processes].
    destruct m as [nm d ans np evs].
    cbn [name transformer_process_dict rabbitmq next_pid events].
    destruct (dead_of d) as [|dead0 dead].
    + cbn [length Nat.eqb negb when]. unfold bind at 1. cbn [ret].
      unfold try_except, _send_heartbeat, bind, get, modify, ret, raise,
        emit, modify.
      cbn [name transformer_process_dict rabbitmq next_pid events].
      destruct ans as [|[| |] ans]; reflexivity.
    + cbn [length Nat.eqb negb when]. unfold bind at 1.
      rewrite start_transformers_eq. cbn [ret].
      unfold try_except, _send_heartbeat, bind, get, modify, ret, raise,
        emit, modify.
      rewrite !start_if_missing_spec. cbn [fst].
      repeat match goal with
      | |- context [if ?b then _ else _] => destruct b
      end;
      cbn [name transformer_process_dict rabbitmq next_pid events];
      destruct ans as [|[| |] ans]; reflexivity.
  - intros k Hk. rewrite !in_app_iff. right. left.
    apply in_map. exact Hk.
Qed.

Lemma keys_terminate k m :
  map fst (transformer_process_dict (terminate k m))
  = map fst (transformer_process_dict m).
Proof.
  unfold terminate. cbn. rewrite map_map. apply map_ext.
  intros [k' p]. cbn. destruct (String.eqb k' k); reflexivity.
Qed.

Lemma ping_two_workers now nm p1 p2 ans np evs :
  let m1 := fst (_process_ping now
                   (mkManager nm
                      [(SYSTEM_DATA_TRANSFORMER_NAME, p1);
                       (GITHUB_DATA_TRANSFORMER_NAME, p2)] ans np evs)) in
  map fst (transformer_process_dict m1)
    = [SYSTEM_DATA_TRANSFORMER_NAME; GITHUB_DATA_TRANSFORMER_NAME] /\
  running_of (transformer_process_dict m1)
    = [SYSTEM_DATA_TRANSFORMER_NAME; GITHUB_DATA_TRANSFORMER_NAME] /\
  dead_of (transformer_process_dict m1) = [].
Proof.
  destruct p1 as [[|] n1], p2 as [[|] n2]; destruct ans as [|[| |] ans];
    vm_compute; auto.
Qed.

Lemma keys_manager_run actions m :
  map fst (transformer_process_dict m)
    = [SYSTEM_DATA_TRANSFORMER_NAME; GITHUB_DATA_TRANSFORMER_NAME] ->
  map fst (transformer_process_dict (manager_run actions m))
    = [SYSTEM_DATA_TRANSFORMER_NAME; GITHUB_DATA_TRANSFORMER_NAME].
Proof.
  revert m. induction actions as [|action actions IH]; intros m Hk;
    [exact Hk|].
  cbn [manager_run fold_left]. apply IH.
  destruct action as [now|k]; cbn [manager_step].
  - destruct m as [nm d ans np evs]. cbn in Hk.
    destruct d as [|[k1 p1] [|[k2 p2] [|]]]; try discriminate.
    injection Hk as -> ->. apply ping_two_workers.
  - rewrite keys_terminate. exact Hk.
Qed.

(** X21.  The manager heals its workers: from the state [start] leaves,
    whatever pings were delivered and whatever children were terminated
    from outside in between, after one more ping the dictionary holds
    exactly the two workers and both are alive, so that the following
    heartbeat lists both as running and none as dead. *)
Theorem ping_revives_workers component answers actions now :
  let m := manager_run actions (started component answers) in
  let d1 := transformer_process_dict (fst (_process_ping now m)) in
  map fst d1
    = [SYSTEM_DATA_TRANSFORMER_NAME; GITHUB_DATA_TRANSFORMER_NAME] /\
  running_of d1
    = [SYSTEM_DATA_TRANSFORMER_NAME; GITHUB_DATA_TRANSFORMER_NAME] /\
  dead_of d1 = [].
Proof.
  cbv zeta.
  pose proof (keys_manager_run actions (started component answers) eq_refl)
    as Hk.
  destruct (manager_run actions (started component answers))
    as [nm d ans np evs].
  cbn in Hk. destruct d as [|[k1 p1] [|[k2 p2] [|]]]; try discriminate.
  injection Hk as -> ->. apply ping_two_workers.
Qed.

End ManagerRuns.


(** ** The order of the alerts of a delivery *)

Lemma grouped_nil groups : grouped groups [].
Proof.
  induction groups as [|P groups IH]; cbn; [reflexivity|].
  exists [], []. split; [reflexivity|]. split; [intros a []|exact IH].
Qed.

Lemma appends_of_sound {A} (P : Alert -> bool) (c : M CState A) :
  sound (forbid (fun a => negb (P a))) (fun _ _ => True) c ->
  forall s, exists new,
    data_for_alerting (fst (c s)) = data_for_alerting s ++ new /\
    forall a, In a new -> P a = true.
Proof.
  intros Hc s. destruct (Hc s tt I) as (new & g' & E & R & _).
  exists new. split; [exact E|].
  intros a Ha. pose proof (run_ghost_forbid _ _ _ _ R a Ha) as H.
  apply negb_false_iff in H. exact H.
Qed.

Lemma grouped_bind {A B} (P : Alert -> bool) groups
  (m : M CState A) (k : A -> M CState B) :
  (forall s, exists new,
     data_for_alerting (fst (m s)) = data_for_alerting s ++ new /\
     forall a, In a new -> P a = true) ->
  (forall x s, exists new,
     data_for_alerting (fst (k x s)) = data_for_alerting s ++ new /\
     grouped groups new) ->
  forall s, exists new,
    data_for_alerting (fst (bind m k s)) = data_for_alerting s ++ new /\
    grouped (P :: groups) new.
Proof.
  intros Hm Hk s. unfold bind.
  destruct (Hm s) as (n1 & E1 & H1).
  destruct (m s) as [s1 [x|e]]; cbn [fst] in *.
  - destruct (Hk x s1) as (n2 & E2 & H2).
    exists (n1 ++ n2). split; [rewrite E2, E1, app_assoc; reflexivity|].
    exists n1, n2. auto.
  - exists n1. split; [exact E1|].
    exists n1, []. rewrite app_nil_r.
    split; [reflexivity|]. split; [exact H1 | apply grouped_nil].
Qed.

Lemma appends_usage_block (c : bool) floaty sample config meta_data inc dec n :
  metric_of_class inc = Some n -> metric_of_class dec = Some n ->
  forall s, exists new,
    data_for_alerting
      (fst (when c (classify_metric floaty sample config meta_data inc dec n)
              s))
    = data_for_alerting s ++ new /\
    forall a, In a new -> of_metric n a = true.
Proof.
  intros Hinc Hdec. apply appends_of_sound, sound_when.
  apply sound_forbid_classify_metric; [| |auto];
    intros cur sev thr; unfold of_metric; cbn;
    rewrite ?Hinc, ?Hdec, bool_decide_eq_true_2 by reflexivity; reflexivity.
Qed.

Lemma appends_back_up_block cfg metrics meta_data :
  forall s, exists new,
    data_for_alerting (fst (back_up_block cfg metrics meta_data s))
    = data_for_alerting s ++ new /\
    forall a, In a new -> of_metric IS_DOWN_LIMITER_NAME a = true.
Proof.
  apply appends_of_sound, sound_forbid_back_up_block; [reflexivity | auto].
Qed.

Lemma _process_results_grouped cfg floaty metrics meta_data s :
  exists new,
    data_for_alerting (fst (_process_results cfg floaty metrics meta_data s))
    = data_for_alerting s ++ new /\
    grouped result_blocks new.
Proof.
  revert s. rewrite _process_results_blocks. unfold result_blocks.
  apply grouped_bind; [apply appends_back_up_block|intros _].
  apply grouped_bind; [apply appends_usage_block; reflexivity|intros _].
  apply grouped_bind; [apply appends_usage_block; reflexivity|intros _].
  apply grouped_bind; [apply appends_usage_block; reflexivity|intros _].
  intros s.
  destruct (appends_usage_block (enabled (system_ram_usage cfg)) floaty
              (m_system_ram_usage metrics) (system_cpu_usage cfg) meta_data
              SystemRAMUsageIncreasedAboveThresholdAlert
              SystemRAMUsageDecreasedBelowThresholdAlert
              RAM_USE_LIMITER_NAME eq_refl eq_refl s) as (new & E & H).
  exists new. split; [exact E|].
  exists new, []. rewrite app_nil_r.
  split; [reflexivity|]. split; [exact H | reflexivity].
Qed.

(** X22.  The alerts of a delivery come in the order of the blocks of the
    source.  For a result message they are grouped by metric - downtime
    first, then open file descriptors, storage, cpu and ram, any group
    possibly empty - also when a block raises and the later groups are
    missing; an error message yields at most one alert. *)
Theorem alerts_grouped_by_block cfg floaty d st :
  (forall metrics meta_data,
     body d = Some (ResultMessage metrics meta_data) ->
     grouped result_blocks (snd (deliver cfg floaty d st))) /\
  (forall error,
     body d = Some (ErrorMessage error) ->
     (length (snd (deliver cfg floaty d st)) <= 1)%nat).
Proof.
  split.
  - intros metrics meta_data Hbody. unfold deliver. rewrite Hbody.
    cbn [snd]. unfold classify.
    destruct (existsb (String.eqb (parent_id cfg))
                (split_dot (method_routing_key d)));
      [|apply grouped_nil].
    unfold bind. cbn [_create_state_for_system modify].
    match goal with
    | |- context [_process_results cfg floaty metrics meta_data ?s0] =>
        destruct (_process_results_grouped cfg floaty metrics meta_data s0)
          as (new & E & H)
    end.
    rewrite E. exact H.
  - intros error Hbody. unfold deliver. rewrite Hbody.
    cbn [snd]. unfold classify.
    destruct (existsb (String.eqb (parent_id cfg))
                (split_dot (method_routing_key d))); [|cbn; lia].
    unfold bind. cbn [_create_state_for_system modify].
    match goal with
    | |- context [_process_errors cfg error ?s0] =>
        destruct (_process_errors_cases cfg error s0)
          as [[E _]|[(cls & _ & E & _)
                    |[(sev & _ & _ & _ & E & _)
                     |(ls & downtime & _ & _ & _ & E & _)]]]
    end; rewrite E; cbn; lia.
Qed.


(** ** Instances of the further properties *)

Lemma scenario_store_has_limiters :
  is_Some (_system_critical_timed_task_limiters scenario_store !! "sys1").
Proof. exists scenario_limiters. vm_compute. reflexivity. Qed.




(** An error 5003 for a system seen for the first time. *)
Lemma error_codes_dispatch_witness :
  classify scenario_config floaty_id ["alerter"; "system"; "chain1"]
    (ErrorMessage
       (mkError 5003 "metric not found" (scenario_error_meta 1700000000)
          quiet))
    (mkCState initial_store [])
  = (mkCState scenario_store
       [mkAlert MetricNotFoundErrorAlert "metric not found" None ERROR
          1700000000 None "chain1" "sys1"],
     Ret tt).
Proof.
  apply (error_codes_dispatch scenario_config floaty_id
           ["alerter"; "system"; "chain1"]
           (mkError 5003 "metric not found" (scenario_error_meta 1700000000)
              quiet)
           (mkCState initial_store [])).
  - reflexivity.
  - discriminate.
Defined.


Lemma same_systems_initial : same_systems initial_store.
Proof.
  intros sid. cbn. rewrite !lookup_empty.
  split; intros [x H]; discriminate H.
Qed.

(** The first accepted message about sys1 registers it. *)
Lemma systems_stay_registered_witness :
  same_systems initial_store /\
  has_state "sys1"
    (fst (deliver_all scenario_config floaty_id
            [scenario_delivery 1 (cpu_result 60 85 1700000000)]
            initial_store)).
Proof.
  split; [exact same_systems_initial|].
  apply (systems_stay_registered scenario_config floaty_id
           [scenario_delivery 1 (cpu_result 60 85 1700000000)]
           initial_store same_systems_initial)
    with (d := scenario_delivery 1 (cpu_result 60 85 1700000000))
         (data_received := cpu_result 60 85 1700000000).
  - left. reflexivity.
  - reflexivity.
  - reflexivity.
  - reflexivity.
Defined.

(** After a CRITICAL cpu alert the RAM limiter of sys1 still repeats at the
    RAM interval, and the cpu limiter at the cpu interval. *)
Lemma limiter_intervals_fixed_witness :
  exists ls,
    _system_critical_timed_task_limiters
      (fst (deliver_all scenario_config floaty_id
              [scenario_delivery 2 (cpu_result 85 95 1700000050)]
              initial_store)) !! "sys1" = Some ls /\
    time_interval (get_limiter RAM_USE_LIMITER_NAME ls) = inject_Z 300 /\
    time_interval (get_limiter CPU_USE_LIMITER_NAME ls) = inject_Z 600.
Proof.
  eexists. split; [vm_compute; reflexivity|].
  split.
  - apply (limiter_intervals_fixed scenario_config floaty_id
             [scenario_delivery 2 (cpu_result 85 95 1700000050)]
             initial_store (intervals_ok_initial scenario_config)
             "sys1" _ RAM_USE_LIMITER_NAME).
    vm_compute. reflexivity.
  - reflexivity.
Defined.

Lemma scenario_config_numeric n : numeric_spec (config_of scenario_config n).
Proof. destruct n; split; eexists; reflexivity. Qed.

Lemma floaty_zero_total x : is_Some (floaty_zero x).
Proof. destruct x; eexists; reflexivity. Qed.



(** A CRITICAL cpu alert pushed onto a queue of capacity 10 that holds one
    record, with a broker that does not deliver. *)
Lemma publishing_queue_stays_bounded_witness :
  (Z.of_nat
     (length
        (queue
           (publishing_queue
              (fst (_process_data scenario_config floaty_id
                      (scenario_delivery 2 (cpu_result 85 95 1700000050))
                      1700000051 (scenario_alerter [NotDelivered]))))))
   <= 10)%Z.
Proof.
  apply (publishing_queue_stays_bounded scenario_config floaty_id
           (scenario_delivery 2 (cpu_result 85 95 1700000050))
           1700000051 (scenario_alerter [NotDelivered])).
  - reflexivity.
  - vm_compute. discriminate.
Defined.

(** The same delivery with a broker that confirms: the record that was
    waiting, the new alert and the heartbeat are published. *)
Lemma confirmed_delivery_publishes_newest_witness :
  snd (_process_data scenario_config floaty_id
         (scenario_delivery 2 (cpu_result 85 95 1700000050))
         1700000051 (scenario_alerter []))
  = Ret tt /\
  queue
    (publishing_queue
       (fst (_process_data scenario_config floaty_id
               (scenario_delivery 2 (cpu_result 85 95 1700000050))
               1700000051 (scenario_alerter []))))
  = [].
Proof.
  destruct (confirmed_delivery_publishes_newest scenario_config floaty_id
              (scenario_delivery 2 (cpu_result 85 95 1700000050))
              1700000051 (scenario_alerter [])
              (cpu_result 85 95 1700000050))
    as (H1 & H2 & _).
  - reflexivity.
  - vm_compute. reflexivity.
  - intros o [].
  - reflexivity.
  - vm_compute. discriminate.
  - split; [exact H1 | exact H2].
Defined.

(** A ping to a manager whose dictionary is still empty: the heartbeat is
    published and no worker is started. *)
Lemma ping_without_dead_child_witness :
  fst (Manager._process_ping 1700000000
         (Manager.mkManager "manager" [] [] 0 []))
  = Manager.mkManager "manager" [] [] 0
      [Manager.EvPublish HEALTH_CHECK_EXCHANGE "heartbeat.manager"
         (Manager.mkHeartbeat "manager" [] [] 1700000000) Confirmed].
Proof.
  apply (ManagerRuns.ping_without_dead_child 1700000000
           (Manager.mkManager "manager" [] [] 0 [])).
  reflexivity.
Defined.
